(** * Semantic-graph integration layer of the AI research agent

    Shallow embedding of [semantic_graph/ai_research_agent_integration.py]:
    the seven normalizers ([_handle_*]), the four method wrappers installed by
    [integrate_*], and the two queries [get_integration_statistics] and
    [get_integration_health].

    Python values are a small universe [PyVal]; dictionaries are association
    lists in insertion order.  The class [SemanticGraphAgent] and the clock
    are external: they are an oracle over an abstract state.  Code that may
    raise lives in a state-and-exception monad that also emits an observation
    log (which normalizer fired, which client call was made and how it ended,
    which host method ran).

    Conventions.  Exceptions are those [except Exception] catches.  Calls to
    [logger] have no effect on state or control flow and are left out.  The
    original methods of the host objects act on the host's own state: they
    neither call the semantic graph nor read the clock.  A payload typed
    [Dict[str, Any]] is a dictionary; the values in it are arbitrary. *)

From Stdlib Require Import List String Ascii ZArith QArith Bool Arith Lia.
From Stdlib Require Import DecimalString.
Import ListNotations.
Open Scope string_scope.

Set Implicit Arguments.

(** ** Python values *)

Local Unset Elimination Schemes.
Inductive PyVal : Type :=
| VNone
| VBool (b : bool)
| VInt (z : Z)
| VFloat (q : Q)
| VInf (negative : bool)
| VStr (s : string)
| VList (l : list PyVal)
| VDict (d : list (string * PyVal)).
Local Set Elimination Schemes.

(** A [Dict[str, Any]]. *)
Definition Dict : Type := list (string * PyVal).

(** Exceptions derived from [Exception]: the class name and the text that
    [str(e)] returns. *)
Record PyExc : Type := mkExc { exc_class : string; exc_text : string }.

Inductive Result (A : Type) : Type :=
| Ok (a : A)
| Raise (e : PyExc).
Arguments Ok {A} a.
Arguments Raise {A} e.

Module Py.

(** [type(v).__name__] *)
Definition type_name (v : PyVal) : string :=
  match v with
  | VNone => "NoneType"
  | VBool _ => "bool"
  | VInt _ => "int"
  | VFloat _ | VInf _ => "float"
  | VStr _ => "str"
  | VList _ => "list"
  | VDict _ => "dict"
  end.

Definition TypeError (msg : string) : PyExc := mkExc "TypeError" msg.
Definition AttributeError (msg : string) : PyExc := mkExc "AttributeError" msg.
Definition KeyError (msg : string) : PyExc := mkExc "KeyError" msg.
Definition ValueError (msg : string) : PyExc := mkExc "ValueError" msg.
(** [Exception(msg)] for a string [msg]; [str] of it is [msg]. *)
Definition Exception (msg : string) : PyExc := mkExc "Exception" msg.

(** *** Dictionaries *)

Section Dicts.
Variable V : Type.

(** [d[k]] when present. *)
Fixpoint lookup (d : list (string * V)) (k : string) : option V :=
  match d with
  | [] => None
  | (k', v) :: d' => if String.eqb k' k then Some v else lookup d' k
  end.

(** [k in d] *)
Definition mem (d : list (string * V)) (k : string) : bool :=
  match lookup d k with Some _ => true | None => false end.

(** [d.get(k, dflt)] *)
Definition get (d : list (string * V)) (k : string) (dflt : V) : V :=
  match lookup d k with Some v => v | None => dflt end.

(** [d[k] = v]: an existing key keeps its position, a new one is appended. *)
Fixpoint set (d : list (string * V)) (k : string) (v : V) : list (string * V) :=
  match d with
  | [] => [(k, v)]
  | (k', v') :: d' =>
      if String.eqb k' k then (k', v) :: d' else (k', v') :: set d' k v
  end.

(** [{**d, **extra}] *)
Definition update (d extra : list (string * V)) : list (string * V) :=
  fold_left (fun acc kv => set acc (fst kv) (snd kv)) extra d.

(** A dict display [{k1: v1, ..., kn: vn}]. *)
Definition literal (items : list (string * V)) : list (string * V) :=
  update [] items.

Definition keys (d : list (string * V)) : list string := map fst d.
Definition values (d : list (string * V)) : list V := map snd d.
End Dicts.

(** [sum(xs)] over integers *)
Definition sum (xs : list Z) : Z := fold_left Z.add xs 0%Z.

(** *** Floats

    A float is a binary64 number.  [VFloat q] stands for the double nearest
    to the rational [q], so that a decimal literal of the source is written
    as it reads ([0.7] is [VFloat (7 # 10)]); an operation that computes on
    floats rounds its operands and its result.  A rational at or beyond
    [double_limit] has no finite double: a result of that size is an
    infinity, [VInf].  NaN is not a value here. *)

(** The least magnitude that no longer rounds to a finite double:
    [float(n)] raises [OverflowError] for an integer of that size. *)
Definition double_limit : Z := (2 ^ 1024 - 2 ^ 970)%Z.

(** The integer nearest to [n / d] for [0 <= n] and [0 < d], ties to even. *)
Definition round_half_even (n d : Z) : Z :=
  let f := (n / d)%Z in
  match (2 * (n mod d) ?= d)%Z with
  | Lt => f
  | Gt => (f + 1)%Z
  | Eq => if Z.even f then f else (f + 1)%Z
  end.

(** [floor (log2 (n / d))] for [0 < n] and [0 < d]. *)
Definition binary_exponent (n d : Z) : Z :=
  let e := (Z.log2 n - Z.log2 d)%Z in
  let reaches :=
    if (0 <=? e)%Z then (d * 2 ^ e <=? n)%Z else (d <=? n * 2 ^ (- e))%Z in
  if reaches then e else (e - 1)%Z.

(** The double nearest to [q] (round to nearest, ties to even; 53 bits of
    precision, gradual underflow below [2 ^ -1022]), as a reduced fraction. *)
Definition nearest_double (q : Q) : Q :=
  let n := Z.abs (Qnum q) in
  let d := Zpos (Qden q) in
  if (n =? 0)%Z then 0%Q
  else
    let ulp := Z.max (binary_exponent n d - 52) (-1074) in
    let magnitude :=
      if (0 <=? ulp)%Z
      then Qmake (round_half_even n (d * 2 ^ ulp) * 2 ^ ulp) 1
      else Qmake (round_half_even (n * 2 ^ (- ulp)) d) (Z.to_pos (2 ^ (- ulp))) in
    Qred (if (Qnum q <? 0)%Z then Qopp magnitude else magnitude).

(** The float that a computation with the exact result [q] yields. *)
Definition float_of_Q (q : Q) : PyVal :=
  let rounded := nearest_double q in
  if (Qle_bool (double_limit # 1) rounded) then VInf false
  else if (Qle_bool rounded (- double_limit # 1)) then VInf true
  else VFloat rounded.

(** *** Builtins on values *)

(** [bool(v)] *)
Definition truthy (v : PyVal) : bool :=
  match v with
  | VNone => false
  | VBool b => b
  | VInt z => negb (Z.eqb z 0)
  | VFloat q => negb (Qeq_bool (nearest_double q) 0)
  | VInf _ => true
  | VStr s => negb (String.eqb s "")
  | VList l => match l with [] => false | _ => true end
  | VDict d => match d with [] => false | _ => true end
  end.

(** [len(v)]; a string is the sequence of its characters. *)
Definition len (v : PyVal) : Result nat :=
  match v with
  | VStr s => Ok (String.length s)
  | VList l => Ok (List.length l)
  | VDict d => Ok (List.length d)
  | _ => Raise (TypeError ("object of type '" ++ type_name v ++ "' has no len()"))
  end.

(** [v.get(k, dflt)] *)
Definition get_method (v : PyVal) (k : string) (dflt : PyVal) : Result PyVal :=
  match v with
  | VDict d => Ok (get d k dflt)
  | _ => Raise (AttributeError
                  ("'" ++ type_name v ++ "' object has no attribute 'get'"))
  end.

Definition str_of_nat (n : nat) : string := NilZero.string_of_uint (Nat.to_uint n).
Definition str_of_Z (z : Z) : string := NilZero.string_of_int (Z.to_int z).

(** Does [needle] occur in [s]?  ([needle in s] for two strings.) *)
Fixpoint substring_of (needle s : string) : bool :=
  if String.prefix needle s then true
  else match s with
       | EmptyString => false
       | String _ s' => substring_of needle s'
       end.

Definition val_is_str (k : string) (v : PyVal) : bool :=
  match v with VStr s => String.eqb s k | _ => false end.

(** [k in v] for a string [k] *)
Definition contains (k : string) (v : PyVal) : Result bool :=
  match v with
  | VDict d => Ok (mem d k)
  | VList l => Ok (existsb (val_is_str k) l)
  | VStr s => Ok (substring_of k s)
  | _ => Raise (TypeError ("argument of type '" ++ type_name v ++ "' is not iterable"))
  end.

(** [v[k]] for a string [k] *)
Definition getitem (v : PyVal) (k : string) : Result PyVal :=
  match v with
  | VDict d => match lookup d k with
               | Some x => Ok x
               | None => Raise (KeyError ("'" ++ k ++ "'"))
               end
  | VList _ => Raise (TypeError "list indices must be integers or slices, not str")
  | VStr _ => Raise (TypeError "string indices must be integers, not 'str'")
  | _ => Raise (TypeError ("'" ++ type_name v ++ "' object is not subscriptable"))
  end.

Fixpoint last_char (s : string) : string :=
  match s with
  | EmptyString => EmptyString
  | String c EmptyString => String c EmptyString
  | String _ s' => last_char s'
  end.

(** [v[-1]]; dictionary keys are strings here, so [-1] is never a key. *)
Definition getitem_last (v : PyVal) : Result PyVal :=
  match v with
  | VList l => match rev l with
               | x :: _ => Ok x
               | [] => Raise (mkExc "IndexError" "list index out of range")
               end
  | VStr s => match s with
              | EmptyString => Raise (mkExc "IndexError" "string index out of range")
              | _ => Ok (VStr (last_char s))
              end
  | VDict _ => Raise (KeyError "-1")
  | _ => Raise (TypeError ("'" ++ type_name v ++ "' object is not subscriptable"))
  end.

Fixpoint repeat_string (n : nat) (s : string) : string :=
  match n with O => "" | S n' => s ++ repeat_string n' s end.

(** [v * 1000]; the product of a float is rounded to the nearest double. *)
Definition times_1000 (v : PyVal) : Result PyVal :=
  match v with
  | VBool b => Ok (VInt (if b then 1000 else 0))
  | VInt z => Ok (VInt (z * 1000))
  | VFloat q => Ok (float_of_Q (nearest_double q * 1000))
  | VInf negative => Ok (VInf negative)
  | VStr s => Ok (VStr (repeat_string 1000 s))
  | VList l => Ok (VList (List.concat (List.repeat l 1000)))
  | _ => Raise (TypeError ("unsupported operand type(s) for *: '"
                           ++ type_name v ++ "' and 'int'"))
  end.

End Py.

(** ** Events, external calls and the observation log *)

(** The seven event kinds; each has one normalizer and one counter. *)
Inductive EventKind : Type :=
| MemoryWrite | ToolUsage | Finding | Retrieval | Planning | Preference | Monitoring.

Definition all_kinds : list EventKind :=
  [MemoryWrite; ToolUsage; Finding; Retrieval; Planning; Preference; Monitoring].

Definition EventKind_eqb (a b : EventKind) : bool :=
  match a, b with
  | MemoryWrite, MemoryWrite | ToolUsage, ToolUsage | Finding, Finding
  | Retrieval, Retrieval | Planning, Planning | Preference, Preference
  | Monitoring, Monitoring => true
  | _, _ => false
  end.

(** The members of [IngestionSource] that this module uses. *)
Inductive IngestionSource : Type :=
| MEMORY | TOOL_USAGE | RESEARCH_FINDINGS | RETRIEVAL_LOGS | PLANNER_OUTPUTS.

(** One constructor per method of [SemanticGraphAgent] (and of its
    [ingestion_engine] and [monitoring] members) that this module calls,
    with the arguments of the call. *)
Inductive ClientCall : Type :=
| ingest_event (source : IngestionSource) (data : Dict) (priority : Z)
| enhanced_retrieval (query query_embedding strategy top_k node_types : PyVal)
| enhanced_planning (research_question context strategy max_steps : PyVal)
| record_user_feedback
    (user_id preferred_content rejected_content feedback_type confidence context : PyVal)
| record_operation_time (operation : PyVal) (milliseconds : PyVal)
| record_error (error_type : PyVal)
| record_context_event (context_type content : string) (relevance : Q)
| get_comprehensive_stats
| get_monitoring_dashboard_data
| process_pending_ingestion.

(** What a run leaves in the observation log. *)
Inductive Event : Type :=
| HookFired (k : EventKind) (payload : Dict)
| ClientCalled (c : ClientCall) (r : Result PyVal)
| HostCalled (method : string).

(** How often the normalizer of kind [k] was entered. *)
Definition fired (k : EventKind) (evs : list Event) : nat :=
  List.length
    (filter (fun ev => match ev with
                       | HookFired k' _ => EventKind_eqb k k'
                       | _ => false
                       end) evs).

(** How often an original host method ran. *)
Definition host_calls (evs : list Event) : nat :=
  List.length
    (filter (fun ev => match ev with HostCalled _ => true | _ => false end) evs).

(** The calls forwarded to the semantic graph, in order. *)
Fixpoint forwarded (evs : list Event) : list ClientCall :=
  match evs with
  | [] => []
  | ClientCalled c _ :: evs' => c :: forwarded evs'
  | _ :: evs' => forwarded evs'
  end.

(** The shape section 6 of the specification gives to the value a client
    call returns, as far as this module inspects it: a retrieval result is a
    mapping whose [results] entry (if any) is a sequence, a plan is a mapping
    whose [plan_steps] entry (if any) is a sequence. *)
Definition is_sized (v : PyVal) : bool :=
  match v with VStr _ | VList _ | VDict _ => true | _ => false end.

Definition conforms (c : ClientCall) (v : PyVal) : bool :=
  match c, v with
  | enhanced_retrieval _ _ _ _ _, VDict d => is_sized (Py.get d "results" (VList []))
  | enhanced_retrieval _ _ _ _ _, _ => false
  | enhanced_planning _ _ _ _, VDict d => is_sized (Py.get d "plan_steps" (VList []))
  | enhanced_planning _ _ _ _, _ => false
  | _, _ => true
  end.

(** The event is not a client call that raised or answered out of shape. *)
Definition client_ok (ev : Event) : bool :=
  match ev with
  | ClientCalled c (Ok v) => conforms c v
  | ClientCalled _ (Raise _) => false
  | _ => true
  end.

(** The event is not a client call that raised. *)
Definition client_returned (ev : Event) : bool :=
  match ev with
  | ClientCalled _ (Raise _) => false
  | _ => true
  end.

(** ** The integration instance and its effects *)

(** The outside world of one integration instance.  [G] is the state of the
    semantic graph together with the clock, [client] answers a call to the
    [SemanticGraphAgent] (a call may raise), [clock] is [datetime.now()] in
    microseconds.  The three rendering functions stand for Python's
    formatting of timestamps, of floats and containers, and of a number under
    the format [.2f]. *)
Record Externals (G : Type) : Type := mkExternals {
  client : ClientCall -> G -> Result PyVal * G;
  clock : G -> Z * G;
  isoformat : Z -> string;
  repr : PyVal -> string;
  render_2f : PyVal -> string
}.

(** [self] of [AIResearchAgentIntegration], with the host agent's own state
    [H], which only the original host methods read and write. *)
Record State (G H : Type) : Type := mkState {
  integration_hooks : list (string * EventKind);
  integration_stats : list (string * Z);
  semantic_graph : G;
  host : H
}.

(** What running a piece of code yields: a value or a raised exception, the
    state it leaves, and the events it emitted. *)
Record Outcome (S A : Type) : Type := mkOutcome {
  result : Result A;
  final : S;
  events : list Event
}.

Section Integration.

Variables G H : Type.
Variable ext : Externals G.

Definition St : Type := State G H.

Definition M (A : Type) : Type := St -> Outcome St A.

Definition ret {A} (a : A) : M A := fun s => mkOutcome (Ok a) s [].

Definition raise {A} (e : PyExc) : M A := fun s => mkOutcome (Raise e) s [].

Definition bind {A B} (m : M A) (f : A -> M B) : M B :=
  fun s =>
    match m s with
    | mkOutcome (Ok a) s1 evs1 =>
        match f a s1 with
        | mkOutcome r s2 evs2 => mkOutcome r s2 (evs1 ++ evs2)
        end
    | mkOutcome (Raise e) s1 evs1 => mkOutcome (Raise e) s1 evs1
    end.

(** [try: body  except Exception as e: handler e] *)
Definition try_except {A} (body : M A) (handler : PyExc -> M A) : M A :=
  fun s =>
    match body s with
    | mkOutcome (Ok a) s1 evs1 => mkOutcome (Ok a) s1 evs1
    | mkOutcome (Raise e) s1 evs1 =>
        match handler e s1 with
        | mkOutcome r s2 evs2 => mkOutcome r s2 (evs1 ++ evs2)
        end
    end.

Notation "x <- m ;; k" := (bind m (fun x => k))
  (at level 61, m at next level, right associativity).
Notation "m ;;; k" := (bind m (fun _ => k))
  (at level 61, right associativity).

Definition of_result {A} (r : Result A) : M A :=
  fun s => mkOutcome r s [].

Definition emit (ev : Event) : M unit :=
  fun s => mkOutcome (Ok tt) s [ev].

(** A call on [self.semantic_graph]. *)
Definition call (c : ClientCall) : M PyVal :=
  fun s =>
    let (r, g') := client ext c (semantic_graph s) in
    mkOutcome r
      (mkState (integration_hooks s) (integration_stats s) g' (host s))
      [ClientCalled c r].

(** [datetime.now()] *)
Definition datetime_now : M Z :=
  fun s =>
    let (t, g') := clock ext (semantic_graph s) in
    mkOutcome (Ok t)
      (mkState (integration_hooks s) (integration_stats s) g' (host s)) [].

(** An original method of a host object; [f] acts on the host's state. *)
Definition call_host {A} (method : string) (f : H -> Result A * H) : M A :=
  fun s =>
    let (r, h') := f (host s) in
    mkOutcome r
      (mkState (integration_hooks s) (integration_stats s) (semantic_graph s) h')
      [HostCalled method].

(** [self.integration_stats[key] += 1] *)
Definition stats_increment (key : string) : M unit :=
  fun s =>
    match Py.lookup (integration_stats s) key with
    | Some n =>
        mkOutcome (Ok tt)
          (mkState (integration_hooks s)
                   (Py.set (integration_stats s) key (n + 1)%Z)
                   (semantic_graph s) (host s)) []
    | None => mkOutcome (Raise (Py.KeyError ("'" ++ key ++ "'"))) s []
    end.

(** [self.integration_hooks[name] = handler] *)
Definition register_hook (name : string) (k : EventKind) (s : St) : St :=
  mkState (Py.set (integration_hooks s) name k) (integration_stats s)
          (semantic_graph s) (host s).

(** [str(v)]: floats and containers are rendered by [repr ext]. *)
Definition str (v : PyVal) : string :=
  match v with
  | VNone => "None"
  | VBool true => "True"
  | VBool false => "False"
  | VInt z => Py.str_of_Z z
  | VStr s => s
  | _ => repr ext v
  end.

(** [f"{v:.2f}"]; an integer is converted to a float first. *)
Definition format_2f (v : PyVal) : Result string :=
  match v with
  | VBool _ | VFloat _ | VInf _ => Ok (render_2f ext v)
  | VInt z =>
      if (Z.abs z <? Py.double_limit)%Z then Ok (render_2f ext v)
      else Raise (mkExc "OverflowError" "int too large to convert to float")
  | VStr _ => Raise (Py.ValueError "Unknown format code 'f' for object of type 'str'")
  | _ => Raise (Py.TypeError ("unsupported format string passed to "
                              ++ Py.type_name v ++ ".__format__"))
  end.

(** The counter of [integration_stats] that belongs to a kind. *)
Definition counter_key (k : EventKind) : string :=
  match k with
  | MemoryWrite => "memory_writes"
  | ToolUsage => "tool_usage_logs"
  | Finding => "findings_captured"
  | Retrieval => "retrieval_calls"
  | Planning => "plan_generations"
  | Preference => "preference_logs"
  | Monitoring => "monitoring_events"
  end.

(** [__init__]: the empty registry and the literal of seven zero counters. *)
Definition initial_stats : list (string * Z) :=
  Py.literal
    [("memory_writes", 0%Z); ("tool_usage_logs", 0%Z); ("findings_captured", 0%Z);
     ("retrieval_calls", 0%Z); ("plan_generations", 0%Z); ("preference_logs", 0%Z);
     ("monitoring_events", 0%Z)].

Definition _register_integration_hooks (s : St) : St :=
  let s := register_hook "memory_writes" MemoryWrite s in
  let s := register_hook "tool_usage_logs" ToolUsage s in
  let s := register_hook "findings_capture" Finding s in
  let s := register_hook "retrieval_calls" Retrieval s in
  let s := register_hook "plan_generation" Planning s in
  let s := register_hook "preference_logging" Preference s in
  register_hook "monitoring" Monitoring s.

Definition __init__ (semantic_graph_agent : G) (h : H) : St :=
  _register_integration_hooks (mkState [] initial_stats semantic_graph_agent h).

(** ** The seven normalizers *)

(** Integration point 1: memory writes. *)
Definition _handle_memory_output (memory_data : Dict) : M PyVal :=
  emit (HookFired MemoryWrite memory_data) ;;;
  try_except
    (let content := Py.get memory_data "content" (VStr "") in
     let importance := Py.get memory_data "importance" (VFloat (1 # 2)) in
     let memory_type := Py.get memory_data "memory_type" (VStr "general") in
     let session_id := Py.get memory_data "session_id" (VStr "default") in
     now <- datetime_now ;;
     let ingestion_data :=
       Py.literal
         [("content", content); ("importance", importance);
          ("memory_type", memory_type); ("session_id", session_id);
          ("timestamp", VStr (isoformat ext now));
          ("source", VStr "memory_manager")] in
     let ingestion_data :=
       match Py.lookup memory_data "concepts" with
       | Some v => Py.set ingestion_data "concepts" v
       | None => ingestion_data
       end in
     let ingestion_data :=
       match Py.lookup memory_data "citations" with
       | Some v => Py.set ingestion_data "citations" v
       | None => ingestion_data
       end in
     call (ingest_event MEMORY ingestion_data 2) ;;;
     stats_increment "memory_writes" ;;;
     n <- of_result (Py.len content) ;;
     ret (VStr ("Memory content ingested into semantic graph: "
                ++ Py.str_of_nat n ++ " chars")))
    (fun e => ret (VStr ("Memory integration error: " ++ exc_text e))).

(** Integration point 2: tool usage logs. *)
Definition _handle_tool_usage (tool_data : Dict) : M PyVal :=
  emit (HookFired ToolUsage tool_data) ;;;
  try_except
    (let tool_name := Py.get tool_data "tool_name" (VStr "") in
     let tool_input := Py.get tool_data "tool_input" (VStr "") in
     let tool_output := Py.get tool_data "tool_output" (VStr "") in
     let execution_time := Py.get tool_data "execution_time" (VFloat 0) in
     let success := Py.get tool_data "success" (VBool true) in
     now <- datetime_now ;;
     let usage_data :=
       Py.literal
         [("tool_name", tool_name); ("input", tool_input); ("output", tool_output);
          ("execution_time", execution_time); ("success", success);
          ("timestamp", VStr (isoformat ext now));
          ("usage_context", Py.get tool_data "context" (VStr "research"))] in
     call (ingest_event TOOL_USAGE usage_data 1) ;;;
     stats_increment "tool_usage_logs" ;;;
     ret (VStr ("Tool usage logged: " ++ str tool_name ++ " -> semantic graph")))
    (fun e => ret (VStr ("Tool usage integration error: " ++ exc_text e))).

(** Integration point 3: findings capture. *)
Definition _handle_finding (finding_data : Dict) : M PyVal :=
  emit (HookFired Finding finding_data) ;;;
  try_except
    (let finding_content := Py.get finding_data "finding" (VStr "") in
     let step_info := Py.get finding_data "step_info" (VDict []) in
     let confidence := Py.get finding_data "confidence" (VFloat (1 # 2)) in
     let sources := Py.get finding_data "sources" (VList []) in
     let analysis := Py.get finding_data "analysis" (VStr "") in
     research_step <- of_result (Py.get_method step_info "step_number" (VInt 0)) ;;
     now <- datetime_now ;;
     let research_data :=
       Py.literal
         [("finding", finding_content); ("analysis", analysis);
          ("confidence", confidence); ("sources", sources);
          ("step_info", step_info); ("research_step", research_step);
          ("timestamp", VStr (isoformat ext now))] in
     call (ingest_event RESEARCH_FINDINGS research_data 2) ;;;
     stats_increment "findings_captured" ;;;
     n <- of_result (Py.len finding_content) ;;
     ret (VStr ("Research finding captured: " ++ Py.str_of_nat n ++ " chars")))
    (fun e => ret (VStr ("Finding capture error: " ++ exc_text e))).

(** Integration point 4: retrieval calls. *)
Definition _handle_retrieval (retrieval_data : Dict) : M PyVal :=
  emit (HookFired Retrieval retrieval_data) ;;;
  try_except
    (let query := Py.get retrieval_data "query" (VStr "") in
     let query_embedding := Py.get retrieval_data "query_embedding" VNone in
     let strategy := Py.get retrieval_data "strategy" (VStr "hybrid") in
     let top_k := Py.get retrieval_data "top_k" (VInt 10) in
     let node_types := Py.get retrieval_data "node_types" VNone in
     results <- call (enhanced_retrieval query query_embedding strategy top_k node_types) ;;
     hits <- of_result (Py.get_method results "results" (VList [])) ;;
     results_count <- of_result (Py.len hits) ;;
     now <- datetime_now ;;
     let retrieval_log :=
       Py.literal
         [("query", query); ("strategy", strategy);
          ("results_count", VInt (Z.of_nat results_count));
          ("timestamp", VStr (isoformat ext now))] in
     call (ingest_event RETRIEVAL_LOGS retrieval_log 1) ;;;
     stats_increment "retrieval_calls" ;;;
     ret results)
    (fun e => ret (VDict (Py.literal [("error", VStr (exc_text e));
                                      ("results", VList [])]))).

(** Integration point 5: plan generation. *)
Definition _handle_planning (planning_data : Dict) : M PyVal :=
  emit (HookFired Planning planning_data) ;;;
  try_except
    (let research_question := Py.get planning_data "research_question" (VStr "") in
     let context := Py.get planning_data "context" (VDict []) in
     let strategy := Py.get planning_data "strategy" (VStr "hybrid") in
     let max_steps := Py.get planning_data "max_steps" (VInt 8) in
     plan <- call (enhanced_planning research_question context strategy max_steps) ;;
     steps <- of_result (Py.get_method plan "plan_steps" (VList [])) ;;
     plan_steps <- of_result (Py.len steps) ;;
     graph_connectivity <- of_result (Py.get_method plan "graph_connectivity" (VDict [])) ;;
     now <- datetime_now ;;
     let planning_log :=
       Py.literal
         [("research_question", research_question); ("strategy", strategy);
          ("plan_steps", VInt (Z.of_nat plan_steps));
          ("graph_connectivity", graph_connectivity);
          ("timestamp", VStr (isoformat ext now))] in
     call (ingest_event PLANNER_OUTPUTS planning_log 2) ;;;
     stats_increment "plan_generations" ;;;
     ret plan)
    (fun e => ret (VDict (Py.literal [("error", VStr (exc_text e));
                                      ("plan_steps", VList [])]))).

(** Integration point 6: preference logging. *)
Definition _handle_preference (preference_data : Dict) : M PyVal :=
  emit (HookFired Preference preference_data) ;;;
  try_except
    (let user_id := Py.get preference_data "user_id" (VStr "anonymous") in
     let preferred_content := Py.get preference_data "preferred_content" (VStr "") in
     let rejected_content := Py.get preference_data "rejected_content" (VStr "") in
     let feedback_type := Py.get preference_data "feedback_type" (VStr "quality") in
     let confidence := Py.get preference_data "confidence" (VFloat 1) in
     let context := Py.get preference_data "context" (VStr "") in
     preference_id <-
       call (record_user_feedback user_id preferred_content rejected_content
                                  feedback_type confidence context) ;;
     stats_increment "preference_logs" ;;;
     ret (VStr ("User preference recorded: " ++ str preference_id)))
    (fun e => ret (VStr ("Preference logging error: " ++ exc_text e))).

(** Integration point 7: monitoring. *)
Definition _handle_monitoring (monitoring_data : Dict) : M PyVal :=
  emit (HookFired Monitoring monitoring_data) ;;;
  try_except
    (let step_name := Py.get monitoring_data "step_name" (VStr "unknown") in
     let execution_time := Py.get monitoring_data "execution_time" (VFloat 0) in
     let success := Py.get monitoring_data "success" (VBool true) in
     milliseconds <- of_result (Py.times_1000 execution_time) ;;
     call (record_operation_time step_name milliseconds) ;;;
     (if Py.truthy success then ret VNone
      else
        let error_type := Py.get monitoring_data "error_type" (VStr "general_error") in
        call (record_error error_type)) ;;;
     datetime_now ;;;
     seconds <- of_result (format_2f execution_time) ;;
     call (record_context_event
             "monitoring"
             ("Step: " ++ str step_name ++ ", Time: " ++ seconds ++ "s")
             (3 # 10)) ;;;
     stats_increment "monitoring_events" ;;;
     ret (VStr ("Monitoring data recorded for step: " ++ str step_name)))
    (fun e => ret (VStr ("Monitoring integration error: " ++ exc_text e))).

(** The normalizer registered for a kind. *)
Definition handler (k : EventKind) : Dict -> M PyVal :=
  match k with
  | MemoryWrite => _handle_memory_output
  | ToolUsage => _handle_tool_usage
  | Finding => _handle_finding
  | Retrieval => _handle_retrieval
  | Planning => _handle_planning
  | Preference => _handle_preference
  | Monitoring => _handle_monitoring
  end.

(** [self.integration_hooks[name](payload)] *)
Definition call_hook (name : string) (payload : Dict) : M PyVal :=
  fun s =>
    match Py.lookup (integration_hooks s) name with
    | Some k => handler k payload s
    | None => mkOutcome (Raise (Py.KeyError ("'" ++ name ++ "'"))) s []
    end.

(** ** Host objects and the method wrappers

    A host object holds the method currently bound to its attribute; an
    [integrate_*] operation reads that attribute and rebinds it to a closure
    over what it read. *)

Record MemoryManager : Type := mkMemoryManager {
  save_research_finding : PyVal -> option PyVal -> Dict -> M PyVal;
  (** [getattr(memory_manager, 'current_episode_id', ...)], [None] when the
      attribute is absent *)
  current_episode_id : H -> option PyVal
}.

Record ToolExecutor : Type := mkToolExecutor {
  invoke : Dict -> M PyVal
}.

Record ResearchAgent : Type := mkResearchAgent {
  execute_research_step : PyVal -> M PyVal
}.

Record FeedbackCollector : Type := mkFeedbackCollector {
  capture_research_output : PyVal -> PyVal -> PyVal -> M PyVal
}.

(** [feedback_collector] is [None] when the attribute is absent or falsy. *)
Record RLHFSystem : Type := mkRLHFSystem {
  feedback_collector : option FeedbackCollector
}.

(** Host objects before any integration: every method is the host's own. *)
Definition host_memory_manager
    (f : PyVal -> option PyVal -> Dict -> H -> Result PyVal * H)
    (episode : H -> option PyVal) : MemoryManager :=
  mkMemoryManager
    (fun content importance kwargs =>
       call_host "save_research_finding" (f content importance kwargs))
    episode.

Definition host_tool_executor (f : Dict -> H -> Result PyVal * H) : ToolExecutor :=
  mkToolExecutor (fun tool_input => call_host "invoke" (f tool_input)).

Definition host_research_agent (f : PyVal -> H -> Result PyVal * H) : ResearchAgent :=
  mkResearchAgent (fun state => call_host "execute_research_step" (f state)).

Definition host_feedback_collector
    (f : PyVal -> PyVal -> PyVal -> H -> Result PyVal * H) : FeedbackCollector :=
  mkFeedbackCollector
    (fun research_result research_question session_id =>
       call_host "capture_research_output"
                 (f research_result research_question session_id)).

Definition get_state : M St := fun s => mkOutcome (Ok s) s [].

Definition enhanced_save_finding
    (memory_manager : MemoryManager)
    (original_save_method : PyVal -> option PyVal -> Dict -> M PyVal)
    (content : PyVal) (importance : option PyVal) (kwargs : Dict) : M PyVal :=
  let importance :=
    match importance with Some v => v | None => VFloat (1 # 2) end in
  result <- original_save_method content (Some importance) kwargs ;;
  s <- get_state ;;
  let session_id :=
    match current_episode_id memory_manager (host s) with
    | Some v => v
    | None => VStr "default"
    end in
  let memory_data :=
    Py.update
      (Py.literal
         [("content", content); ("importance", importance);
          ("memory_type", VStr "research_finding"); ("session_id", session_id)])
      kwargs in
  _handle_memory_output memory_data ;;;
  ret result.

Definition integrate_memory_manager (memory_manager : MemoryManager) : MemoryManager :=
  let original_save_method := save_research_finding memory_manager in
  mkMemoryManager
    (enhanced_save_finding memory_manager original_save_method)
    (current_episode_id memory_manager).

Definition enhanced_invoke
    (original_invoke_method : Dict -> M PyVal) (tool_input : Dict) : M PyVal :=
  start_time <- datetime_now ;;
  attempt <-
    try_except
      (result <- original_invoke_method tool_input ;;
       ret (result, true, None))
      (fun e =>
         ret (VStr ("Tool execution failed: " ++ exc_text e), false,
              Some (exc_text e))) ;;
  let '(result, success, error) := attempt in
  end_time <- datetime_now ;;
  let execution_time := VFloat (Qmake (end_time - start_time) 1000000) in
  let tool_data :=
    Py.literal
      [("tool_name", Py.get tool_input "tool" (VStr "unknown"));
       ("tool_input", VStr (str (Py.get tool_input "tool_input" (VStr ""))));
       ("tool_output", VStr (str result));
       ("execution_time", execution_time);
       ("success", VBool success);
       ("error", match error with Some msg => VStr msg | None => VNone end)] in
  _handle_tool_usage tool_data ;;;
  if negb success
  then raise (Py.Exception (match error with Some msg => msg | None => "None" end))
  else ret result.

Definition integrate_tool_executor (tool_executor : ToolExecutor) : ToolExecutor :=
  let original_invoke_method := invoke tool_executor in
  mkToolExecutor (enhanced_invoke original_invoke_method).

Definition enhanced_execute_step
    (original_execute_step : PyVal -> M PyVal) (state : PyVal) : M PyVal :=
  result_state <- original_execute_step state ;;
  present <- of_result (Py.contains "findings" result_state) ;;
  nonempty <-
    (if present
     then findings <- of_result (Py.getitem result_state "findings") ;;
          ret (Py.truthy findings)
     else ret false) ;;
  (if nonempty
   then
     findings <- of_result (Py.getitem result_state "findings") ;;
     latest_finding <- of_result (Py.getitem_last findings) ;;
     finding <- of_result (Py.get_method latest_finding "analysis" (VStr "")) ;;
     step_number <- of_result (Py.get_method latest_finding "step" (VInt 0)) ;;
     step_description <-
       of_result (Py.get_method latest_finding "step_description" (VStr "")) ;;
     sources <-
       of_result (Py.get_method latest_finding "external_research" (VList [])) ;;
     analysis <- of_result (Py.get_method latest_finding "analysis" (VStr "")) ;;
     let finding_data :=
       Py.literal
         [("finding", finding);
          ("step_info",
           VDict (Py.literal [("step_number", step_number);
                              ("step_description", step_description)]));
          ("confidence", VFloat (7 # 10));
          ("sources", sources);
          ("analysis", analysis)] in
     _handle_finding finding_data ;;;
     ret tt
   else ret tt) ;;;
  ret result_state.

Definition integrate_research_loop (research_agent : ResearchAgent) : ResearchAgent :=
  let original_execute_step := execute_research_step research_agent in
  mkResearchAgent (enhanced_execute_step original_execute_step).

Definition enhanced_capture_output
    (original_capture_method : PyVal -> PyVal -> PyVal -> M PyVal)
    (research_result research_question session_id : PyVal) : M PyVal :=
  result <- original_capture_method research_result research_question session_id ;;
  call (record_context_event
          "rlhf_capture"
          ("Research output captured for feedback: " ++ str session_id)
          (1 # 2)) ;;;
  ret result.

Definition integrate_rlhf_system (rlhf_system : RLHFSystem) : RLHFSystem :=
  match feedback_collector rlhf_system with
  | Some collector =>
      let original_capture_method := capture_research_output collector in
      mkRLHFSystem
        (Some (mkFeedbackCollector (enhanced_capture_output original_capture_method)))
  | None => rlhf_system
  end.

(** [rlhf_system.feedback_collector.capture_research_output(...)] *)
Definition call_capture_research_output (rlhf_system : RLHFSystem)
    (research_result research_question session_id : PyVal) : M PyVal :=
  match feedback_collector rlhf_system with
  | Some collector =>
      capture_research_output collector research_result research_question session_id
  | None =>
      raise (Py.AttributeError
               "'NoneType' object has no attribute 'capture_research_output'")
  end.

(** ** Queries *)

Definition get_integration_statistics : M Dict :=
  semantic_stats <- call get_comprehensive_stats ;;
  s <- get_state ;;
  now <- datetime_now ;;
  ret (Py.literal
         [("integration_stats",
           VDict (map (fun kv => (fst kv, VInt (snd kv))) (integration_stats s)));
          ("semantic_graph_stats", semantic_stats);
          ("hooks_registered", VInt (Z.of_nat (List.length (integration_hooks s))));
          ("total_integrations", VInt (Py.sum (Py.values (integration_stats s))));
          ("last_updated", VStr (isoformat ext now))]).

Definition process_pending_events : M unit :=
  call process_pending_ingestion ;;; ret tt.

Definition get_integration_health : M Dict :=
  s <- get_state ;;
  let total_events_processed := Py.sum (Py.values (integration_stats s)) in
  dashboard <- call get_monitoring_dashboard_data ;;
  now <- datetime_now ;;
  let health_data :=
    Py.literal
      [("integration_points_active",
        VInt (Z.of_nat (List.length (integration_hooks s))));
       ("total_events_processed", VInt total_events_processed);
       ("semantic_graph_health", dashboard);
       ("integration_errors", VInt 0);
       ("last_activity", VStr (isoformat ext now))] in
  if (total_events_processed >? 0)%Z
  then ret (Py.set health_data "status" (VStr "active"))
  else ret (Py.set health_data "status" (VStr "idle")).

(** ** Operations on one instance and the states they reach *)

(** A host object to which [integrate_*] was applied [layers] times. *)
Definition wrapped_memory_manager (layers : nat)
    (f : PyVal -> option PyVal -> Dict -> H -> Result PyVal * H)
    (episode : H -> option PyVal) : MemoryManager :=
  Nat.iter layers integrate_memory_manager (host_memory_manager f episode).

Definition wrapped_tool_executor (layers : nat)
    (f : Dict -> H -> Result PyVal * H) : ToolExecutor :=
  Nat.iter layers integrate_tool_executor (host_tool_executor f).

Definition wrapped_research_agent (layers : nat)
    (f : PyVal -> H -> Result PyVal * H) : ResearchAgent :=
  Nat.iter layers integrate_research_loop (host_research_agent f).

Definition wrapped_rlhf_system (layers : nat)
    (f : PyVal -> PyVal -> PyVal -> H -> Result PyVal * H) : RLHFSystem :=
  Nat.iter layers integrate_rlhf_system
           (mkRLHFSystem (Some (host_feedback_collector f))).

(** What a caller can do with an instance and the host objects wired to it. *)
Inductive Op : Type :=
| op_normalize (k : EventKind) (payload : Dict)
| op_call_hook (name : string) (payload : Dict)
| op_save (layers : nat)
          (f : PyVal -> option PyVal -> Dict -> H -> Result PyVal * H)
          (episode : H -> option PyVal)
          (content : PyVal) (importance : option PyVal) (kwargs : Dict)
| op_invoke (layers : nat) (f : Dict -> H -> Result PyVal * H) (tool_input : Dict)
| op_step (layers : nat) (f : PyVal -> H -> Result PyVal * H) (state : PyVal)
| op_capture (layers : nat)
             (f : PyVal -> PyVal -> PyVal -> H -> Result PyVal * H)
             (research_result research_question session_id : PyVal)
| op_statistics
| op_health
| op_process_pending.

Definition perform (o : Op) (s : St) : St :=
  match o with
  | op_normalize k payload => final (handler k payload s)
  | op_call_hook name payload => final (call_hook name payload s)
  | op_save layers f episode content importance kwargs =>
      final (save_research_finding (wrapped_memory_manager layers f episode)
                                   content importance kwargs s)
  | op_invoke layers f tool_input =>
      final (invoke (wrapped_tool_executor layers f) tool_input s)
  | op_step layers f state =>
      final (execute_research_step (wrapped_research_agent layers f) state s)
  | op_capture layers f research_result research_question session_id =>
      final (call_capture_research_output
               (wrapped_rlhf_system layers f)
               research_result research_question session_id s)
  | op_statistics => final (get_integration_statistics s)
  | op_health => final (get_integration_health s)
  | op_process_pending => final (process_pending_events s)
  end.

Definition perform_all (ops : list Op) (s : St) : St :=
  fold_left (fun s o => perform o s) ops s.

Inductive reachable : St -> Prop :=
| reachable_init (semantic_graph_agent : G) (h : H) :
    reachable (__init__ semantic_graph_agent h)
| reachable_step (s : St) (o : Op) :
    reachable s -> reachable (perform o s).

(** The value of a kind's counter ([0] if the key were missing). *)
Definition counter (k : EventKind) (s : St) : Z :=
  Py.get (integration_stats s) (counter_key k) 0%Z.

Definition total_events (s : St) : Z :=
  (counter MemoryWrite s + counter ToolUsage s + counter Finding s
   + counter Retrieval s + counter Planning s + counter Preference s
   + counter Monitoring s)%Z.

(** The error-shaped value a normalizer returns for a caught exception. *)
Definition error_value (k : EventKind) (e : PyExc) : PyVal :=
  match k with
  | MemoryWrite => VStr ("Memory integration error: " ++ exc_text e)
  | ToolUsage => VStr ("Tool usage integration error: " ++ exc_text e)
  | Finding => VStr ("Finding capture error: " ++ exc_text e)
  | Retrieval => VDict [("error", VStr (exc_text e)); ("results", VList [])]
  | Planning => VDict [("error", VStr (exc_text e)); ("plan_steps", VList [])]
  | Preference => VStr ("Preference logging error: " ++ exc_text e)
  | Monitoring => VStr ("Monitoring integration error: " ++ exc_text e)
  end.

(** The stats have the seven keys of the literal in [__init__], in its order. *)
Definition stats_shape (stats : list (string * Z)) : Prop :=
  Py.keys stats = map counter_key all_kinds.

(** What every run of a normalizer of kind [k] on [payload] from state [s]
    guarantees. *)
Definition normalizer_post (k : EventKind) (payload : Dict) (s : St)
    (o : Outcome St PyVal) : Prop :=
  (exists v, result o = Ok v)
  /\ integration_hooks (final o) = integration_hooks s
  /\ host (final o) = host s
  /\ (forall k', fired k' (events o) = if EventKind_eqb k' k then 1 else 0)%nat
  /\ host_calls (events o) = 0%nat
  /\ (integration_stats (final o) = integration_stats s
      \/ (exists n, Py.lookup (integration_stats s) (counter_key k) = Some n
            /\ integration_stats (final o)
               = Py.set (integration_stats s) (counter_key k) (n + 1)%Z
            /\ forallb client_returned (events o) = true))
  /\ (forall c e, In (ClientCalled c (Raise e)) (events o) ->
        result o = Ok (error_value k e)
        /\ integration_stats (final o) = integration_stats s)
  /\ (exists rest, events o = HookFired k payload :: rest).

(** Counters only grow, and no key appears or disappears. *)
Definition stats_le (d d' : list (string * Z)) : Prop :=
  Py.keys d' = Py.keys d /\ forall key, (Py.get d key 0 <= Py.get d' key 0)%Z.

(** A computation leaves the registry alone and only grows the counters. *)
Definition preserves {A} (m : M A) : Prop :=
  forall s,
    integration_hooks (final (m s)) = integration_hooks s
    /\ stats_le (integration_stats s) (integration_stats (final (m s))).

(** The part of [enhanced_execute_step] between the original call and the
    normalizer: the payload built from the latest finding, [None] when the
    state has no findings. *)
Definition latest_finding_data (result_state : PyVal) : Result (option Dict) :=
  match Py.contains "findings" result_state with
  | Raise e => Raise e
  | Ok false => Ok None
  | Ok true =>
      match Py.getitem result_state "findings" with
      | Raise e => Raise e
      | Ok findings =>
          if Py.truthy findings then
            match Py.getitem_last findings with
            | Raise e => Raise e
            | Ok latest_finding =>
                match latest_finding with
                | VDict d =>
                    Ok (Some
                          (Py.literal
                             [("finding", Py.get d "analysis" (VStr ""));
                              ("step_info",
                               VDict (Py.literal
                                        [("step_number", Py.get d "step" (VInt 0));
                                         ("step_description",
                                          Py.get d "step_description" (VStr ""))]));
                              ("confidence", VFloat (7 # 10));
                              ("sources", Py.get d "external_research" (VList []));
                              ("analysis", Py.get d "analysis" (VStr ""))]))
                | _ => Raise (Py.AttributeError
                                ("'" ++ Py.type_name latest_finding
                                 ++ "' object has no attribute 'get'"))
                end
            end
          else Ok None
      end
  end.

End Integration.

Arguments host_memory_manager {G H} f episode.
Arguments host_tool_executor {G H} f.
Arguments host_research_agent {G H} f.
Arguments host_feedback_collector {G H} f.

(** What the result of a tool call looks like once [enhanced_invoke] has
    raised [Exception(str(e))] in place of [e]. *)
Definition reraised (A : Type) (r : Result A) : Result A :=
  match r with
  | Ok a => Ok a
  | Raise e => Raise (Py.Exception (exc_text e))
  end.

(** One more firing when [b] holds, none otherwise. *)
Definition one_if (b : bool) : nat := if b then 1%nat else 0%nat.

(** The state a research step returns, as the host builds it: a mapping
    whose [findings] entry, when present, is a list, and the last finding,
    when there is one, is a mapping. *)
Definition well_formed_state (v : PyVal) : bool :=
  match v with
  | VDict d =>
      match Py.lookup d "findings" with
      | None => true
      | Some (VList l) =>
          match rev l with
          | [] => true
          | VDict _ :: _ => true
          | _ => false
          end
      | Some _ => false
      end
  | _ => false
  end.

(** What section 4.1 of the specification documents as forwarded for an
    empty payload: every field at its default.  Timestamps, the counts taken
    from a retrieval or planning answer and the rendering of [0.0] under
    [.2f] are left open. *)
Definition documented_defaults (k : EventKind) (calls : list ClientCall) : Prop :=
  match k with
  | MemoryWrite =>
      exists ts,
        calls = [ingest_event MEMORY
                   [("content", VStr ""); ("importance", VFloat (1 # 2));
                    ("memory_type", VStr "general"); ("session_id", VStr "default");
                    ("timestamp", VStr ts); ("source", VStr "memory_manager")] 2]
  | ToolUsage =>
      exists ts,
        calls = [ingest_event TOOL_USAGE
                   [("tool_name", VStr ""); ("input", VStr ""); ("output", VStr "");
                    ("execution_time", VFloat 0); ("success", VBool true);
                    ("timestamp", VStr ts); ("usage_context", VStr "research")] 1]
  | Finding =>
      exists ts,
        calls = [ingest_event RESEARCH_FINDINGS
                   [("finding", VStr ""); ("analysis", VStr "");
                    ("confidence", VFloat (1 # 2)); ("sources", VList []);
                    ("step_info", VDict []); ("research_step", VInt 0);
                    ("timestamp", VStr ts)] 2]
  | Retrieval =>
      exists n ts,
        calls = [enhanced_retrieval (VStr "") VNone (VStr "hybrid") (VInt 10) VNone;
                 ingest_event RETRIEVAL_LOGS
                   [("query", VStr ""); ("strategy", VStr "hybrid");
                    ("results_count", VInt n); ("timestamp", VStr ts)] 1]
  | Planning =>
      exists n connectivity ts,
        calls = [enhanced_planning (VStr "") (VDict []) (VStr "hybrid") (VInt 8);
                 ingest_event PLANNER_OUTPUTS
                   [("research_question", VStr ""); ("strategy", VStr "hybrid");
                    ("plan_steps", VInt n); ("graph_connectivity", connectivity);
                    ("timestamp", VStr ts)] 2]
  | Preference =>
      calls = [record_user_feedback (VStr "anonymous") (VStr "") (VStr "")
                                    (VStr "quality") (VFloat 1) (VStr "")]
  | Monitoring =>
      exists seconds,
        calls = [record_operation_time (VStr "unknown") (VFloat (0 * 1000));
                 record_context_event
                   "monitoring" ("Step: unknown, Time: " ++ seconds ++ "s") (3 # 10)]
  end.

(** ** Wiring a whole agent

    [integrate_research_agent_with_semantic_graph] works on the object graph
    of a research agent.  Its attributes may be absent ([hasattr]), what an
    attribute holds need not have the method an [integrate_*] reads from it,
    several memory tools may be bound to one memory manager, and the helper
    mutates the objects in place, so the agent is returned together with the
    result: what was rebound before an exception stays rebound.

    Conventions.  An attribute that can be read can be assigned.  Each
    [integrate_*] reads and assigns one attribute of its own name, so it
    makes no difference whether two of the objects below are the same
    object. *)

(** An object of the host as far as the helper looks at it: the name of its
    class and the object seen as an [A], [None] when it has no attribute of
    the name that [integrate_*] reads ([save_research_finding] for a memory
    manager, [invoke] for a tool executor, [capture_research_output] for a
    feedback collector). *)
Record HostObject (A : Type) : Type := mkHostObject {
  object_class : string;
  view : option A
}.

(** What [research_agent.advanced_memory_tools] holds: tools to iterate
    over, or a value that [for] cannot iterate over (of the class named).  A
    tool is the identity of the object its [func] is bound to
    ([tool.func.__self__]), [None] for a tool without [func] or with an
    unbound one. *)
Inductive MemoryTools : Type :=
| tool_list (tools : list (option nat))
| not_iterable (class_name : string).

(** [AttributeError] of an attribute read on an instance. *)
Definition no_attribute (class_name attribute : string) : PyExc :=
  Py.AttributeError
    ("'" ++ class_name ++ "' object has no attribute '" ++ attribute ++ "'").

Section Wiring.

Variables G H : Type.
Variable ext : Externals G.

(** [create_semantic_graph_agent(use_neo4j, neo4j_config)], a function of
    [research_agent_integration], outside this module: the graph agent it
    builds or the exception it raises. *)
Variable create_semantic_graph_agent : bool -> option Dict -> Result G.

(** The research agent as the helper sees it.  [memory_objects] is the store
    of the objects that memory tools are bound to, by identity.  An optional
    field is [None] when the attribute is absent ([agent_feedback_collector]:
    absent or falsy). *)
Record HostAgent : Type := mkHostAgent {
  agent_class : string;
  memory_objects : nat -> HostObject (MemoryManager G H);
  advanced_memory_tools : option MemoryTools;
  tool_executor : option (HostObject (ToolExecutor G H));
  research_step : option (PyVal -> M G H PyVal);
  rlhf_enabled : option PyVal;
  agent_feedback_collector : option (HostObject (FeedbackCollector G H))
}.

(** [create_ai_research_agent_integration] *)
Definition create_ai_research_agent_integration (semantic_graph_agent : G) (h : H)
    : State G H :=
  __init__ semantic_graph_agent h.

(** The loop over the memory tools up to its [break]: the object of the
    first tool that has a bound [func]. *)
Fixpoint first_bound_tool (tools : list (option nat)) : option nat :=
  match tools with
  | [] => None
  | Some memory_manager :: _ => Some memory_manager
  | None :: tools' => first_bound_tool tools'
  end.

(** The store after [integrate_memory_manager] put [enhanced] on the object
    [target]. *)
Definition rebind_memory_manager
    (store : nat -> HostObject (MemoryManager G H)) (target : nat)
    (enhanced : MemoryManager G H) : nat -> HostObject (MemoryManager G H) :=
  fun i =>
    if Nat.eqb i target
    then mkHostObject (object_class (store i)) (Some enhanced)
    else store i.

(** The block under [hasattr(research_agent, 'advanced_memory_tools')]. *)
Definition wire_memory (research_agent : HostAgent) : Result HostAgent :=
  match advanced_memory_tools research_agent with
  | Some (tool_list tools) =>
      match first_bound_tool tools with
      | Some target =>
          let memory_manager := memory_objects research_agent target in
          match view memory_manager with
          | Some manager =>
              Ok (mkHostAgent
                    (agent_class research_agent)
                    (rebind_memory_manager (memory_objects research_agent) target
                                           (integrate_memory_manager ext manager))
                    (advanced_memory_tools research_agent)
                    (tool_executor research_agent)
                    (research_step research_agent)
                    (rlhf_enabled research_agent)
                    (agent_feedback_collector research_agent))
          | None =>
              Raise (no_attribute (object_class memory_manager)
                                  "save_research_finding")
          end
      | None => Ok research_agent
      end
  | Some (not_iterable class_name) =>
      Raise (Py.TypeError ("'" ++ class_name ++ "' object is not iterable"))
  | None => Ok research_agent
  end.

(** The block under [hasattr(research_agent, 'tool_executor')]. *)
Definition wire_tool_executor (research_agent : HostAgent) : Result HostAgent :=
  match tool_executor research_agent with
  | Some executor =>
      match view executor with
      | Some invoker =>
          Ok (mkHostAgent
                (agent_class research_agent)
                (memory_objects research_agent)
                (advanced_memory_tools research_agent)
                (Some (mkHostObject (object_class executor)
                                    (Some (integrate_tool_executor ext invoker))))
                (research_step research_agent)
                (rlhf_enabled research_agent)
                (agent_feedback_collector research_agent))
      | None => Raise (no_attribute (object_class executor) "invoke")
      end
  | None => Ok research_agent
  end.

(** [integration.integrate_research_loop(research_agent)] *)
Definition wire_research_loop (research_agent : HostAgent) : Result HostAgent :=
  match research_step research_agent with
  | Some original_execute_step =>
      Ok (mkHostAgent
            (agent_class research_agent)
            (memory_objects research_agent)
            (advanced_memory_tools research_agent)
            (tool_executor research_agent)
            (Some (execute_research_step
                     (integrate_research_loop
                        ext (mkResearchAgent original_execute_step))))
            (rlhf_enabled research_agent)
            (agent_feedback_collector research_agent))
  | None =>
      Raise (no_attribute (agent_class research_agent) "execute_research_step")
  end.

(** [integration.integrate_rlhf_system(research_agent)] under its guard
    [hasattr(research_agent, 'rlhf_enabled') and research_agent.rlhf_enabled]. *)
Definition wire_rlhf (research_agent : HostAgent) : Result HostAgent :=
  match rlhf_enabled research_agent with
  | Some enabled =>
      if Py.truthy enabled then
        match agent_feedback_collector research_agent with
        | Some collector =>
            match view collector with
            | Some capturer =>
                Ok (mkHostAgent
                      (agent_class research_agent)
                      (memory_objects research_agent)
                      (advanced_memory_tools research_agent)
                      (tool_executor research_agent)
                      (research_step research_agent)
                      (rlhf_enabled research_agent)
                      (Some (mkHostObject
                               (object_class collector)
                               (feedback_collector
                                  (integrate_rlhf_system
                                     ext (mkRLHFSystem (Some capturer)))))))
            | None =>
                Raise (no_attribute (object_class collector)
                                    "capture_research_output")
            end
        | None => Ok research_agent
        end
      else Ok research_agent
  | None => Ok research_agent
  end.

(** The helper: the integration instance or the exception, and the agent as
    the call leaves it. *)
Definition integrate_research_agent_with_semantic_graph
    (research_agent : HostAgent) (use_neo4j : bool) (neo4j_config : option Dict)
    (h : H) : Result (State G H) * HostAgent :=
  match create_semantic_graph_agent use_neo4j neo4j_config with
  | Raise e => (Raise e, research_agent)
  | Ok semantic_graph_agent =>
      let integration := create_ai_research_agent_integration semantic_graph_agent h in
      match wire_memory research_agent with
      | Raise e => (Raise e, research_agent)
      | Ok with_memory =>
          match wire_tool_executor with_memory with
          | Raise e => (Raise e, with_memory)
          | Ok with_tools =>
              match wire_research_loop with_tools with
              | Raise e => (Raise e, with_tools)
              | Ok with_loop =>
                  match wire_rlhf with_loop with
                  | Raise e => (Raise e, with_loop)
                  | Ok wired => (Ok integration, wired)
                  end
              end
          end
      end
  end.

(** Every attribute that a block of the helper reads is there. *)
Definition memory_tools_ready (research_agent : HostAgent) : bool :=
  match advanced_memory_tools research_agent with
  | Some (tool_list tools) =>
      match first_bound_tool tools with
      | Some target =>
          match view (memory_objects research_agent target) with
          | Some _ => true
          | None => false
          end
      | None => true
      end
  | Some (not_iterable _) => false
  | None => true
  end.

Definition tool_executor_ready (research_agent : HostAgent) : bool :=
  match tool_executor research_agent with
  | Some executor => match view executor with Some _ => true | None => false end
  | None => true
  end.

Definition feedback_collector_ready (research_agent : HostAgent) : bool :=
  match rlhf_enabled research_agent, agent_feedback_collector research_agent with
  | Some enabled, Some collector =>
      match view collector with
      | Some _ => true
      | None => negb (Py.truthy enabled)
      end
  | _, _ => true
  end.

End Wiring.

(** A dictionary has each key once. *)
Definition is_dict (d : Dict) : Prop := NoDup (Py.keys d).

(** ** A concrete world

    A semantic graph whose state counts the calls and clock readings it has
    seen, and a host whose state counts the calls of its own methods. *)

Module Demo.

Definition backend_down : PyExc := mkExc "ConnectionError" "backend down".

Definition retrieval_answer : PyVal :=
  VDict [("results", VList [VStr "hit"]); ("query", VStr "")].

Definition plan_answer : PyVal :=
  VDict [("plan_steps", VList [VStr "read"; VStr "write"])].

(** Every call succeeds. *)
Definition healthy_client (c : ClientCall) (g : nat) : Result PyVal * nat :=
  match c with
  | enhanced_retrieval _ _ _ _ _ => (Ok retrieval_answer, S g)
  | enhanced_planning _ _ _ _ => (Ok plan_answer, S g)
  | record_user_feedback _ _ _ _ _ _ => (Ok (VStr "pref_1"), S g)
  | _ => (Ok VNone, S g)
  end.

(** Retrieval and planning answer, every other call raises. *)
Definition failing_client (c : ClientCall) (g : nat) : Result PyVal * nat :=
  match c with
  | enhanced_retrieval _ _ _ _ _ => (Ok retrieval_answer, S g)
  | enhanced_planning _ _ _ _ => (Ok plan_answer, S g)
  | _ => (Raise backend_down, S g)
  end.

(** Ingestion is down, every other call answers. *)
Definition ingest_down_client (c : ClientCall) (g : nat) : Result PyVal * nat :=
  match c with
  | ingest_event _ _ _ => (Raise backend_down, S g)
  | _ => healthy_client c g
  end.

Definition tick (g : nat) : Z * nat := (Z.of_nat g, S g).

Definition healthy : Externals nat :=
  mkExternals healthy_client tick Py.str_of_Z (fun _ => "<value>") (fun _ => "0.00").

Definition failing : Externals nat :=
  mkExternals failing_client tick Py.str_of_Z (fun _ => "<value>") (fun _ => "0.00").

Definition ingest_down : Externals nat :=
  mkExternals ingest_down_client tick Py.str_of_Z (fun _ => "<value>")
              (fun _ => "0.00").

(** Host methods: each call bumps the host's counter. *)
Definition tool_ok (tool_input : Dict) (h : nat) : Result PyVal * nat :=
  (Ok (VStr "42"), S h).

Definition tool_fails (tool_input : Dict) (h : nat) : Result PyVal * nat :=
  (Raise (Py.ValueError "bad input"), S h).

Definition save_ok (content : PyVal) (importance : option PyVal) (kwargs : Dict)
    (h : nat) : Result PyVal * nat :=
  (Ok (VStr "saved"), S h).

Definition step_ok (state : PyVal) (h : nat) : Result PyVal * nat :=
  (Ok state, S h).

(** A research step that hands back no state at all. *)
Definition step_returns_none (state : PyVal) (h : nat) : Result PyVal * nat :=
  (Ok VNone, S h).

Definition capture_ok (research_result research_question session_id : PyVal)
    (h : nat) : Result PyVal * nat :=
  (Ok research_result, S h).

Definition no_episode (h : nat) : option PyVal := None.

Definition tool_input : Dict :=
  [("tool", VStr "search"); ("tool_input", VStr "rocq")].

Definition research_state : PyVal :=
  VDict [("research_question", VStr "why");
         ("findings", VList [VDict [("analysis", VStr "because"); ("step", VInt 0)]])].

Definition start : State nat nat := __init__ 0%nat 0%nat.

(** The state after one preference was recorded while ingestion is down. *)
Definition after_one_preference : State nat nat :=
  perform ingest_down (op_normalize nat Preference []) start.

(** The state after one memory write went through. *)
Definition after_one_memory_write : State nat nat :=
  perform healthy (op_normalize nat MemoryWrite [("content", VStr "note")]) start.

(** A graph agent that can be built, and one whose backend is not there. *)
Definition create_ok (use_neo4j : bool) (neo4j_config : option Dict) : Result nat :=
  Ok 0%nat.

Definition create_fails (use_neo4j : bool) (neo4j_config : option Dict) : Result nat :=
  Raise backend_down.

(** The objects behind the memory tools: [0] and [1] are memory managers,
    every other object is a search client without [save_research_finding]. *)
Definition memory_objects (i : nat) : HostObject (MemoryManager nat nat) :=
  if Nat.leb i 1
  then mkHostObject "MemoryManager" (Some (host_memory_manager save_ok no_episode))
  else mkHostObject "SearchClient" None.

Definition the_tool_executor : HostObject (ToolExecutor nat nat) :=
  mkHostObject "ToolExecutor" (Some (host_tool_executor tool_ok)).

Definition the_feedback_collector : HostObject (FeedbackCollector nat nat) :=
  mkHostObject "FeedbackCollector" (Some (host_feedback_collector capture_ok)).

(** An agent with two memory tools bound to the memory manager [0], a third
    tool without a bound function, a tool executor, a research step and an
    enabled feedback collector. *)
Definition agent : HostAgent nat nat :=
  mkHostAgent "ResearchAgent"
              memory_objects
              (Some (tool_list [None; Some 0%nat; Some 1%nat; Some 0%nat]))
              (Some the_tool_executor)
              (Some (execute_research_step (host_research_agent step_ok)))
              (Some (VBool true))
              (Some the_feedback_collector).

(** The same agent without [execute_research_step]. *)
Definition agent_without_step : HostAgent nat nat :=
  mkHostAgent "CompiledGraph"
              memory_objects
              (Some (tool_list [None; Some 0%nat; Some 1%nat; Some 0%nat]))
              (Some the_tool_executor)
              None
              (Some (VBool true))
              (Some the_feedback_collector).

(** The same agent with [tool_executor = None]. *)
Definition agent_with_null_executor : HostAgent nat nat :=
  mkHostAgent "ResearchAgent"
              memory_objects
              (Some (tool_list [None; Some 0%nat; Some 1%nat; Some 0%nat]))
              (Some (mkHostObject "NoneType" None))
              (Some (execute_research_step (host_research_agent step_ok)))
              (Some (VBool true))
              (Some the_feedback_collector).

(** The same agent whose first bound tool belongs to the search client [2]. *)
Definition agent_with_foreign_tool : HostAgent nat nat :=
  mkHostAgent "ResearchAgent"
              memory_objects
              (Some (tool_list [None; Some 2%nat; Some 0%nat]))
              (Some the_tool_executor)
              (Some (execute_research_step (host_research_agent step_ok)))
              (Some (VBool true))
              (Some the_feedback_collector).

(** The same agent with [advanced_memory_tools = None]. *)
Definition agent_with_null_tools : HostAgent nat nat :=
  mkHostAgent "ResearchAgent"
              memory_objects
              (Some (not_iterable "NoneType"))
              (Some the_tool_executor)
              (Some (execute_research_step (host_research_agent step_ok)))
              (Some (VBool true))
              (Some the_feedback_collector).

(** The same agent whose feedback collector cannot capture. *)
Definition agent_with_bare_collector : HostAgent nat nat :=
  mkHostAgent "ResearchAgent"
              memory_objects
              (Some (tool_list [None; Some 0%nat; Some 1%nat; Some 0%nat]))
              (Some the_tool_executor)
              (Some (execute_research_step (host_research_agent step_ok)))
              (Some (VBool true))
              (Some (mkHostObject "FeedbackLog" None)).

End Demo.

(** ** Properties *)

(** *** Floats *)

(** [1.001 * 1000] is [1000.9999999999999], not [1001.0]. *)
Lemma times_1000_rounds_the_product :
  Py.times_1000 (VFloat (1001 # 1000))
  = Ok (VFloat (8804889115230207 # 8796093022208)).
Proof. vm_compute. reflexivity. Qed.

Lemma times_1000_of_zero : Py.times_1000 (VFloat 0) = Ok (VFloat 0).
Proof. reflexivity. Qed.

(** [1e306 * 1000] is [inf]. *)
Lemma times_1000_overflows_to_infinity :
  Py.times_1000 (VFloat (10 ^ 306 # 1)) = Ok (VInf false).
Proof. vm_compute. reflexivity. Qed.

(** [.2f] has no rendering for an integer beyond the doubles. *)
Lemma format_2f_overflows (G : Type) (ext : Externals G) (z : Z) :
  (Py.double_limit <= Z.abs z)%Z ->
  format_2f ext (VInt z)
  = Raise (mkExc "OverflowError" "int too large to convert to float").
Proof.
  intros Hz. unfold format_2f.
  destruct (Z.ltb_spec (Z.abs z) Py.double_limit) as [Hlt|_]; [|reflexivity].
  exfalso. apply (Z.lt_irrefl (Z.abs z)).
  eapply Z.lt_le_trans; eassumption.
Qed.

(** *** Dictionaries *)

Lemma lookup_set_same (V : Type) (d : list (string * V)) (k : string) (v : V) :
  Py.lookup (Py.set d k v) k = Some v.
Proof.
  induction d as [|[k' v'] d IH]; cbn.
  - now rewrite String.eqb_refl.
  - destruct (String.eqb k' k) eqn:E; cbn; rewrite E; auto.
Qed.

Lemma lookup_set_other (V : Type) (d : list (string * V)) (k k' : string) (v : V) :
  k' <> k -> Py.lookup (Py.set d k v) k' = Py.lookup d k'.
Proof.
  intros Hne. induction d as [|[k0 v0] d IH]; cbn.
  - destruct (String.eqb_spec k k'); congruence.
  - destruct (String.eqb_spec k0 k) as [->|]; cbn.
    + destruct (String.eqb_spec k k'); congruence.
    + now rewrite IH.
Qed.

Lemma keys_set_present (V : Type) (d : list (string * V)) (k : string) (x v : V) :
  Py.lookup d k = Some x -> Py.keys (Py.set d k v) = Py.keys d.
Proof.
  unfold Py.keys. induction d as [|[k' v'] d IH]; cbn; [discriminate|].
  destruct (String.eqb k' k); cbn; intros Hl; [reflexivity|].
  now rewrite IH.
Qed.

Lemma stats_le_refl (d : list (string * Z)) : stats_le d d.
Proof. split; [reflexivity | intros; lia]. Qed.

Lemma stats_le_trans (a b c : list (string * Z)) :
  stats_le a b -> stats_le b c -> stats_le a c.
Proof.
  intros [Hk1 Hv1] [Hk2 Hv2]. split; [congruence|].
  intros key. specialize (Hv1 key). specialize (Hv2 key). lia.
Qed.

Lemma stats_le_increment (d : list (string * Z)) (k : string) (n : Z) :
  Py.lookup d k = Some n -> stats_le d (Py.set d k (n + 1)%Z).
Proof.
  intros Hl. split; [eapply keys_set_present; eauto|].
  intros key. unfold Py.get.
  destruct (String.eqb_spec key k) as [->|Hne].
  - rewrite lookup_set_same, Hl. lia.
  - rewrite lookup_set_other by assumption. lia.
Qed.

(** *** The observation log *)

Lemma fired_app (k : EventKind) (a b : list Event) :
  fired k (a ++ b) = (fired k a + fired k b)%nat.
Proof. unfold fired. now rewrite filter_app, length_app. Qed.

Lemma host_calls_app (a b : list Event) :
  host_calls (a ++ b) = (host_calls a + host_calls b)%nat.
Proof. unfold host_calls. now rewrite filter_app, length_app. Qed.

Lemma forwarded_app (a b : list Event) :
  forwarded (a ++ b) = (forwarded a ++ forwarded b)%list.
Proof.
  induction a as [|[] a IH]; cbn; auto. now rewrite IH.
Qed.

(** *** Proof automation for runs of the monad *)

Arguments Py.literal : simpl never.
Arguments Py.set : simpl never.
Arguments Py.update : simpl never.
Arguments Py.lookup : simpl never.
Arguments Py.get : simpl never.
Arguments Py.len : simpl never.
Arguments Py.get_method : simpl never.
Arguments Py.times_1000 : simpl never.
Arguments Py.str_of_nat : simpl never.
Arguments Py.truthy : simpl never.
Arguments Py.contains : simpl never.
Arguments Py.getitem : simpl never.
Arguments Py.getitem_last : simpl never.
Arguments format_2f : simpl never.
Arguments str : simpl never.
Arguments String.append : simpl never.
Arguments Z.add : simpl never.

Ltac unfold_monad :=
  unfold bind, try_except, emit, datetime_now, call, stats_increment,
         of_result, ret, raise, get_state, call_host in *.

Ltac run_step :=
  match goal with
  | |- context [clock ?e ?g] =>
      let t := fresh "t" in let g' := fresh "g" in
      destruct (clock e g) as [t g'] eqn:?
  | |- context [client ?e ?c ?g] =>
      let g' := fresh "g" in
      destruct (client e c g) as [[?|?] g'] eqn:?
  | |- context [match Py.len ?v with _ => _ end] => destruct (Py.len v) eqn:?
  | |- context [match Py.get_method ?v ?k ?d with _ => _ end] =>
      destruct (Py.get_method v k d) eqn:?
  | |- context [match Py.times_1000 ?v with _ => _ end] =>
      destruct (Py.times_1000 v) eqn:?
  | |- context [match format_2f ?e ?v with _ => _ end] =>
      destruct (format_2f e v) eqn:?
  | |- context [if Py.truthy ?v then _ else _] => destruct (Py.truthy v) eqn:?
  | |- context [match Py.lookup (integration_stats ?s) ?k with _ => _ end] =>
      destruct (Py.lookup (integration_stats s) k) eqn:?
  end; cbn.

Ltac in_events H :=
  repeat (destruct H as [H | H]; [ try discriminate H | ]); try contradiction.

Ltac finish_post :=
  repeat split;
  try reflexivity;
  try solve [eexists; reflexivity];
  try solve [let k' := fresh "k" in intros k'; destruct k'; reflexivity];
  try solve [left; reflexivity];
  try solve [right; eexists; repeat split; reflexivity];
  try solve [match goal with
             | Hin : _ \/ _ |- _ =>
                 in_events Hin; inversion Hin; subst; reflexivity
             end].

Section NormalizerFacts.

Variables G H : Type.
Variable ext : Externals G.

(** *** What a normalizer does, whatever the payload and the client *)

Lemma handler_post (k : EventKind) (payload : Dict) (s : St G H) :
  normalizer_post k payload s (handler ext k payload s).
Proof.
  unfold normalizer_post.
  destruct k; cbn [handler];
    [ unfold _handle_memory_output | unfold _handle_tool_usage
    | unfold _handle_finding | unfold _handle_retrieval
    | unfold _handle_planning | unfold _handle_preference
    | unfold _handle_monitoring ];
    unfold_monad; cbn; repeat run_step; finish_post.
Qed.

End NormalizerFacts.

(** *** The registry is never touched and counters only grow *)

Section Preservation.

Variables G H : Type.
Variable ext : Externals G.

Lemma preserves_ret (A : Type) (a : A) : preserves (G:=G) (H:=H) (ret a).
Proof. intros s; cbn. split; [reflexivity | apply stats_le_refl]. Qed.

Lemma preserves_raise (A : Type) (e : PyExc) :
  preserves (G:=G) (H:=H) (raise (A:=A) e).
Proof. intros s; cbn. split; [reflexivity | apply stats_le_refl]. Qed.

Lemma preserves_of_result (A : Type) (r : Result A) :
  preserves (G:=G) (H:=H) (of_result r).
Proof. intros s; cbn. split; [reflexivity | apply stats_le_refl]. Qed.

Lemma preserves_emit (ev : Event) : preserves (G:=G) (H:=H) (emit ev).
Proof. intros s; cbn. split; [reflexivity | apply stats_le_refl]. Qed.

Lemma preserves_get_state : preserves (G:=G) (H:=H) (@get_state G H).
Proof. intros s; cbn. split; [reflexivity | apply stats_le_refl]. Qed.

Lemma preserves_datetime_now : preserves (H:=H) (datetime_now ext).
Proof.
  intros s; unfold datetime_now. destruct (clock ext (semantic_graph s)); cbn.
  split; [reflexivity | apply stats_le_refl].
Qed.

Lemma preserves_call (c : ClientCall) : preserves (H:=H) (call ext c).
Proof.
  intros s; unfold call. destruct (client ext c (semantic_graph s)); cbn.
  split; [reflexivity | apply stats_le_refl].
Qed.

Lemma preserves_call_host (A : Type) (method : string) (f : H -> Result A * H) :
  preserves (G:=G) (call_host method f).
Proof.
  intros s; unfold call_host. destruct (f (host s)); cbn.
  split; [reflexivity | apply stats_le_refl].
Qed.

Lemma preserves_stats_increment (key : string) :
  preserves (G:=G) (H:=H) (stats_increment key).
Proof.
  intros s; unfold stats_increment.
  destruct (Py.lookup (integration_stats s) key) eqn:E; cbn.
  - split; [reflexivity | now apply stats_le_increment].
  - split; [reflexivity | apply stats_le_refl].
Qed.

Lemma preserves_bind (A B : Type) (m : M G H A) (f : A -> M G H B) :
  preserves m -> (forall a, preserves (f a)) -> preserves (bind m f).
Proof.
  intros Hm Hf s. unfold bind.
  specialize (Hm s). destruct (m s) as [[a|e] s1 evs1]; cbn in *; [|exact Hm].
  specialize (Hf a s1). destruct (f a s1) as [r s2 evs2]; cbn in *.
  destruct Hm as [Hh1 Hs1], Hf as [Hh2 Hs2].
  split; [congruence | eapply stats_le_trans; eauto].
Qed.

Lemma preserves_try_except (A : Type) (m : M G H A) (f : PyExc -> M G H A) :
  preserves m -> (forall e, preserves (f e)) -> preserves (try_except m f).
Proof.
  intros Hm Hf s. unfold try_except.
  specialize (Hm s). destruct (m s) as [[a|e] s1 evs1]; cbn in *; [exact Hm|].
  specialize (Hf e s1). destruct (f e s1) as [r s2 evs2]; cbn in *.
  destruct Hm as [Hh1 Hs1], Hf as [Hh2 Hs2].
  split; [congruence | eapply stats_le_trans; eauto].
Qed.

Lemma preserves_handler (k : EventKind) (payload : Dict) :
  preserves (H:=H) (handler ext k payload).
Proof.
  intros s. destruct (handler_post ext k payload s)
    as (_ & Hh & _ & _ & _ & Hs & _).
  split; [exact Hh|].
  destruct Hs as [-> | (n & Hl & -> & _)];
    [apply stats_le_refl | now apply stats_le_increment].
Qed.

End Preservation.

Create HintDb preserves.

#[global] Hint Resolve preserves_ret preserves_raise preserves_of_result
  preserves_emit preserves_get_state preserves_datetime_now preserves_call
  preserves_call_host preserves_stats_increment preserves_handler : preserves.

(** Walks through the binds of a computation built from the pieces above. *)
Ltac preserve :=
  repeat first
    [ solve [auto with preserves]
    | apply preserves_bind; [ | intros ]
    | apply preserves_try_except; [ | intros ]
    | match goal with
      | |- preserves (match ?x with _ => _ end) => destruct x
      | |- preserves (if ?x then _ else _) => destruct x
      end ].

Section Wrappers.

Variables G H : Type.
Variable ext : Externals G.

Lemma preserves_enhanced_save_finding
    (mm : MemoryManager G H) (m : PyVal -> option PyVal -> Dict -> M G H PyVal)
    (content : PyVal) (importance : option PyVal) (kwargs : Dict) :
  (forall c i kw, preserves (m c i kw)) ->
  preserves (enhanced_save_finding ext mm m content importance kwargs).
Proof.
  intros Hm. unfold enhanced_save_finding. preserve.
Qed.

Lemma preserves_enhanced_invoke (m : Dict -> M G H PyVal) (tool_input : Dict) :
  (forall ti, preserves (m ti)) -> preserves (enhanced_invoke ext m tool_input).
Proof.
  intros Hm. unfold enhanced_invoke. preserve.
Qed.

Lemma preserves_enhanced_execute_step (m : PyVal -> M G H PyVal) (state : PyVal) :
  (forall st, preserves (m st)) -> preserves (enhanced_execute_step ext m state).
Proof.
  intros Hm. unfold enhanced_execute_step. preserve.
Qed.

Lemma preserves_enhanced_capture_output
    (m : PyVal -> PyVal -> PyVal -> M G H PyVal) (a b c : PyVal) :
  (forall x y z, preserves (m x y z)) ->
  preserves (enhanced_capture_output ext m a b c).
Proof. intros Hm. unfold enhanced_capture_output. preserve. Qed.


Lemma preserves_wrapped_save (n : nat)
    (f : PyVal -> option PyVal -> Dict -> H -> Result PyVal * H)
    (episode : H -> option PyVal) (c : PyVal) (i : option PyVal) (kw : Dict) :
  preserves (save_research_finding (wrapped_memory_manager ext n f episode) c i kw).
Proof.
  revert c i kw. induction n as [|n IH]; intros; cbn.
  - auto with preserves.
  - now apply preserves_enhanced_save_finding.
Qed.

Lemma preserves_wrapped_invoke (n : nat) (f : Dict -> H -> Result PyVal * H)
    (tool_input : Dict) :
  preserves (invoke (wrapped_tool_executor ext n f) tool_input).
Proof.
  revert tool_input. induction n as [|n IH]; intros; cbn.
  - auto with preserves.
  - now apply preserves_enhanced_invoke.
Qed.

Lemma preserves_wrapped_step (n : nat) (f : PyVal -> H -> Result PyVal * H)
    (state : PyVal) :
  preserves (execute_research_step (wrapped_research_agent ext n f) state).
Proof.
  revert state. induction n as [|n IH]; intros; cbn.
  - auto with preserves.
  - now apply preserves_enhanced_execute_step.
Qed.

Lemma preserves_wrapped_capture (n : nat)
    (f : PyVal -> PyVal -> PyVal -> H -> Result PyVal * H) :
  exists collector,
    feedback_collector (wrapped_rlhf_system ext n f) = Some collector
    /\ forall a b c, preserves (capture_research_output collector a b c).
Proof.
  induction n as [|n (collector & Hc & IH)].
  - eexists; split; [reflexivity|]. intros; cbn. auto with preserves.
  - change (wrapped_rlhf_system ext (S n) f)
      with (integrate_rlhf_system ext (wrapped_rlhf_system ext n f)).
    unfold integrate_rlhf_system. rewrite Hc.
    eexists; split; [reflexivity|].
    intros; cbn. now apply preserves_enhanced_capture_output.
Qed.

Lemma preserves_statistics : preserves (H:=H) (get_integration_statistics ext).
Proof. unfold get_integration_statistics. preserve. Qed.

Lemma preserves_health : preserves (H:=H) (get_integration_health ext).
Proof. unfold get_integration_health. preserve. Qed.

Lemma preserves_process_pending : preserves (H:=H) (process_pending_events ext).
Proof. unfold process_pending_events. preserve. Qed.

Lemma preserves_call_hook (name : string) (payload : Dict) :
  preserves (H:=H) (call_hook ext name payload).
Proof.
  intros s. unfold call_hook.
  destruct (Py.lookup (integration_hooks s) name).
  - apply preserves_handler.
  - cbn. split; [reflexivity | apply stats_le_refl].
Qed.

(** Every operation leaves the registry as it is and only grows counters. *)
Lemma perform_preserves (o : Op H) (s : St G H) :
  integration_hooks (perform ext o s) = integration_hooks s
  /\ stats_le (integration_stats s) (integration_stats (perform ext o s)).
Proof.
  destruct o; cbn [perform].
  - apply preserves_handler.
  - apply preserves_call_hook.
  - apply preserves_wrapped_save.
  - apply preserves_wrapped_invoke.
  - apply preserves_wrapped_step.
  - unfold call_capture_research_output.
    destruct (preserves_wrapped_capture layers f) as (collector & -> & Hp).
    apply Hp.
  - apply preserves_statistics.
  - apply preserves_health.
  - apply preserves_process_pending.
Qed.

Lemma perform_all_preserves (ops : list (Op H)) (s : St G H) :
  integration_hooks (perform_all ext ops s) = integration_hooks s
  /\ stats_le (integration_stats s) (integration_stats (perform_all ext ops s)).
Proof.
  revert s. induction ops as [|o ops IH]; intros s.
  - split; [reflexivity | apply stats_le_refl].
  - change (perform_all ext (o :: ops) s)
      with (perform_all ext ops (perform ext o s)).
    destruct (perform_preserves o s) as [Hh Hs].
    destruct (IH (perform ext o s)) as [Hh' Hs'].
    split; [congruence | eapply stats_le_trans; eauto].
Qed.

Lemma stats_le_counter (k : EventKind) (s s' : St G H) :
  stats_le (integration_stats s) (integration_stats s') ->
  (counter k s <= counter k s')%Z.
Proof. intros [_ Hv]. apply Hv. Qed.

(** The invariant of reachable states: the registry of [__init__], the seven
    counter keys, and no negative counter. *)
Lemma reachable_invariant (s : St G H) :
  reachable ext s ->
  integration_hooks s
  = [("memory_writes", MemoryWrite); ("tool_usage_logs", ToolUsage);
     ("findings_capture", Finding); ("retrieval_calls", Retrieval);
     ("plan_generation", Planning); ("preference_logging", Preference);
     ("monitoring", Monitoring)]
  /\ stats_shape (integration_stats s)
  /\ forall k, (0 <= counter k s)%Z.
Proof.
  induction 1 as [g h | s o Hr (Hh & Hk & Hc)].
  - repeat split. intros k; destruct k; vm_compute; discriminate.
  - destruct (perform_preserves o s) as [Hh' [Hk' Hv']].
    repeat split.
    + congruence.
    + unfold stats_shape in *. congruence.
    + intros k. specialize (Hc k). specialize (Hv' (counter_key k)).
      unfold counter in *. lia.
Qed.

Lemma shape_sum (d : list (string * Z)) :
  stats_shape d ->
  Py.sum (Py.values d)
  = (Py.get d "memory_writes" 0 + Py.get d "tool_usage_logs" 0
     + Py.get d "findings_captured" 0 + Py.get d "retrieval_calls" 0
     + Py.get d "plan_generations" 0 + Py.get d "preference_logs" 0
     + Py.get d "monitoring_events" 0)%Z.
Proof.
  unfold stats_shape, Py.keys. intros Hk.
  do 7 (destruct d as [|[? ?] d]; [discriminate|]).
  destruct d; [|discriminate].
  cbn in Hk. inversion Hk; subst.
  cbv -[Z.add]. lia.
Qed.

Lemma shape_total (s : St G H) :
  stats_shape (integration_stats s) ->
  Py.sum (Py.values (integration_stats s)) = total_events s.
Proof. intros Hs. now rewrite shape_sum. Qed.

Lemma shape_lookup (s : St G H) (k : EventKind) :
  stats_shape (integration_stats s) ->
  Py.lookup (integration_stats s) (counter_key k) = Some (counter k s).
Proof.
  unfold stats_shape, Py.keys, counter. intros Hk.
  destruct s as [hooks d g h]; cbn in *.
  do 7 (destruct d as [|[? ?] d]; [discriminate|]).
  destruct d; [|discriminate].
  cbn in Hk. inversion Hk; subst.
  destruct k; reflexivity.
Qed.

End Wrappers.

(** *** Statistics and health *)

Section Queries.

Variables G H : Type.
Variable ext : Externals G.

Lemma statistics_result (s : St G H) (d : Dict) :
  result (get_integration_statistics ext s) = Ok d ->
  exists semantic_stats now,
    d = [("integration_stats",
          VDict (map (fun kv => (fst kv, VInt (snd kv))) (integration_stats s)));
         ("semantic_graph_stats", semantic_stats);
         ("hooks_registered", VInt (Z.of_nat (List.length (integration_hooks s))));
         ("total_integrations", VInt (Py.sum (Py.values (integration_stats s))));
         ("last_updated", VStr (isoformat ext now))].
Proof.
  unfold get_integration_statistics. unfold_monad. cbn.
  repeat run_step; intros E; inversion E; subst.
  eexists _, _. reflexivity.
Qed.

Lemma statistics_returns (s : St G H) (v : PyVal) (g : G) :
  client ext get_comprehensive_stats (semantic_graph s) = (Ok v, g) ->
  exists d, result (get_integration_statistics ext s) = Ok d.
Proof.
  intros E. unfold get_integration_statistics. unfold_monad. cbn.
  rewrite E; cbn. repeat run_step. eexists; reflexivity.
Qed.

Lemma health_result (s : St G H) (d : Dict) :
  result (get_integration_health ext s) = Ok d ->
  exists dashboard now,
    d = [("integration_points_active",
          VInt (Z.of_nat (List.length (integration_hooks s))));
         ("total_events_processed", VInt (Py.sum (Py.values (integration_stats s))));
         ("semantic_graph_health", dashboard);
         ("integration_errors", VInt 0);
         ("last_activity", VStr (isoformat ext now));
         ("status",
          VStr (if (Py.sum (Py.values (integration_stats s)) >? 0)%Z
                then "active" else "idle"))].
Proof.
  unfold get_integration_health. unfold_monad. cbn.
  repeat run_step;
    destruct (Py.sum (Py.values (integration_stats s)) >? 0)%Z;
    cbn; intros E; inversion E; subst;
    eexists _, _; reflexivity.
Qed.

Lemma health_returns (s : St G H) (v : PyVal) (g : G) :
  client ext get_monitoring_dashboard_data (semantic_graph s) = (Ok v, g) ->
  exists d, result (get_integration_health ext s) = Ok d.
Proof.
  intros E. unfold get_integration_health. unfold_monad. cbn.
  rewrite E; cbn. repeat run_step.
  destruct (Py.sum (Py.values (integration_stats s)) >? 0)%Z;
    eexists; reflexivity.
Qed.

Lemma stats_entries (s : St G H) :
  stats_shape (integration_stats s) ->
  map (fun kv => (fst kv, VInt (snd kv))) (integration_stats s)
  = map (fun k => (counter_key k, VInt (counter k s))) all_kinds.
Proof.
  unfold stats_shape, Py.keys, counter. intros Hk.
  destruct s as [hooks d g h]; cbn in *.
  do 7 (destruct d as [|[? ?] d]; [discriminate|]).
  destruct d; [|discriminate].
  cbn in Hk. inversion Hk; subst. reflexivity.
Qed.

(** C5: the total that [get_integration_statistics] reports is the sum of
    the seven counters it reports, in every reachable state; the call returns
    whenever the statistics call on the semantic graph does; and no operation
    makes a counter negative or smaller. *)
Theorem total_integrations_is_the_sum_of_the_counters (s : St G H) (o : Op H) :
  reachable ext s ->
  (forall d, result (get_integration_statistics ext s) = Ok d ->
     Py.lookup d "total_integrations" = Some (VInt (total_events s))
     /\ Py.lookup d "integration_stats"
        = Some (VDict (map (fun k => (counter_key k, VInt (counter k s))) all_kinds)))
  /\ (forall v g, client ext get_comprehensive_stats (semantic_graph s) = (Ok v, g) ->
      exists d, result (get_integration_statistics ext s) = Ok d)
  /\ (forall k, (0 <= counter k s <= counter k (perform ext o s))%Z).
Proof.
  intros Hr. destruct (reachable_invariant Hr) as (Hh & Hk & Hc).
  split; [|split].
  - intros d Hd. destruct (statistics_result s Hd) as (v & t & ->).
    rewrite (shape_total s Hk), (stats_entries s Hk). split; reflexivity.
  - intros v g. apply statistics_returns.
  - intros k. split; [apply Hc|].
    apply stats_le_counter, perform_preserves.
Qed.

(** C6: in a reachable state the health query returns a report whenever the
    dashboard call on the semantic graph returns; the report says [active]
    exactly when the sum of the counters is positive and [idle] otherwise; a
    fresh instance has sum zero; and after any sequence of operations on a
    state with a positive sum the report is returned again and still says
    [active]. *)
Theorem health_status_is_active_iff_events_were_processed
    (s : St G H) (ops : list (Op H)) :
  reachable ext s ->
  (forall v g,
     client ext get_monitoring_dashboard_data (semantic_graph s) = (Ok v, g) ->
     exists d,
       result (get_integration_health ext s) = Ok d
       /\ Py.lookup d "total_events_processed" = Some (VInt (total_events s))
       /\ Py.lookup d "status"
          = Some (VStr (if (total_events s >? 0)%Z then "active" else "idle")))
  /\ (forall d, result (get_integration_health ext s) = Ok d ->
        Py.lookup d "total_events_processed" = Some (VInt (total_events s))
        /\ Py.lookup d "status"
           = Some (VStr (if (total_events s >? 0)%Z then "active" else "idle")))
  /\ (forall g h, total_events (__init__ (G:=G) (H:=H) g h) = 0%Z)
  /\ (forall d d',
        result (get_integration_health ext s) = Ok d ->
        Py.lookup d "status" = Some (VStr "active") ->
        result (get_integration_health ext (perform_all ext ops s)) = Ok d' ->
        Py.lookup d' "status" = Some (VStr "active"))
  /\ ((0 < total_events s)%Z ->
      forall v g,
        client ext get_monitoring_dashboard_data
               (semantic_graph (perform_all ext ops s)) = (Ok v, g) ->
        exists d',
          result (get_integration_health ext (perform_all ext ops s)) = Ok d'
          /\ Py.lookup d' "status" = Some (VStr "active")).
Proof.
  intros Hr. destruct (reachable_invariant Hr) as (Hh & Hk & Hc).
  assert (Hreport : forall (s' : St G H) d, stats_shape (integration_stats s') ->
            result (get_integration_health ext s') = Ok d ->
            Py.lookup d "total_events_processed" = Some (VInt (total_events s'))
            /\ Py.lookup d "status"
               = Some (VStr (if (total_events s' >? 0)%Z then "active" else "idle"))).
  { intros s' d Hk' Hd. destruct (health_result s' Hd) as (v & t & ->).
    rewrite (shape_total s' Hk'). split; reflexivity. }
  destruct (perform_all_preserves ext ops s) as [_ Hle].
  assert (Hk' : stats_shape (integration_stats (perform_all ext ops s))).
  { unfold stats_shape in *. destruct Hle as [-> _]. exact Hk. }
  assert (Hmono : (total_events s <= total_events (perform_all ext ops s))%Z).
  { unfold total_events.
    pose proof (fun k => stats_le_counter k s (perform_all ext ops s) Hle) as Hm.
    pose proof (Hm MemoryWrite). pose proof (Hm ToolUsage).
    pose proof (Hm Finding). pose proof (Hm Retrieval).
    pose proof (Hm Planning). pose proof (Hm Preference).
    pose proof (Hm Monitoring). lia. }
  split; [|split; [|split; [|split]]].
  - intros v g E. destruct (health_returns s E) as [d Hd].
    exists d. split; [exact Hd|]. now apply Hreport.
  - intros d. now apply Hreport.
  - reflexivity.
  - intros d d' Hd Ha Hd'.
    destruct (Hreport _ _ Hk Hd) as [_ Hs].
    destruct (Hreport _ _ Hk' Hd') as [_ Hs'].
    rewrite Hs'. rewrite Hs in Ha.
    assert (Hpos : (total_events s > 0)%Z).
    { destruct (total_events s >? 0)%Z eqn:E; [lia | discriminate]. }
    destruct (total_events (perform_all ext ops s) >? 0)%Z eqn:E; [reflexivity|lia].
  - intros Hpos v g E. destruct (health_returns _ E) as [d' Hd'].
    exists d'. split; [exact Hd'|].
    destruct (Hreport _ _ Hk' Hd') as [_ Hs']. rewrite Hs'.
    destruct (total_events (perform_all ext ops s) >? 0)%Z eqn:E'; [reflexivity|lia].
Qed.

(** C9: in a reachable state the registry has exactly the seven entries of
    [_register_integration_hooks], no operation changes it, and each of the
    two queries returns a report whenever its call on the semantic graph
    returns, with the number seven in it. *)
Theorem registry_always_holds_seven_hooks (s : St G H) (o : Op H) :
  reachable ext s ->
  Py.keys (integration_hooks s)
  = ["memory_writes"; "tool_usage_logs"; "findings_capture"; "retrieval_calls";
     "plan_generation"; "preference_logging"; "monitoring"]
  /\ List.length (integration_hooks s) = 7%nat
  /\ integration_hooks (perform ext o s) = integration_hooks s
  /\ (forall d, result (get_integration_statistics ext s) = Ok d ->
        Py.lookup d "hooks_registered" = Some (VInt 7))
  /\ (forall d, result (get_integration_health ext s) = Ok d ->
        Py.lookup d "integration_points_active" = Some (VInt 7))
  /\ (forall v g,
        client ext get_comprehensive_stats (semantic_graph s) = (Ok v, g) ->
        exists d, result (get_integration_statistics ext s) = Ok d
                  /\ Py.lookup d "hooks_registered" = Some (VInt 7))
  /\ (forall v g,
        client ext get_monitoring_dashboard_data (semantic_graph s) = (Ok v, g) ->
        exists d, result (get_integration_health ext s) = Ok d
                  /\ Py.lookup d "integration_points_active" = Some (VInt 7)).
Proof.
  intros Hr. destruct (reachable_invariant Hr) as (Hh & Hk & Hc).
  assert (Hstat : forall d, result (get_integration_statistics ext s) = Ok d ->
            Py.lookup d "hooks_registered" = Some (VInt 7)).
  { intros d Hd. destruct (statistics_result s Hd) as (v & t & ->). now rewrite Hh. }
  assert (Hhealth : forall d, result (get_integration_health ext s) = Ok d ->
            Py.lookup d "integration_points_active" = Some (VInt 7)).
  { intros d Hd. destruct (health_result s Hd) as (v & t & ->). now rewrite Hh. }
  split; [now rewrite Hh|]. split; [now rewrite Hh|].
  split; [apply perform_preserves|].
  split; [exact Hstat|]. split; [exact Hhealth|]. split.
  - intros v g E. destruct (statistics_returns s E) as [d Hd].
    exists d. split; [exact Hd | now apply Hstat].
  - intros v g E. destruct (health_returns s E) as [d Hd].
    exists d. split; [exact Hd | now apply Hhealth].
Qed.

(** C10: whatever the state, and so whatever failed before, the health
    report carries [integration_errors = 0]. *)
Theorem health_never_reports_errors (s : St G H) (d : Dict) :
  result (get_integration_health ext s) = Ok d ->
  Py.lookup d "integration_errors" = Some (VInt 0).
Proof.
  intros Hd. destruct (health_result s Hd) as (v & t & ->). reflexivity.
Qed.

End Queries.

(** *** Normalizers: failures, defaults, pass-through *)

Lemma get_nil (V : Type) (k : string) (dflt : V) : Py.get [] k dflt = dflt.
Proof. reflexivity. Qed.

Lemma lookup_nil (V : Type) (k : string) : Py.lookup (@nil (string * V)) k = None.
Proof. reflexivity. Qed.

Lemma counter_key_injective (k k' : EventKind) :
  counter_key k = counter_key k' -> k = k'.
Proof. destruct k, k'; intros E; try reflexivity; discriminate E. Qed.

(** A pure builtin cannot have raised on the default it was given. *)
Ltac refute_pure :=
  match goal with
  | Hx : _ = Raise _ |- _ =>
      cbv [Py.len Py.times_1000 Py.get_method format_2f] in Hx; discriminate Hx
  | Hx : Py.truthy _ = false |- _ => cbv in Hx; discriminate Hx
  end.

(** An answer on which [.get] or [len] raised does not conform. *)
Ltac refute_shape Hok :=
  repeat match goal with
         | Hx : Py.get_method ?a _ _ = _ |- _ =>
             is_var a; destruct a; cbv [Py.get_method] in Hx;
             try discriminate Hok; try discriminate Hx;
             inversion Hx; subst; clear Hx
         end;
  match goal with
  | Hx : Py.len ?v = Raise _ |- _ =>
      destruct v; cbn in Hok; try discriminate Hok;
      cbv [Py.len] in Hx; discriminate Hx
  end.

(** Replaces the result of a pure builtin on a closed argument by its value. *)
Ltac invert_pure :=
  repeat match goal with
         | Hx : Py.len (VStr _) = Ok _ |- _ =>
             cbv [Py.len] in Hx; inversion Hx; subst; clear Hx
         | Hx : Py.get_method (VDict _) _ _ = Ok _ |- _ =>
             cbv [Py.get_method] in Hx; inversion Hx; subst; clear Hx
         | Hx : Py.times_1000 (VFloat _) = Ok _ |- _ =>
             cbv [Py.times_1000] in Hx; inversion Hx; subst; clear Hx
         | Hx : format_2f _ (VFloat _) = Ok _ |- _ =>
             cbv [format_2f] in Hx; inversion Hx; subst; clear Hx
         end.

Section Normalizers.

Variables G H : Type.
Variable ext : Externals G.

Lemma counter_after_increment (k : EventKind) (s s' : St G H) (n : Z) :
  Py.lookup (integration_stats s) (counter_key k) = Some n ->
  integration_stats s' = Py.set (integration_stats s) (counter_key k) (n + 1)%Z ->
  counter k s' = (counter k s + 1)%Z
  /\ forall k', k' <> k -> counter k' s' = counter k' s.
Proof.
  intros Hl Hs. unfold counter, Py.get. rewrite Hs. split.
  - now rewrite lookup_set_same, Hl.
  - intros k' Hne. rewrite lookup_set_other; [reflexivity|].
    intros E. apply Hne. now apply counter_key_injective.
Qed.

(** C2: when a call to the semantic graph raises inside a normalizer, the
    normalizer still returns, the value it returns is the error shape of its
    kind built from the text of that exception, and the counters are those
    from before the call. *)
Theorem forwarding_failure_is_contained
    (k : EventKind) (payload : Dict) (s : St G H) (c : ClientCall) (e : PyExc) :
  In (ClientCalled c (Raise e)) (events (handler ext k payload s)) ->
  result (handler ext k payload s) = Ok (error_value k e)
  /\ integration_stats (final (handler ext k payload s)) = integration_stats s.
Proof.
  intros Hin.
  destruct (handler_post ext k payload s) as (_ & _ & _ & _ & _ & _ & Hfail & _).
  exact (Hfail c e Hin).
Qed.


(** On the empty payload a normalizer forwards the documented defaults up
    to the call at which it stops, and it always makes the first one. *)
Lemma empty_payload_forwards_defaults_first (k : EventKind) (s : St G H) :
  exists calls rest,
    documented_defaults k calls
    /\ calls = (forwarded (events (handler ext k [] s)) ++ rest)%list
    /\ forwarded (events (handler ext k [] s)) <> [].
Proof.
  destruct k; cbn [handler documented_defaults counter_key] in *;
    [ unfold _handle_memory_output | unfold _handle_tool_usage
    | unfold _handle_finding | unfold _handle_retrieval
    | unfold _handle_planning | unfold _handle_preference
    | unfold _handle_monitoring ];
    unfold_monad; cbn; rewrite ?get_nil, ?lookup_nil;
    repeat run_step.
  all: try solve [refute_pure].
  all: invert_pure.
  all: eexists _, _.
  all: (split; [repeat eexists | split; [cbn; reflexivity | discriminate]]).
  Unshelve.
  all: try exact 0%Z; try exact ""; try exact VNone.
Qed.

(** C7: on the empty payload every normalizer returns a value, whatever the
    state and the semantic graph, and what it forwards is the documented
    defaults as far as it gets (at least the first call); when every call it
    makes to the semantic graph succeeds (with an answer of the shape of
    section 6), it forwards all the documented defaults, its own counter
    grows by one and the other six stay as they were. *)
Theorem empty_payload_uses_defaults_and_counts_once (k : EventKind) (s : St G H) :
  (exists v, result (handler ext k [] s) = Ok v)
  /\ (exists calls rest,
        documented_defaults k calls
        /\ calls = (forwarded (events (handler ext k [] s)) ++ rest)%list
        /\ forwarded (events (handler ext k [] s)) <> [])
  /\ (reachable ext s ->
      forallb client_ok (events (handler ext k [] s)) = true ->
      documented_defaults k (forwarded (events (handler ext k [] s)))
      /\ counter k (final (handler ext k [] s)) = (counter k s + 1)%Z
      /\ forall k', k' <> k -> counter k' (final (handler ext k [] s)) = counter k' s).
Proof.
  split; [exact (proj1 (handler_post ext k [] s))|].
  split; [apply empty_payload_forwards_defaults_first|].
  intros Hr. destruct (reachable_invariant Hr) as (_ & Hk & _).
  pose proof (shape_lookup s k Hk) as Hl.
  destruct k; cbn [handler documented_defaults counter_key] in *;
    [ unfold _handle_memory_output | unfold _handle_tool_usage
    | unfold _handle_finding | unfold _handle_retrieval
    | unfold _handle_planning | unfold _handle_preference
    | unfold _handle_monitoring ];
    unfold_monad; cbn; rewrite ?get_nil, ?lookup_nil;
    repeat run_step; intros Hok; cbn in Hok; try discriminate Hok.
  all: try discriminate Hl.
  all: try (rewrite ?andb_false_r in Hok; discriminate Hok).
  all: try solve [refute_pure].
  all: invert_pure.
  all: try solve [refute_shape Hok].
  all: (split; [ | eapply counter_after_increment; [eassumption | reflexivity]]).
  all: repeat eexists.
Qed.

(** C8: when the retrieval call and the log ingest that follows
    it both succeed, [_handle_retrieval] makes exactly these two calls, the
    second with [query], [strategy] and the number of results at priority 1,
    returns the retrieval answer itself, and adds one to [retrieval_calls]
    and to no other counter. *)
Theorem retrieval_passes_the_result_through (payload : Dict) (s : St G H) :
  reachable ext s ->
  forallb client_ok (events (_handle_retrieval ext payload s)) = true ->
  exists answer n ts ack,
    events (_handle_retrieval ext payload s)
    = [HookFired Retrieval payload;
       ClientCalled
         (enhanced_retrieval
            (Py.get payload "query" (VStr ""))
            (Py.get payload "query_embedding" VNone)
            (Py.get payload "strategy" (VStr "hybrid"))
            (Py.get payload "top_k" (VInt 10))
            (Py.get payload "node_types" VNone))
         (Ok (VDict answer));
       ClientCalled
         (ingest_event RETRIEVAL_LOGS
            [("query", Py.get payload "query" (VStr ""));
             ("strategy", Py.get payload "strategy" (VStr "hybrid"));
             ("results_count", VInt (Z.of_nat n));
             ("timestamp", VStr ts)] 1)
         (Ok ack)]
    /\ Py.len (Py.get answer "results" (VList [])) = Ok n
    /\ result (_handle_retrieval ext payload s) = Ok (VDict answer)
    /\ counter Retrieval (final (_handle_retrieval ext payload s))
       = (counter Retrieval s + 1)%Z
    /\ forall k, k <> Retrieval ->
         counter k (final (_handle_retrieval ext payload s)) = counter k s.
Proof.
  intros Hr. destruct (reachable_invariant Hr) as (_ & Hk & _).
  pose proof (shape_lookup s Retrieval Hk) as Hl. cbn [counter_key] in Hl.
  unfold _handle_retrieval. unfold_monad. cbn.
  repeat run_step; intros Hok; cbn in Hok; try discriminate Hok.
  all: try discriminate Hl.
  all: try (rewrite ?andb_false_r in Hok; discriminate Hok).
  all: try solve [refute_shape Hok].
  destruct a; cbn in Hok; try discriminate Hok.
  cbv [Py.get_method] in *.
  match goal with Hx : Ok _ = Ok a0 |- _ => inversion Hx; subst; clear Hx end.
  exists d, a1, (isoformat ext t), a2.
  split; [reflexivity|]. split; [assumption|]. split; [reflexivity|].
  eapply (counter_after_increment Retrieval); [eassumption | reflexivity].
Qed.

End Normalizers.

(** *** One layer of instrumentation around a method *)

Section Layers.

Variables G H : Type.
Variable ext : Externals G.

Local Arguments _handle_memory_output : simpl never.
Local Arguments _handle_tool_usage : simpl never.
Local Arguments _handle_finding : simpl never.
Local Arguments fired : simpl never.
Local Arguments host_calls : simpl never.

Lemma enhanced_invoke_layer (m : Dict -> M G H PyVal) (tool_input : Dict) (s : St G H) :
  exists s1,
    host s1 = host s
    /\ result (enhanced_invoke ext m tool_input s) = reraised (result (m tool_input s1))
    /\ host (final (enhanced_invoke ext m tool_input s)) = host (final (m tool_input s1))
    /\ (forall k, fired k (events (enhanced_invoke ext m tool_input s))
                  = (fired k (events (m tool_input s1))
                     + one_if (EventKind_eqb k ToolUsage))%nat)
    /\ host_calls (events (enhanced_invoke ext m tool_input s))
       = host_calls (events (m tool_input s1)).
Proof.
  unfold enhanced_invoke. unfold_monad. cbn.
  destruct (clock ext (semantic_graph s)) as [t0 g1] eqn:E0; cbn.
  eexists (mkState (integration_hooks s) (integration_stats s) g1 (host s)).
  split; [reflexivity|].
  destruct (m tool_input _) as [[r|e] s2 evs2]; cbn;
    destruct (clock ext (semantic_graph s2)) as [t1 g2]; cbn;
    match goal with
    | |- context [_handle_tool_usage ext ?d ?s'] =>
        pose proof (handler_post ext ToolUsage d s') as Hp;
        cbn [handler] in Hp;
        destruct (_handle_tool_usage ext d s') as [[v|e'] s3 evs3];
        destruct Hp as ((v' & Hv) & _ & Hhost & Hfired & Hcalls & _);
        cbn in *; [|discriminate Hv]
    end;
    (split; [reflexivity|]; split; [assumption|]; split;
     [ intros k; rewrite !app_nil_r, fired_app, Hfired; reflexivity
     | rewrite !app_nil_r, host_calls_app, Hcalls; lia ]).
Qed.

Lemma enhanced_save_layer
    (mm : MemoryManager G H) (m : PyVal -> option PyVal -> Dict -> M G H PyVal)
    (content : PyVal) (importance : option PyVal) (kwargs : Dict) (s : St G H) :
  let inner :=
    m content (Some match importance with Some v => v | None => VFloat (1 # 2) end)
      kwargs s in
  let outer := enhanced_save_finding ext mm m content importance kwargs s in
  result outer = result inner
  /\ host (final outer) = host (final inner)
  /\ (forall k, fired k (events outer)
                = (fired k (events inner)
                   + match result inner with
                     | Ok _ => one_if (EventKind_eqb k MemoryWrite)
                     | Raise _ => 0
                     end)%nat)
  /\ host_calls (events outer) = host_calls (events inner).
Proof.
  unfold enhanced_save_finding. unfold_monad. cbn.
  destruct (m content _ kwargs s) as [[r|e] s2 evs2]; cbn.
  - match goal with
    | |- context [_handle_memory_output ext ?d ?s'] =>
        pose proof (handler_post ext MemoryWrite d s') as Hp;
        cbn [handler] in Hp;
        destruct (_handle_memory_output ext d s') as [[v|e'] s3 evs3];
        destruct Hp as ((v' & Hv) & _ & Hhost & Hfired & Hcalls & _);
        cbn in *; [|discriminate Hv]
    end.
    split; [reflexivity|]; split; [assumption|]; split.
    + intros k. rewrite !app_nil_r, fired_app, Hfired. reflexivity.
    + rewrite !app_nil_r, host_calls_app, Hcalls. lia.
  - repeat split. intros k. lia.
Qed.

(** Closes the cases in which the wrapper adds no event. *)
Ltac now_unchanged :=
  solve [repeat split; rewrite ?app_nil_r; intros; try reflexivity; try lia].

Lemma enhanced_step_layer (m : PyVal -> M G H PyVal) (state : PyVal) (s : St G H) :
  let inner := m state s in
  let outer := enhanced_execute_step ext m state s in
  result outer
  = match result inner with
    | Ok result_state =>
        match latest_finding_data result_state with
        | Ok _ => Ok result_state
        | Raise e => Raise e
        end
    | Raise e => Raise e
    end
  /\ host (final outer) = host (final inner)
  /\ (forall k, fired k (events outer)
                = (fired k (events inner)
                   + match result inner with
                     | Ok result_state =>
                         match latest_finding_data result_state with
                         | Ok (Some _) => one_if (EventKind_eqb k Finding)
                         | _ => 0
                         end
                     | Raise _ => 0
                     end)%nat)
  /\ host_calls (events outer) = host_calls (events inner).
Proof.
  unfold enhanced_execute_step, latest_finding_data. unfold_monad. cbn.
  destruct (m state s) as [[rs|e] s2 evs2]; cbn; [|now_unchanged].
  destruct (Py.contains "findings" rs) as [[|]|e]; cbn;
    [ | now_unchanged | now_unchanged ].
  destruct (Py.getitem rs "findings") as [findings|e]; cbn; [|now_unchanged].
  destruct (Py.truthy findings); cbn; [|now_unchanged].
  destruct (Py.getitem_last findings) as [latest|e]; cbn; [|now_unchanged].
  destruct latest; cbv [Py.get_method]; cbn; try now_unchanged.
  match goal with
  | |- context [_handle_finding ext ?p ?s'] =>
      pose proof (handler_post ext Finding p s') as Hp;
      cbn [handler] in Hp;
      destruct (_handle_finding ext p s') as [[v|e'] s3 evs3];
      destruct Hp as ((v' & Hv) & _ & Hhost & Hfired & Hcalls & _);
      cbn in *; [|discriminate Hv]
  end.
  split; [reflexivity|]; split; [assumption|]; split.
  - intros k. rewrite !app_nil_r, fired_app, Hfired. reflexivity.
  - rewrite !app_nil_r, host_calls_app, Hcalls. lia.
Qed.

Lemma call_host_outcome (A : Type) (method : string) (f : H -> Result A * H)
    (s : St G H) :
  result (call_host (G:=G) method f s) = fst (f (host s))
  /\ host (final (call_host (G:=G) method f s)) = snd (f (host s))
  /\ (forall k, fired k (events (call_host (G:=G) method f s)) = 0%nat)
  /\ host_calls (events (call_host (G:=G) method f s)) = 1%nat.
Proof.
  unfold call_host. destruct (f (host s)) as [r h']; cbn.
  repeat split.
Qed.

Lemma reraised_idempotent (A : Type) (r : Result A) :
  reraised (reraised r) = reraised r.
Proof. destruct r; reflexivity. Qed.

Lemma well_formed_state_has_finding_data (v : PyVal) :
  well_formed_state v = true -> exists d, latest_finding_data v = Ok d.
Proof.
  unfold well_formed_state, latest_finding_data.
  destruct v as [| | | | | |l|d]; try discriminate.
  cbv [Py.contains Py.getitem Py.mem].
  destruct (Py.lookup d "findings") as [[| | | | | |l|d']|]; try discriminate;
    [|eexists; reflexivity].
  cbv [Py.truthy Py.getitem_last].
  destruct l as [|x l]; [eexists; reflexivity|].
  destruct (rev (x :: l)) as [|y ?] eqn:E.
  - apply (f_equal (@List.length _)) in E. rewrite length_rev in E. discriminate E.
  - destruct y; try discriminate. eexists; reflexivity.
Qed.

(** C1: nothing guards against wrapping twice.  After two
    applications of an [integrate_*] operation to the same host object the
    original method still runs once per call and the caller gets the same
    value or exception as after one application, but the normalizer fires
    twice as often: twice per call for tool [invoke], and twice wherever it
    fired once for memory save and research-step execution. *)
Theorem wrapping_twice_doubles_the_instrumentation
    (f_save : PyVal -> option PyVal -> Dict -> H -> Result PyVal * H)
    (episode : H -> option PyVal)
    (content : PyVal) (importance : option PyVal) (kwargs : Dict)
    (f_invoke : Dict -> H -> Result PyVal * H) (tool_input : Dict)
    (f_step : PyVal -> H -> Result PyVal * H) (state : PyVal)
    (s : St G H) :
  let memory_manager := host_memory_manager (G:=G) f_save episode in
  let tool_executor := host_tool_executor (G:=G) f_invoke in
  let research_agent := host_research_agent (G:=G) f_step in
  let save1 :=
    save_research_finding (integrate_memory_manager ext memory_manager)
                          content importance kwargs s in
  let save2 :=
    save_research_finding
      (integrate_memory_manager ext (integrate_memory_manager ext memory_manager))
      content importance kwargs s in
  let invoke1 := invoke (integrate_tool_executor ext tool_executor) tool_input s in
  let invoke2 :=
    invoke (integrate_tool_executor ext (integrate_tool_executor ext tool_executor))
           tool_input s in
  let step1 :=
    execute_research_step (integrate_research_loop ext research_agent) state s in
  let step2 :=
    execute_research_step
      (integrate_research_loop ext (integrate_research_loop ext research_agent))
      state s in
  (result save2 = result save1
   /\ host_calls (events save2) = 1%nat
   /\ fired MemoryWrite (events save2) = (2 * fired MemoryWrite (events save1))%nat)
  /\ (result invoke2 = result invoke1
      /\ host_calls (events invoke2) = 1%nat
      /\ fired ToolUsage (events invoke1) = 1%nat
      /\ fired ToolUsage (events invoke2) = 2%nat)
  /\ (result step2 = result step1
      /\ host_calls (events step2) = 1%nat
      /\ fired Finding (events step2) = (2 * fired Finding (events step1))%nat).
Proof.
  cbn zeta. split; [|split].
  - set (m0 := fun c i kw => call_host (G:=G) "save_research_finding" (f_save c i kw)).
    set (mm0 := host_memory_manager (G:=G) f_save episode).
    set (mm1 := integrate_memory_manager ext mm0).
    set (imp := match importance with Some v => v | None => VFloat (1 # 2) end).
    destruct (enhanced_save_layer mm1 (enhanced_save_finding ext mm0 m0)
                content importance kwargs s) as (R2 & _ & F2 & C2).
    destruct (enhanced_save_layer mm0 m0 content (Some imp) kwargs s)
      as (R1' & _ & F1' & C1').
    destruct (enhanced_save_layer mm0 m0 content importance kwargs s)
      as (R1 & _ & F1 & C1).
    cbn zeta in *. fold imp in R2, F2, C2, R1, F1, C1.
    destruct (call_host_outcome "save_research_finding"
                (f_save content (Some imp) kwargs) s) as (_ & _ & F0 & C0).
    fold (m0 content (Some imp) kwargs) in F0, C0.
    specialize (F2 MemoryWrite). specialize (F1' MemoryWrite).
    specialize (F1 MemoryWrite). specialize (F0 MemoryWrite).
    rewrite R1' in F2.
    set (X2 := enhanced_save_finding ext mm1 (enhanced_save_finding ext mm0 m0)
                 content importance kwargs s) in *.
    set (X1 := enhanced_save_finding ext mm0 m0 content importance kwargs s) in *.
    assert (Hres : result X2 = result X1) by congruence.
    assert (Hcalls : host_calls (events X2) = 1%nat) by congruence.
    assert (Hfired : fired MemoryWrite (events X2)
                     = (2 * fired MemoryWrite (events X1))%nat) by lia.
    exact (conj Hres (conj Hcalls Hfired)).
  - set (m0 := fun ti => call_host (G:=G) "invoke" (f_invoke ti)).
    destruct (enhanced_invoke_layer (enhanced_invoke ext m0) tool_input s)
      as (s1 & Hs1 & R2 & _ & F2 & C2).
    destruct (enhanced_invoke_layer m0 tool_input s1)
      as (s2 & Hs2 & R1' & _ & F1' & C1').
    destruct (enhanced_invoke_layer m0 tool_input s)
      as (s1' & Hs1' & R1 & _ & F1 & C1).
    destruct (call_host_outcome "invoke" (f_invoke tool_input) s2)
      as (Rb & _ & Fb & Cb).
    destruct (call_host_outcome "invoke" (f_invoke tool_input) s1')
      as (Rb' & _ & Fb' & Cb').
    fold (m0 tool_input) in Rb, Fb, Cb, Rb', Fb', Cb'.
    specialize (F2 ToolUsage). specialize (F1' ToolUsage).
    specialize (F1 ToolUsage). specialize (Fb ToolUsage). specialize (Fb' ToolUsage).
    cbn [EventKind_eqb one_if] in *.
    set (X2 := enhanced_invoke ext (enhanced_invoke ext m0) tool_input s) in *.
    set (X1 := enhanced_invoke ext m0 tool_input s) in *.
    assert (Hres : result X2 = result X1).
    { rewrite R2, R1', R1, Rb, Rb', reraised_idempotent. congruence. }
    assert (Hcalls : host_calls (events X2) = 1%nat) by congruence.
    assert (Hf1 : fired ToolUsage (events X1) = 1%nat) by lia.
    assert (Hf2 : fired ToolUsage (events X2) = 2%nat) by lia.
    exact (conj Hres (conj Hcalls (conj Hf1 Hf2))).
  - set (m0 := fun st => call_host (G:=G) "execute_research_step" (f_step st)).
    destruct (enhanced_step_layer (enhanced_execute_step ext m0) state s)
      as (R2 & _ & F2 & C2).
    destruct (enhanced_step_layer m0 state s) as (R1 & _ & F1 & C1).
    destruct (call_host_outcome "execute_research_step" (f_step state) s)
      as (_ & _ & F0 & C0).
    fold (m0 state) in F0, C0.
    cbn zeta in *.
    specialize (F2 Finding). specialize (F1 Finding). specialize (F0 Finding).
    cbn [EventKind_eqb one_if] in *.
    rewrite R1 in R2, F2.
    set (X2 := enhanced_execute_step ext (enhanced_execute_step ext m0) state s) in *.
    set (X1 := enhanced_execute_step ext m0 state s) in *.
    assert (Hall : result X2 = result X1
                   /\ host_calls (events X2) = 1%nat
                   /\ fired Finding (events X2) = (2 * fired Finding (events X1))%nat).
    { destruct (result (m0 state s)) as [rs|e]; cbn in *.
      - destruct (latest_finding_data rs) as [[d|]|e] eqn:E; cbn in *;
          rewrite ?E in *; (split; [congruence|]; split; [congruence|lia]).
      - split; [congruence|]; split; [congruence|lia]. }
    exact Hall.
Qed.

(** C3: when the original [invoke] raises [e], the wrapped
    [invoke] runs the tool-usage normalizer once, right after the original
    call, on a payload with [success = False], [error = str(e)] and the
    failure text as output, and then raises: not [e] itself but a new
    [Exception] whose text is [str(e)]. *)
Theorem tool_failure_is_recorded_then_raised_as_plain_exception
    (f : Dict -> H -> Result PyVal * H) (tool_input : Dict) (s : St G H)
    (e : PyExc) (h' : H) :
  f tool_input (host s) = (Raise e, h') ->
  let o := invoke (integrate_tool_executor ext (host_tool_executor f)) tool_input s in
  result o = Raise (Py.Exception (exc_text e))
  /\ host (final o) = h'
  /\ fired ToolUsage (events o) = 1%nat
  /\ exists payload rest,
       events o = HostCalled "invoke" :: HookFired ToolUsage payload :: rest
       /\ Py.lookup payload "success" = Some (VBool false)
       /\ Py.lookup payload "error" = Some (VStr (exc_text e))
       /\ Py.lookup payload "tool_output"
          = Some (VStr ("Tool execution failed: " ++ exc_text e)).
Proof.
  intros Hf. cbn zeta.
  cbn [invoke integrate_tool_executor host_tool_executor].
  unfold enhanced_invoke. unfold_monad. cbn.
  destruct (clock ext (semantic_graph s)) as [t0 g1]; cbn.
  rewrite Hf; cbn.
  destruct (clock ext g1) as [t1 g2]; cbn.
  match goal with
  | |- context [_handle_tool_usage ext ?d ?s'] =>
      pose proof (handler_post ext ToolUsage d s') as Hp;
      cbn [handler] in Hp;
      destruct (_handle_tool_usage ext d s') as [[v|e'] s3 evs3];
      destruct Hp as ((v' & Hv) & _ & Hhost & Hfired & _ & _ & _ & (rest & Hev));
      cbn in *; [|discriminate Hv]
  end.
  subst evs3. split; [reflexivity|]. split; [assumption|]. split.
  - rewrite app_nil_r. specialize (Hfired ToolUsage).
    change (fired ToolUsage (HostCalled "invoke" :: ?l)) with (fired ToolUsage l).
    exact Hfired.
  - eexists _, _. split; [rewrite app_nil_r; reflexivity|].
    repeat split.
Qed.

(** C4: around memory save, research-step execution and RLHF
    capture the wrapper passes an exception of the original method on
    unchanged and fires no normalizer.  When the original returns [r], the
    memory wrapper returns [r]; the research-step wrapper returns [r] when
    [r] is a well-formed state; the RLHF wrapper, which calls no normalizer
    but logs a context event on the semantic graph, returns [r] when that
    call does not raise. *)
Theorem silent_hooks_pass_the_original_outcome_through
    (f_save : PyVal -> option PyVal -> Dict -> H -> Result PyVal * H)
    (episode : H -> option PyVal)
    (content : PyVal) (importance : option PyVal) (kwargs : Dict)
    (f_step : PyVal -> H -> Result PyVal * H) (state : PyVal)
    (f_capture : PyVal -> PyVal -> PyVal -> H -> Result PyVal * H)
    (research_result research_question session_id : PyVal)
    (s : St G H) :
  let passed_importance :=
    Some match importance with Some v => v | None => VFloat (1 # 2) end in
  let save :=
    save_research_finding
      (integrate_memory_manager ext (host_memory_manager f_save episode))
      content importance kwargs s in
  let step :=
    execute_research_step
      (integrate_research_loop ext (host_research_agent f_step)) state s in
  let capture :=
    call_capture_research_output
      (integrate_rlhf_system
         ext (mkRLHFSystem (Some (host_feedback_collector f_capture))))
      research_result research_question session_id s in
  (forall e h', f_save content passed_importance kwargs (host s) = (Raise e, h') ->
     result save = Raise e /\ forall k, fired k (events save) = 0%nat)
  /\ (forall r h', f_save content passed_importance kwargs (host s) = (Ok r, h') ->
       result save = Ok r)
  /\ (forall e h', f_step state (host s) = (Raise e, h') ->
       result step = Raise e /\ forall k, fired k (events step) = 0%nat)
  /\ (forall r h', f_step state (host s) = (Ok r, h') ->
       well_formed_state r = true -> result step = Ok r)
  /\ (forall e h',
       f_capture research_result research_question session_id (host s)
       = (Raise e, h') ->
       result capture = Raise e /\ events capture = [HostCalled "capture_research_output"])
  /\ (forall r h',
       f_capture research_result research_question session_id (host s)
       = (Ok r, h') ->
       forallb client_returned (events capture) = true ->
       result capture = Ok r /\ forall k, fired k (events capture) = 0%nat).
Proof.
  cbn zeta.
  set (imp := Some match importance with Some v => v | None => VFloat (1 # 2) end).
  set (m_save := fun c i kw => call_host (G:=G) "save_research_finding" (f_save c i kw)).
  set (m_step := fun st => call_host (G:=G) "execute_research_step" (f_step st)).
  destruct (enhanced_save_layer (host_memory_manager f_save episode) m_save
              content importance kwargs s) as (Rs & _ & Fs & _).
  destruct (call_host_outcome "save_research_finding"
              (f_save content imp kwargs) s) as (Rs0 & _ & Fs0 & _).
  destruct (enhanced_step_layer m_step state s) as (Rt & _ & Ft & _).
  destruct (call_host_outcome "execute_research_step" (f_step state) s)
    as (Rt0 & _ & Ft0 & _).
  cbn zeta in *.
  fold imp in Rs, Fs.
  fold (m_save content imp kwargs) in Rs0, Fs0.
  fold (m_step state) in Rt0, Ft0.
  set (X_save := enhanced_save_finding ext (host_memory_manager f_save episode)
                   m_save content importance kwargs s) in *.
  set (X_step := enhanced_execute_step ext m_step state s) in *.
  assert (S1 : forall e h',
             f_save content imp kwargs (host s) = (Raise e, h') ->
             result X_save = Raise e /\ forall k, fired k (events X_save) = 0%nat).
  { intros e h' Hf. rewrite Hf in Rs0; cbn in Rs0. rewrite Rs0 in Rs, Fs.
    split; [exact Rs|]. intros k. rewrite Fs, Fs0. reflexivity. }
  assert (S2 : forall r h',
             f_save content imp kwargs (host s) = (Ok r, h') ->
             result X_save = Ok r).
  { intros r h' Hf. rewrite Hf in Rs0; cbn in Rs0. congruence. }
  assert (T1 : forall e h', f_step state (host s) = (Raise e, h') ->
             result X_step = Raise e /\ forall k, fired k (events X_step) = 0%nat).
  { intros e h' Hf. rewrite Hf in Rt0; cbn in Rt0. rewrite Rt0 in Rt, Ft.
    split; [exact Rt|]. intros k. rewrite Ft, Ft0. reflexivity. }
  assert (T2 : forall r h', f_step state (host s) = (Ok r, h') ->
             well_formed_state r = true -> result X_step = Ok r).
  { intros r h' Hf Hwf. rewrite Hf in Rt0; cbn in Rt0. rewrite Rt0 in Rt.
    destruct (well_formed_state_has_finding_data r Hwf) as (d & Hd).
    rewrite Hd in Rt. exact Rt. }
  refine (conj S1 (conj S2 (conj T1 (conj T2 _)))).
  unfold call_capture_research_output, integrate_rlhf_system, enhanced_capture_output.
  cbn [feedback_collector capture_research_output host_feedback_collector].
  unfold_monad. cbn.
  split.
  - intros e h' Hf. rewrite Hf; cbn. split; reflexivity.
  - intros r h' Hf. rewrite Hf; cbn.
    destruct (client ext _ (semantic_graph s)) as [[v|e] g']; cbn.
    + intros _. split; [reflexivity|]. intros k; destruct k; reflexivity.
    + intros Hok. discriminate Hok.
Qed.

End Layers.

(** *** The theorems at work in the concrete world *)

Lemma forwarding_failure_witness :
  result (handler Demo.failing MemoryWrite [("content", VStr "note")] Demo.start)
  = Ok (VStr "Memory integration error: backend down")
  /\ integration_stats
       (final (handler Demo.failing MemoryWrite [("content", VStr "note")] Demo.start))
     = integration_stats Demo.start.
Proof.
  eapply (@forwarding_failure_is_contained
            nat nat Demo.failing MemoryWrite [("content", VStr "note")] Demo.start
            _ Demo.backend_down).
  cbv. right; left; reflexivity.
Defined.

Lemma tool_failure_witness :
  result (invoke (integrate_tool_executor Demo.healthy
                    (host_tool_executor Demo.tool_fails))
                 Demo.tool_input Demo.start)
  = Raise (Py.Exception "bad input").
Proof.
  exact (proj1 (@tool_failure_is_recorded_then_raised_as_plain_exception
                  nat nat Demo.healthy Demo.tool_fails Demo.tool_input Demo.start
                  (Py.ValueError "bad input") 1%nat eq_refl)).
Defined.

Lemma silent_hooks_witness :
  result (save_research_finding
            (integrate_memory_manager
               Demo.healthy (host_memory_manager Demo.save_ok Demo.no_episode))
            (VStr "note") (Some (VFloat (4 # 5))) [] Demo.start)
  = Ok (VStr "saved")
  /\ result (execute_research_step
               (integrate_research_loop Demo.healthy
                  (host_research_agent Demo.step_ok))
               Demo.research_state Demo.start)
     = Ok Demo.research_state
  /\ result (call_capture_research_output
               (integrate_rlhf_system Demo.healthy
                  (mkRLHFSystem (Some (host_feedback_collector Demo.capture_ok))))
               (VStr "answer") (VStr "why") (VStr "session-1") Demo.start)
     = Ok (VStr "answer").
Proof.
  destruct (@silent_hooks_pass_the_original_outcome_through
              nat nat Demo.healthy Demo.save_ok Demo.no_episode
              (VStr "note") (Some (VFloat (4 # 5))) []
              Demo.step_ok Demo.research_state
              Demo.capture_ok (VStr "answer") (VStr "why") (VStr "session-1")
              Demo.start)
    as (_ & Hsave & _ & Hstep & _ & Hcapture).
  split; [|split].
  - exact (Hsave (VStr "saved") 1%nat eq_refl).
  - exact (Hstep Demo.research_state 1%nat eq_refl eq_refl).
  - exact (proj1 (Hcapture (VStr "answer") 1%nat eq_refl eq_refl)).
Defined.

Lemma after_one_memory_write_reachable :
  reachable Demo.healthy Demo.after_one_memory_write.
Proof. apply reachable_step, reachable_init. Defined.

Lemma total_integrations_witness :
  exists d,
    result (get_integration_statistics Demo.healthy Demo.after_one_memory_write) = Ok d
    /\ Py.lookup d "total_integrations" = Some (VInt 1)
    /\ (0 <= counter MemoryWrite Demo.start
        <= counter MemoryWrite Demo.after_one_memory_write)%Z.
Proof.
  destruct (@total_integrations_is_the_sum_of_the_counters
              nat nat Demo.healthy Demo.after_one_memory_write
              (op_normalize nat MemoryWrite [])
              after_one_memory_write_reachable) as (Htotal & Hreturns & _).
  destruct (Hreturns VNone 3%nat eq_refl) as (d & Hd).
  exists d. split; [exact Hd|]. split.
  - exact (proj1 (Htotal d Hd)).
  - destruct (@total_integrations_is_the_sum_of_the_counters
                nat nat Demo.healthy Demo.start
                (op_normalize nat MemoryWrite [("content", VStr "note")])
                (reachable_init Demo.healthy 0%nat 0%nat)) as (_ & _ & Hmono).
    exact (Hmono MemoryWrite).
Defined.

Lemma health_status_witness :
  (exists d,
     result (get_integration_health Demo.healthy Demo.start) = Ok d
     /\ Py.lookup d "total_events_processed" = Some (VInt 0)
     /\ Py.lookup d "status" = Some (VStr "idle"))
  /\ (exists d,
        result (get_integration_health Demo.healthy Demo.after_one_memory_write) = Ok d
        /\ Py.lookup d "total_events_processed" = Some (VInt 1)
        /\ Py.lookup d "status" = Some (VStr "active"))
  /\ result (handler Demo.ingest_down MemoryWrite [("content", VStr "lost")]
                     Demo.after_one_preference)
     = Ok (VStr "Memory integration error: backend down")
  /\ (exists d,
        result (get_integration_health
                  Demo.ingest_down
                  (perform_all Demo.ingest_down
                     [op_normalize nat MemoryWrite [("content", VStr "lost")];
                      op_normalize nat Finding []; op_health nat]
                     Demo.after_one_preference)) = Ok d
        /\ Py.lookup d "status" = Some (VStr "active")).
Proof.
  split; [|split; [|split]].
  - exact (proj1 (@health_status_is_active_iff_events_were_processed
                    nat nat Demo.healthy Demo.start []
                    (reachable_init Demo.healthy 0%nat 0%nat))
                 VNone _ eq_refl).
  - exact (proj1 (@health_status_is_active_iff_events_were_processed
                    nat nat Demo.healthy Demo.after_one_memory_write []
                    after_one_memory_write_reachable)
                 VNone _ eq_refl).
  - reflexivity.
  - exact (proj2 (proj2 (proj2 (proj2
             (@health_status_is_active_iff_events_were_processed
                nat nat Demo.ingest_down Demo.after_one_preference
                [op_normalize nat MemoryWrite [("content", VStr "lost")];
                 op_normalize nat Finding []; op_health nat]
                (reachable_step (op_normalize nat Preference [])
                   (reachable_init Demo.ingest_down 0%nat 0%nat))))))
             eq_refl VNone _ eq_refl).
Defined.

Lemma empty_payload_witness :
  (exists v, result (handler Demo.failing Monitoring [] Demo.start) = Ok v)
  /\ counter Monitoring (final (handler Demo.failing Monitoring [] Demo.start)) = 0%Z
  /\ documented_defaults Monitoring
       (forwarded (events (handler Demo.healthy Monitoring [] Demo.start)))
  /\ counter Monitoring (final (handler Demo.healthy Monitoring [] Demo.start)) = 1%Z
  /\ counter MemoryWrite (final (handler Demo.healthy Monitoring [] Demo.start)) = 0%Z.
Proof.
  split; [exact (proj1 (@empty_payload_uses_defaults_and_counts_once
                          nat nat Demo.failing Monitoring Demo.start))|].
  split; [reflexivity|].
  destruct (proj2 (proj2 (@empty_payload_uses_defaults_and_counts_once
                            nat nat Demo.healthy Monitoring Demo.start))
                  (reachable_init Demo.healthy 0%nat 0%nat) eq_refl)
    as (Hdefaults & Hown & Hothers).
  split; [exact Hdefaults|]. split; [exact Hown|].
  apply Hothers. discriminate.
Defined.

Lemma retrieval_witness :
  result (_handle_retrieval Demo.healthy [("query", VStr "rocq")] Demo.start)
  = Ok Demo.retrieval_answer
  /\ counter Retrieval
       (final (_handle_retrieval Demo.healthy [("query", VStr "rocq")] Demo.start))
     = 1%Z.
Proof.
  destruct (@retrieval_passes_the_result_through
              nat nat Demo.healthy [("query", VStr "rocq")] Demo.start
              (reachable_init Demo.healthy 0%nat 0%nat) eq_refl)
    as (answer & n & ts & ack & Hev & _ & Hres & Hcount & _).
  split; [|exact Hcount].
  rewrite Hres. cbv in Hev. inversion Hev. reflexivity.
Defined.

Lemma registry_witness :
  List.length (integration_hooks Demo.after_one_memory_write) = 7%nat
  /\ integration_hooks (perform Demo.healthy (op_health nat) Demo.after_one_memory_write)
     = integration_hooks Demo.after_one_memory_write
  /\ (exists d,
        result (get_integration_statistics Demo.healthy Demo.after_one_memory_write)
        = Ok d
        /\ Py.lookup d "hooks_registered" = Some (VInt 7))
  /\ (exists d,
        result (get_integration_health Demo.healthy Demo.after_one_memory_write) = Ok d
        /\ Py.lookup d "integration_points_active" = Some (VInt 7)).
Proof.
  destruct (@registry_always_holds_seven_hooks
              nat nat Demo.healthy Demo.after_one_memory_write (op_health nat)
              after_one_memory_write_reachable)
    as (_ & Hlen & Hsame & _ & _ & Hstat & Hhealth).
  exact (conj Hlen (conj Hsame (conj (Hstat VNone _ eq_refl)
                                     (Hhealth VNone _ eq_refl)))).
Defined.

Lemma health_errors_witness :
  exists d,
    result (get_integration_health
              Demo.healthy
              (perform Demo.failing (op_normalize nat MemoryWrite []) Demo.start))
    = Ok d
    /\ Py.lookup d "integration_errors" = Some (VInt 0).
Proof.
  eexists. split; [reflexivity|].
  exact (@health_never_reports_errors
           nat nat Demo.healthy
           (perform Demo.failing (op_normalize nat MemoryWrite []) Demo.start)
           _ eq_refl).
Defined.

(** *** Where the code departs from the specification *)

(** C1, counterexample: a tool executor integrated twice logs every call
    twice, although the tool itself ran once. *)
Lemma wrapping_twice_is_not_idempotent :
  let o := invoke (integrate_tool_executor Demo.healthy
                     (integrate_tool_executor Demo.healthy
                        (host_tool_executor Demo.tool_ok)))
                  Demo.tool_input Demo.start in
  host_calls (events o) = 1%nat
  /\ fired ToolUsage (events o) = 2%nat
  /\ counter ToolUsage (final o) = 2%Z
  /\ fired ToolUsage (events o) <> 1%nat.
Proof. cbv. repeat split. discriminate. Qed.

(** C3, counterexample: the tool raised a [ValueError]; what reaches the
    caller is an [Exception] with the same text, not the original. *)
Lemma tool_exception_is_not_the_original :
  fst (Demo.tool_fails Demo.tool_input 0%nat)
  = Raise (mkExc "ValueError" "bad input")
  /\ result (invoke (integrate_tool_executor Demo.healthy
                       (host_tool_executor Demo.tool_fails))
                    Demo.tool_input Demo.start)
     = Raise (mkExc "Exception" "bad input")
  /\ result (invoke (integrate_tool_executor Demo.healthy
                       (host_tool_executor Demo.tool_fails))
                    Demo.tool_input Demo.start)
     <> fst (Demo.tool_fails Demo.tool_input 0%nat).
Proof. cbv. repeat split. discriminate. Qed.

(** C4, counterexample: the original capture method returned, the context
    log on the semantic graph raised, and the caller of the wrapped method
    gets that exception in place of the value; and a research step whose
    original returned something that is not a state makes the wrapper raise
    as well. *)
Lemma silent_wrappers_can_lose_the_result :
  fst (Demo.capture_ok (VStr "answer") (VStr "why") (VStr "session-1") 0%nat)
  = Ok (VStr "answer")
  /\ result (call_capture_research_output
               (integrate_rlhf_system Demo.failing
                  (mkRLHFSystem (Some (host_feedback_collector Demo.capture_ok))))
               (VStr "answer") (VStr "why") (VStr "session-1") Demo.start)
     = Raise Demo.backend_down
  /\ fst (Demo.step_returns_none Demo.research_state 0%nat) = Ok VNone
  /\ result (execute_research_step
               (integrate_research_loop Demo.healthy
                  (host_research_agent Demo.step_returns_none))
               Demo.research_state Demo.start)
     = Raise (Py.TypeError "argument of type 'NoneType' is not iterable").
Proof. cbv. repeat split. Qed.

(** C8, counterexample: the retrieval call succeeded, the log ingest after
    it raised; the caller gets the error shape in place of the retrieval
    answer and [retrieval_calls] stays at zero. *)
Lemma retrieval_result_is_lost_when_the_log_ingest_fails :
  let o := _handle_retrieval Demo.failing [("query", VStr "rocq")] Demo.start in
  In (ClientCalled
        (enhanced_retrieval (VStr "rocq") VNone (VStr "hybrid") (VInt 10) VNone)
        (Ok Demo.retrieval_answer))
     (events o)
  /\ result o = Ok (VDict [("error", VStr "backend down"); ("results", VList [])])
  /\ result o <> Ok Demo.retrieval_answer
  /\ counter Retrieval (final o) = 0%Z.
Proof.
  cbv. split; [right; left; reflexivity|]. repeat split. discriminate.
Qed.

(** ** Further properties of the normalizers *)

Section MoreNormalizers.

Variables G H : Type.
Variable ext : Externals G.

(** X1: when the planning call and the log ingest after it both succeed,
    [_handle_planning] makes exactly these two calls, the second with the
    question, the strategy, the number of plan steps and the plan's
    connectivity at priority 2, returns the plan itself, and adds one to
    [plan_generations] and to no other counter. *)
Theorem planning_passes_the_plan_through (payload : Dict) (s : St G H) :
  reachable ext s ->
  forallb client_ok (events (handler ext Planning payload s)) = true ->
  exists plan n ts ack,
    events (handler ext Planning payload s)
    = [HookFired Planning payload;
       ClientCalled
         (enhanced_planning
            (Py.get payload "research_question" (VStr ""))
            (Py.get payload "context" (VDict []))
            (Py.get payload "strategy" (VStr "hybrid"))
            (Py.get payload "max_steps" (VInt 8)))
         (Ok (VDict plan));
       ClientCalled
         (ingest_event PLANNER_OUTPUTS
            [("research_question", Py.get payload "research_question" (VStr ""));
             ("strategy", Py.get payload "strategy" (VStr "hybrid"));
             ("plan_steps", VInt (Z.of_nat n));
             ("graph_connectivity", Py.get plan "graph_connectivity" (VDict []));
             ("timestamp", VStr ts)] 2)
         (Ok ack)]
    /\ Py.len (Py.get plan "plan_steps" (VList [])) = Ok n
    /\ result (handler ext Planning payload s) = Ok (VDict plan)
    /\ counter Planning (final (handler ext Planning payload s))
       = (counter Planning s + 1)%Z
    /\ forall k, k <> Planning ->
         counter k (final (handler ext Planning payload s)) = counter k s.
Proof.
  intros Hr. destruct (reachable_invariant Hr) as (_ & Hk & _).
  pose proof (shape_lookup s Planning Hk) as Hl. cbn [counter_key] in Hl.
  cbn [handler]. unfold _handle_planning. unfold_monad. cbn.
  repeat run_step; intros Hok; cbn in Hok; try discriminate Hok.
  all: try discriminate Hl.
  all: try (rewrite ?andb_false_r in Hok; discriminate Hok).
  all: try solve [refute_shape Hok].
  destruct a; cbn in Hok; try discriminate Hok.
  cbv [Py.get_method] in *.
  inversion Heqr; subst; clear Heqr. inversion Heqr1; subst; clear Heqr1.
  exists d, a1, (isoformat ext t), a3.
  split; [reflexivity|]. split; [assumption|]. split; [reflexivity|].
  eapply (counter_after_increment Planning); [eassumption | reflexivity].
Qed.

(** X2: a memory write whose content is a string is acknowledged with the
    length of that string and counted once, when the ingest succeeds.  What
    is ingested has the six fixed fields, followed by [concepts] and
    [citations] exactly when the payload has them, with the payload's
    values; no other key of the payload is forwarded. *)
Theorem memory_write_reports_length_and_forwards_known_fields
    (payload : Dict) (content : string) (s : St G H) :
  reachable ext s ->
  Py.get payload "content" (VStr "") = VStr content ->
  forallb client_returned (events (handler ext MemoryWrite payload s)) = true ->
  result (handler ext MemoryWrite payload s)
  = Ok (VStr ("Memory content ingested into semantic graph: "
              ++ Py.str_of_nat (String.length content) ++ " chars"))
  /\ counter MemoryWrite (final (handler ext MemoryWrite payload s))
     = (counter MemoryWrite s + 1)%Z
  /\ exists data,
       forwarded (events (handler ext MemoryWrite payload s))
       = [ingest_event MEMORY data 2]
       /\ Py.keys data
          = (["content"; "importance"; "memory_type"; "session_id";
              "timestamp"; "source"]
             ++ (if Py.mem payload "concepts" then ["concepts"] else [])
             ++ (if Py.mem payload "citations" then ["citations"] else []))%list
       /\ Py.lookup data "content" = Some (VStr content)
       /\ Py.lookup data "source" = Some (VStr "memory_manager")
       /\ Py.lookup data "concepts" = Py.lookup payload "concepts"
       /\ Py.lookup data "citations" = Py.lookup payload "citations".
Proof.
  intros Hr Hc. destruct (reachable_invariant Hr) as (_ & Hk & _).
  pose proof (shape_lookup s MemoryWrite Hk) as Hl. cbn [counter_key] in Hl.
  cbn [handler]. unfold _handle_memory_output. unfold_monad. cbn.
  rewrite Hc.
  unfold Py.mem.
  destruct (Py.lookup payload "concepts") as [concepts|] eqn:E1;
    destruct (Py.lookup payload "citations") as [citations|] eqn:E2;
    repeat run_step; intros Hok; cbn in Hok; try discriminate Hok;
    try discriminate Hl;
    try (match goal with Hx : Py.len (VStr _) = Raise _ |- _ => discriminate Hx end);
    (match goal with
     | Hx : Py.len (VStr _) = Ok _ |- _ =>
         cbv [Py.len] in Hx; inversion Hx; subst; clear Hx
     end);
    (split; [reflexivity|]);
    (split; [eapply (counter_after_increment MemoryWrite);
             [eassumption | reflexivity]|]);
    eexists; (split; [reflexivity|]); repeat split.
Qed.

(** X3: the acknowledgement is built after the counter was incremented.
    When [len] of the content (memory write) or of the finding raises, for a
    number or [None] say, the event has been ingested and counted, and yet
    the caller is handed the error message. *)
Theorem unsized_content_is_counted_and_reported_as_error
    (payload : Dict) (e : PyExc) (s : St G H) :
  reachable ext s ->
  (Py.len (Py.get payload "content" (VStr "")) = Raise e ->
   forallb client_returned (events (handler ext MemoryWrite payload s)) = true ->
   result (handler ext MemoryWrite payload s) = Ok (error_value MemoryWrite e)
   /\ counter MemoryWrite (final (handler ext MemoryWrite payload s))
      = (counter MemoryWrite s + 1)%Z
   /\ List.length (forwarded (events (handler ext MemoryWrite payload s))) = 1%nat)
  /\ (Py.len (Py.get payload "finding" (VStr "")) = Raise e ->
      (exists step,
         Py.get_method (Py.get payload "step_info" (VDict [])) "step_number" (VInt 0)
         = Ok step) ->
      forallb client_returned (events (handler ext Finding payload s)) = true ->
      result (handler ext Finding payload s) = Ok (error_value Finding e)
      /\ counter Finding (final (handler ext Finding payload s))
         = (counter Finding s + 1)%Z
      /\ List.length (forwarded (events (handler ext Finding payload s))) = 1%nat).
Proof.
  intros Hr. destruct (reachable_invariant Hr) as (_ & Hk & _). split.
  - pose proof (shape_lookup s MemoryWrite Hk) as Hl. cbn [counter_key] in Hl.
    intros Hlen. cbn [handler]. unfold _handle_memory_output. unfold_monad. cbn.
    rewrite Hlen.
    repeat run_step; intros Hok; cbn in Hok; try discriminate Hok;
      try discriminate Hl.
    split; [reflexivity|]. split; [|reflexivity].
    eapply (counter_after_increment MemoryWrite); [eassumption | reflexivity].
  - pose proof (shape_lookup s Finding Hk) as Hl. cbn [counter_key] in Hl.
    intros Hlen (step & Hstep). cbn [handler]. unfold _handle_finding.
    unfold_monad. cbn. rewrite Hlen, Hstep. cbn.
    repeat run_step; intros Hok; cbn in Hok; try discriminate Hok;
      try discriminate Hl.
    split; [reflexivity|]. split; [|reflexivity].
    eapply (counter_after_increment Finding); [eassumption | reflexivity].
Qed.

(** X4: tool usage is logged and counted whatever the tool's own outcome:
    [success] is forwarded as it is and decides nothing.  The ingested
    record has exactly seven fields ([tool_input], [tool_output] and
    [context] under the names [input], [output], [usage_context]); an
    [error] entry of the payload is not forwarded. *)
Theorem tool_usage_is_counted_whatever_the_outcome (payload : Dict) (s : St G H) :
  reachable ext s ->
  forallb client_returned (events (handler ext ToolUsage payload s)) = true ->
  result (handler ext ToolUsage payload s)
  = Ok (VStr ("Tool usage logged: "
              ++ str ext (Py.get payload "tool_name" (VStr ""))
              ++ " -> semantic graph"))
  /\ counter ToolUsage (final (handler ext ToolUsage payload s))
     = (counter ToolUsage s + 1)%Z
  /\ (forall k, k <> ToolUsage ->
        counter k (final (handler ext ToolUsage payload s)) = counter k s)
  /\ exists ts,
       forwarded (events (handler ext ToolUsage payload s))
       = [ingest_event TOOL_USAGE
            [("tool_name", Py.get payload "tool_name" (VStr ""));
             ("input", Py.get payload "tool_input" (VStr ""));
             ("output", Py.get payload "tool_output" (VStr ""));
             ("execution_time", Py.get payload "execution_time" (VFloat 0));
             ("success", Py.get payload "success" (VBool true));
             ("timestamp", VStr ts);
             ("usage_context", Py.get payload "context" (VStr "research"))] 1].
Proof.
  intros Hr. destruct (reachable_invariant Hr) as (_ & Hk & _).
  pose proof (shape_lookup s ToolUsage Hk) as Hl. cbn [counter_key] in Hl.
  cbn [handler]. unfold _handle_tool_usage. unfold_monad. cbn.
  repeat run_step; intros Hok; cbn in Hok; try discriminate Hok;
    try discriminate Hl.
  split; [reflexivity|].
  assert (Hc := counter_after_increment ToolUsage s
                  (mkState (integration_hooks s)
                           (Py.set (integration_stats s) "tool_usage_logs" (z + 1)%Z)
                           g0 (host s)) Heqo eq_refl).
  destruct Hc as [Hown Hothers].
  split; [exact Hown|]. split; [exact Hothers|].
  eexists. reflexivity.
Qed.

(** X7: a finding whose [step_info] is not a mapping is dropped before
    anything is sent: no call reaches the semantic graph, whatever its state,
    the counters stay as they are and the caller gets the error message. *)
Theorem finding_with_malformed_step_info_is_dropped
    (payload : Dict) (e : PyExc) (s : St G H) :
  Py.get_method (Py.get payload "step_info" (VDict [])) "step_number" (VInt 0)
  = Raise e ->
  result (handler ext Finding payload s) = Ok (error_value Finding e)
  /\ events (handler ext Finding payload s) = [HookFired Finding payload]
  /\ final (handler ext Finding payload s) = s.
Proof.
  intros Hget. cbn [handler]. unfold _handle_finding. unfold_monad. cbn.
  rewrite Hget. cbn. destruct s; repeat split.
Qed.

(** X8: a preference is recorded through [record_user_feedback] alone, with
    the six fields at the payload's values or their defaults; the identifier
    the graph returns is what the acknowledgement names, and
    [preference_logs] grows by one. *)
Theorem preference_is_recorded_through_the_feedback_call
    (payload : Dict) (s : St G H) :
  reachable ext s ->
  forallb client_returned (events (handler ext Preference payload s)) = true ->
  exists preference_id,
    events (handler ext Preference payload s)
    = [HookFired Preference payload;
       ClientCalled
         (record_user_feedback
            (Py.get payload "user_id" (VStr "anonymous"))
            (Py.get payload "preferred_content" (VStr ""))
            (Py.get payload "rejected_content" (VStr ""))
            (Py.get payload "feedback_type" (VStr "quality"))
            (Py.get payload "confidence" (VFloat 1))
            (Py.get payload "context" (VStr "")))
         (Ok preference_id)]
    /\ result (handler ext Preference payload s)
       = Ok (VStr ("User preference recorded: " ++ str ext preference_id))
    /\ counter Preference (final (handler ext Preference payload s))
       = (counter Preference s + 1)%Z
    /\ forall k, k <> Preference ->
         counter k (final (handler ext Preference payload s)) = counter k s.
Proof.
  intros Hr. destruct (reachable_invariant Hr) as (_ & Hk & _).
  pose proof (shape_lookup s Preference Hk) as Hl. cbn [counter_key] in Hl.
  cbn [handler]. unfold _handle_preference. unfold_monad. cbn.
  repeat run_step; intros Hok; cbn in Hok; try discriminate Hok;
    try discriminate Hl.
  eexists. split; [reflexivity|]. split; [reflexivity|].
  eapply (counter_after_increment Preference); [eassumption | reflexivity].
Qed.

(** X5: a monitoring event with a numeric execution time makes its calls
    in this order: the operation time in milliseconds, then [record_error]
    with the payload's [error_type] (default [general_error]) exactly when
    [success] is falsy, then one context event.  When all of them return,
    [monitoring_events] grows by one. *)
Theorem monitoring_records_an_error_exactly_for_failed_steps
    (payload : Dict) (milliseconds : PyVal) (seconds : string) (s : St G H) :
  reachable ext s ->
  Py.times_1000 (Py.get payload "execution_time" (VFloat 0)) = Ok milliseconds ->
  format_2f ext (Py.get payload "execution_time" (VFloat 0)) = Ok seconds ->
  forallb client_returned (events (handler ext Monitoring payload s)) = true ->
  forwarded (events (handler ext Monitoring payload s))
  = ([record_operation_time (Py.get payload "step_name" (VStr "unknown")) milliseconds]
     ++ (if Py.truthy (Py.get payload "success" (VBool true)) then []
         else [record_error (Py.get payload "error_type" (VStr "general_error"))])
     ++ [record_context_event
           "monitoring"
           ("Step: " ++ str ext (Py.get payload "step_name" (VStr "unknown"))
            ++ ", Time: " ++ seconds ++ "s")
           (3 # 10)])%list
  /\ result (handler ext Monitoring payload s)
     = Ok (VStr ("Monitoring data recorded for step: "
                 ++ str ext (Py.get payload "step_name" (VStr "unknown"))))
  /\ counter Monitoring (final (handler ext Monitoring payload s))
     = (counter Monitoring s + 1)%Z
  /\ forall k, k <> Monitoring ->
       counter k (final (handler ext Monitoring payload s)) = counter k s.
Proof.
  intros Hr. destruct (reachable_invariant Hr) as (_ & Hk & _).
  pose proof (shape_lookup s Monitoring Hk) as Hl. cbn [counter_key] in Hl.
  intros Hms Hfmt.
  cbn [handler]. unfold _handle_monitoring. unfold_monad. cbn.
  rewrite Hms, Hfmt. cbn.
  repeat run_step; intros Hok; cbn in Hok; try discriminate Hok;
    try discriminate Hl;
    (split; [reflexivity|]); (split; [reflexivity|]);
    (eapply (counter_after_increment Monitoring); [eassumption | reflexivity]).
Qed.

(** X6: the operation time is recorded before the execution time is
    formatted.  When the execution time can be multiplied but not formatted
    with [.2f] (a string, a list), the operation time (and the error of a
    failed step) has been recorded on the graph, no context event is
    logged, the counter is left alone and the caller gets the error
    message. *)
Theorem monitoring_with_unformattable_time_keeps_its_side_effects
    (payload : Dict) (milliseconds : PyVal) (e : PyExc) (s : St G H) :
  Py.times_1000 (Py.get payload "execution_time" (VFloat 0)) = Ok milliseconds ->
  format_2f ext (Py.get payload "execution_time" (VFloat 0)) = Raise e ->
  forallb client_returned (events (handler ext Monitoring payload s)) = true ->
  forwarded (events (handler ext Monitoring payload s))
  = ([record_operation_time (Py.get payload "step_name" (VStr "unknown")) milliseconds]
     ++ (if Py.truthy (Py.get payload "success" (VBool true)) then []
         else [record_error (Py.get payload "error_type" (VStr "general_error"))]))%list
  /\ result (handler ext Monitoring payload s) = Ok (error_value Monitoring e)
  /\ integration_stats (final (handler ext Monitoring payload s))
     = integration_stats s.
Proof.
  intros Hms Hfmt.
  cbn [handler]. unfold _handle_monitoring. unfold_monad. cbn.
  rewrite Hms, Hfmt. cbn.
  repeat run_step; intros Hok; cbn in Hok; try discriminate Hok;
    repeat split.
Qed.

End MoreNormalizers.

(** ** Further properties of the wrappers *)

Lemma lookup_cons (V : Type) (k' : string) (v : V) (d : list (string * V))
    (k : string) :
  Py.lookup ((k', v) :: d) k = if String.eqb k' k then Some v else Py.lookup d k.
Proof. reflexivity. Qed.

Lemma lookup_not_in_keys (V : Type) (d : list (string * V)) (k : string) :
  ~ In k (Py.keys d) -> Py.lookup d k = None.
Proof.
  unfold Py.keys. induction d as [|[k' v] d IH]; [reflexivity|].
  cbn [map fst]. rewrite lookup_cons.
  intros Hn. destruct (String.eqb_spec k' k) as [->|Hne].
  - exfalso. apply Hn. now left.
  - apply IH. intros Hin. apply Hn. now right.
Qed.

Lemma lookup_update_absent (V : Type) (extra d : list (string * V)) (k : string) :
  Py.lookup extra k = None -> Py.lookup (Py.update d extra) k = Py.lookup d k.
Proof.
  unfold Py.update. revert d.
  induction extra as [|[k' v] extra IH]; intros d; [reflexivity|].
  rewrite lookup_cons. cbn [fold_left fst snd].
  destruct (String.eqb_spec k' k) as [->|Hne]; [discriminate|].
  intros Hl. rewrite (IH _ Hl). apply lookup_set_other. congruence.
Qed.

Lemma lookup_update_present (V : Type) (extra d : list (string * V)) (k : string)
    (v : V) :
  NoDup (Py.keys extra) -> Py.lookup extra k = Some v ->
  Py.lookup (Py.update d extra) k = Some v.
Proof.
  unfold Py.update, Py.keys. revert d.
  induction extra as [|[k' v'] extra IH]; intros d Hnd; [discriminate|].
  rewrite lookup_cons. cbn [fold_left fst snd map] in *.
  inversion Hnd as [|? ? Hnotin Hnd']; subst.
  destruct (String.eqb_spec k' k) as [->|Hne].
  - intros Hv; inversion Hv; subst.
    pose proof (@lookup_update_absent V extra (Py.set d k v) k
                  (@lookup_not_in_keys V extra k Hnotin)) as Ha.
    unfold Py.update in Ha. rewrite Ha. apply lookup_set_same.
  - intros Hl. now apply IH.
Qed.

Section MoreWrappers.

Variables G H : Type.
Variable ext : Externals G.

Local Arguments _handle_memory_output : simpl never.
Local Arguments _handle_tool_usage : simpl never.
Local Arguments _handle_finding : simpl never.
Local Arguments fired : simpl never.
Local Arguments host_calls : simpl never.

(** X9: a tool call that succeeds is handed back as it is, with the host
    state the tool left, whatever the semantic graph does meanwhile.  The
    tool runs once and the tool-usage normalizer is entered once, right after
    the tool, and no other normalizer; its payload has [success = True], no
    error, the tool name (default [unknown]), the result as text, and as
    execution time the difference of the two clock readings taken around the
    call, in seconds. *)
Theorem successful_tool_call_is_returned_whatever_the_graph_does
    (f : Dict -> H -> Result PyVal * H) (tool_input : Dict) (s : St G H)
    (r : PyVal) (h' : H) :
  f tool_input (host s) = (Ok r, h') ->
  let o := invoke (integrate_tool_executor ext (host_tool_executor f)) tool_input s in
  let start_time := fst (clock ext (semantic_graph s)) in
  let end_time := fst (clock ext (snd (clock ext (semantic_graph s)))) in
  result o = Ok r
  /\ host (final o) = h'
  /\ (exists rest,
        events o
        = HostCalled "invoke"
          :: HookFired ToolUsage
               [("tool_name", Py.get tool_input "tool" (VStr "unknown"));
                ("tool_input",
                 VStr (str ext (Py.get tool_input "tool_input" (VStr ""))));
                ("tool_output", VStr (str ext r));
                ("execution_time", VFloat (Qmake (end_time - start_time) 1000000));
                ("success", VBool true);
                ("error", VNone)]
          :: rest)
  /\ (forall k, fired k (events o) = one_if (EventKind_eqb k ToolUsage))
  /\ host_calls (events o) = 1%nat.
Proof.
  intros Hf. cbn zeta.
  cbn [invoke integrate_tool_executor host_tool_executor].
  unfold enhanced_invoke. unfold_monad. cbn.
  destruct (clock ext (semantic_graph s)) as [t0 g1]; cbn.
  rewrite Hf; cbn.
  destruct (clock ext g1) as [t1 g2]; cbn.
  match goal with
  | |- context [_handle_tool_usage ext ?d ?s'] =>
      pose proof (handler_post ext ToolUsage d s') as Hp;
      cbn [handler] in Hp;
      destruct (_handle_tool_usage ext d s') as [[v|e'] s3 evs3];
      destruct Hp as ((v' & Hv) & _ & Hhost & Hfired & Hcalls & _ & _ & (rest & Hev));
      cbn in *; [|discriminate Hv]
  end.
  rewrite app_nil_r.
  split; [reflexivity|]. split; [assumption|]. split; [|split].
  - exists rest. rewrite Hev. reflexivity.
  - intros k. change (HostCalled "invoke" :: evs3) with ([HostCalled "invoke"] ++ evs3)%list.
    rewrite fired_app, Hfired. destruct k; reflexivity.
  - change (HostCalled "invoke" :: evs3) with ([HostCalled "invoke"] ++ evs3)%list.
    rewrite host_calls_app, Hcalls. reflexivity.
Qed.

(** X10: each [integrate_tool_executor] adds one layer.  Under [n] layers
    the tool runs once, the tool-usage normalizer is entered [n] times and no
    other normalizer, the host state is what the tool left, and the caller
    gets the tool's value, or, from the first layer on, a plain [Exception]
    with the text of what the tool raised. *)
Theorem tool_executor_under_n_layers
    (n : nat) (f : Dict -> H -> Result PyVal * H) (tool_input : Dict) (s : St G H) :
  let o := invoke (wrapped_tool_executor ext n f) tool_input s in
  host_calls (events o) = 1%nat
  /\ (forall k, fired k (events o) = if EventKind_eqb k ToolUsage then n else 0%nat)
  /\ host (final o) = snd (f tool_input (host s))
  /\ result o = match n with
                | O => fst (f tool_input (host s))
                | S _ => reraised (fst (f tool_input (host s)))
                end.
Proof.
  cbn zeta. revert s. induction n as [|n IH]; intros s.
  - cbn [wrapped_tool_executor Nat.iter nat_rect invoke host_tool_executor].
    destruct (call_host_outcome (G:=G) "invoke" (f tool_input) s)
      as (R & Hh & F & C).
    repeat split; try assumption.
    intros k. rewrite F. destruct k; reflexivity.
  - change (invoke (wrapped_tool_executor ext (S n) f) tool_input s)
      with (enhanced_invoke ext (invoke (wrapped_tool_executor ext n f)) tool_input s).
    destruct (enhanced_invoke_layer ext (invoke (wrapped_tool_executor ext n f))
                tool_input s) as (s1 & Hs1 & R & Hh & F & C).
    destruct (IH s1) as (C' & F' & Hh' & R').
    rewrite Hs1 in *.
    split; [congruence|]. split; [|split].
    + intros k. rewrite F, F'. destruct k; cbn; lia.
    + congruence.
    + rewrite R, R'. destruct n; [reflexivity | apply reraised_idempotent].
Qed.

(** X11: each [integrate_memory_manager] adds one layer.  Under [n] layers
    the original save runs once, from the first layer on with an explicit
    importance ([0.5] when the caller gave none); its value or exception is
    what the caller gets; the memory normalizer is entered [n] times when the
    save returned and not at all when it raised. *)
Theorem memory_manager_under_n_layers
    (n : nat) (f : PyVal -> option PyVal -> Dict -> H -> Result PyVal * H)
    (episode : H -> option PyVal)
    (content : PyVal) (importance : option PyVal) (kwargs : Dict) (s : St G H) :
  let passed :=
    match n with
    | O => importance
    | S _ => Some match importance with Some v => v | None => VFloat (1 # 2) end
    end in
  let o := save_research_finding (wrapped_memory_manager ext n f episode)
                                 content importance kwargs s in
  host_calls (events o) = 1%nat
  /\ result o = fst (f content passed kwargs (host s))
  /\ host (final o) = snd (f content passed kwargs (host s))
  /\ (forall k, fired k (events o)
                = match fst (f content passed kwargs (host s)) with
                  | Ok _ => if EventKind_eqb k MemoryWrite then n else 0%nat
                  | Raise _ => 0%nat
                  end).
Proof.
  cbn zeta. revert importance s. induction n as [|n IH]; intros importance s.
  - cbn [wrapped_memory_manager Nat.iter nat_rect save_research_finding
         host_memory_manager].
    destruct (call_host_outcome (G:=G) "save_research_finding"
                (f content importance kwargs) s) as (R & Hh & F & C).
    repeat split; try assumption.
    intros k. rewrite F. destruct (fst _); destruct k; reflexivity.
  - change (save_research_finding (wrapped_memory_manager ext (S n) f episode)
              content importance kwargs s)
      with (enhanced_save_finding ext (wrapped_memory_manager ext n f episode)
              (save_research_finding (wrapped_memory_manager ext n f episode))
              content importance kwargs s).
    destruct (enhanced_save_layer ext (wrapped_memory_manager ext n f episode)
                (save_research_finding (wrapped_memory_manager ext n f episode))
                content importance kwargs s) as (R & Hh & F & C).
    cbn zeta in R, Hh, F, C.
    set (imp := match importance with Some v => v | None => VFloat (1 # 2) end) in *.
    destruct (IH (Some imp) s) as (C' & R' & Hh' & F').
    assert (Hp : match n with
                 | O => Some imp
                 | S _ => Some match Some imp with
                               | Some v => v
                               | None => VFloat (1 # 2)
                               end
                 end = Some imp) by (destruct n; reflexivity).
    rewrite Hp in *.
    split; [congruence|]. split; [congruence|]. split; [congruence|].
    intros k. rewrite F, F', R'.
    destruct (fst (f content (Some imp) kwargs (host s))); [|reflexivity].
    destruct k; cbn; lia.
Qed.

(** X12: each [integrate_research_loop] adds one layer.  Under [n >= 1]
    layers the original step runs once; the caller gets the state it
    returned, unless reading the latest finding out of that state raises,
    and then gets that exception; the finding normalizer is entered [n]
    times when the state has a latest finding and not at all otherwise. *)
Theorem research_agent_under_n_layers
    (n : nat) (f : PyVal -> H -> Result PyVal * H) (state : PyVal) (s : St G H) :
  let o := execute_research_step (wrapped_research_agent ext (S n) f) state s in
  host_calls (events o) = 1%nat
  /\ host (final o) = snd (f state (host s))
  /\ result o = match fst (f state (host s)) with
                | Ok result_state =>
                    match latest_finding_data result_state with
                    | Ok _ => Ok result_state
                    | Raise e => Raise e
                    end
                | Raise e => Raise e
                end
  /\ (forall k, fired k (events o)
                = match fst (f state (host s)) with
                  | Ok result_state =>
                      match latest_finding_data result_state with
                      | Ok (Some _) => if EventKind_eqb k Finding then S n else 0%nat
                      | _ => 0%nat
                      end
                  | Raise _ => 0%nat
                  end).
Proof.
  cbn zeta. induction n as [|n IH].
  - change (execute_research_step (wrapped_research_agent ext 1 f) state s)
      with (enhanced_execute_step ext
              (fun st => call_host (G:=G) "execute_research_step" (f st)) state s).
    destruct (enhanced_step_layer ext
                (fun st => call_host (G:=G) "execute_research_step" (f st)) state s)
      as (R & Hh & F & C).
    destruct (call_host_outcome (G:=G) "execute_research_step" (f state) s)
      as (R0 & Hh0 & F0 & C0).
    cbn zeta in *. rewrite R0 in R, F.
    split; [congruence|]. split; [congruence|]. split; [exact R|].
    intros k. rewrite F, F0.
    destruct (fst (f state (host s))) as [rs|e]; [|reflexivity].
    destruct (latest_finding_data rs) as [[d|]|e]; reflexivity.
  - change (execute_research_step (wrapped_research_agent ext (S (S n)) f) state s)
      with (enhanced_execute_step ext
              (execute_research_step (wrapped_research_agent ext (S n) f)) state s).
    destruct (enhanced_step_layer ext
                (execute_research_step (wrapped_research_agent ext (S n) f)) state s)
      as (R & Hh & F & C).
    destruct IH as (C' & Hh' & R' & F').
    cbn zeta in *. rewrite R' in R, F.
    split; [congruence|]. split; [congruence|].
    destruct (fst (f state (host s))) as [rs|e].
    + destruct (latest_finding_data rs) as [[d|]|e] eqn:E; cbn in R, F;
        rewrite ?E in R, F; (split; [exact R|]);
        intros k; rewrite F, F'; try reflexivity.
      destruct k; cbn; lia.
    + split; [exact R|]. intros k. rewrite F, F'. reflexivity.
Qed.

(** X13: the wrapped RLHF capture never enters a normalizer and never
    touches the counters or the registry.  After an original that returned
    it logs one context event of type [rlhf_capture], relevance [0.5], that
    names the session; after an original that raised it calls nothing. *)
Theorem rlhf_capture_logs_one_context_event_and_counts_nothing
    (f : PyVal -> PyVal -> PyVal -> H -> Result PyVal * H)
    (research_result research_question session_id : PyVal) (s : St G H) :
  let o :=
    call_capture_research_output
      (integrate_rlhf_system ext (mkRLHFSystem (Some (host_feedback_collector f))))
      research_result research_question session_id s in
  integration_stats (final o) = integration_stats s
  /\ integration_hooks (final o) = integration_hooks s
  /\ host (final o) = snd (f research_result research_question session_id (host s))
  /\ (forall k, fired k (events o) = 0%nat)
  /\ forwarded (events o)
     = match fst (f research_result research_question session_id (host s)) with
       | Ok _ =>
           [record_context_event
              "rlhf_capture"
              ("Research output captured for feedback: " ++ str ext session_id)
              (1 # 2)]
       | Raise _ => []
       end.
Proof.
  cbn zeta.
  unfold call_capture_research_output, integrate_rlhf_system, enhanced_capture_output.
  cbn [feedback_collector capture_research_output host_feedback_collector].
  unfold_monad. cbn.
  destruct (f research_result research_question session_id (host s))
    as [[r|e] h']; cbn.
  - destruct (client ext _ (semantic_graph s)) as [[v|e] g']; cbn; repeat split.
  - repeat split.
Qed.

(** X14: keyword arguments of a wrapped save reach the normalizer.  The
    payload it is entered with, right after an original that returned,
    carries every keyword argument; [content] and the importance are the
    call's, [memory_type] is [research_finding] and [session_id] is the
    manager's [current_episode_id] after the call (or [default]), unless a
    keyword argument of that name replaces them. *)
Theorem keyword_arguments_reach_the_memory_payload
    (f : PyVal -> option PyVal -> Dict -> H -> Result PyVal * H)
    (episode : H -> option PyVal)
    (content : PyVal) (importance : option PyVal) (kwargs : Dict) (s : St G H)
    (r : PyVal) (h' : H) :
  let passed := match importance with Some v => v | None => VFloat (1 # 2) end in
  is_dict kwargs ->
  f content (Some passed) kwargs (host s) = (Ok r, h') ->
  exists payload rest,
    events (save_research_finding
              (integrate_memory_manager ext (host_memory_manager f episode))
              content importance kwargs s)
    = HostCalled "save_research_finding" :: HookFired MemoryWrite payload :: rest
    /\ (forall key v, Py.lookup kwargs key = Some v -> Py.lookup payload key = Some v)
    /\ (forall key, Py.lookup kwargs key = None ->
          Py.lookup payload key
          = Py.lookup [("content", content); ("importance", passed);
                       ("memory_type", VStr "research_finding");
                       ("session_id",
                        match episode h' with Some v => v | None => VStr "default" end)]
                      key).
Proof.
  cbn zeta. intros Hd Hf.
  cbn [save_research_finding integrate_memory_manager host_memory_manager
       current_episode_id].
  unfold enhanced_save_finding. unfold_monad. cbn.
  rewrite Hf; cbn.
  match goal with
  | |- context [_handle_memory_output ext ?d ?s'] =>
      pose proof (handler_post ext MemoryWrite d s') as Hp;
      cbn [handler] in Hp;
      destruct (_handle_memory_output ext d s') as [[v|e'] s3 evs3];
      destruct Hp as ((v' & Hv) & _ & _ & _ & _ & _ & _ & (rest & Hev));
      cbn in *; [|discriminate Hv]
  end.
  subst evs3. eexists _, rest. split; [rewrite app_nil_r; reflexivity|]. split.
  - intros key v0 Hl. now apply lookup_update_present.
  - intros key Hl. now apply lookup_update_absent.
Qed.

(** X15: the wrapped research step reports the last finding of the state
    the original returned, whether or not this step added it: the payload is
    built from the last element of [findings] alone, with the fixed
    confidence [0.7]; the state itself goes back to the caller. *)
Theorem research_step_captures_the_last_finding
    (f : PyVal -> H -> Result PyVal * H) (state : PyVal) (s : St G H)
    (result_state : Dict) (earlier : list PyVal) (latest : Dict) (h' : H) :
  f state (host s) = (Ok (VDict result_state), h') ->
  Py.lookup result_state "findings" = Some (VList (earlier ++ [VDict latest])) ->
  let o := execute_research_step
             (integrate_research_loop ext (host_research_agent f)) state s in
  result o = Ok (VDict result_state)
  /\ host (final o) = h'
  /\ exists rest,
       events o
       = HostCalled "execute_research_step"
         :: HookFired Finding
              [("finding", Py.get latest "analysis" (VStr ""));
               ("step_info",
                VDict [("step_number", Py.get latest "step" (VInt 0));
                       ("step_description",
                        Py.get latest "step_description" (VStr ""))]);
               ("confidence", VFloat (7 # 10));
               ("sources", Py.get latest "external_research" (VList []));
               ("analysis", Py.get latest "analysis" (VStr ""))]
         :: rest.
Proof.
  intros Hf Hl. cbn zeta.
  cbn [execute_research_step integrate_research_loop host_research_agent].
  unfold enhanced_execute_step. unfold_monad. cbn.
  rewrite Hf; cbn.
  cbv [Py.contains Py.mem Py.getitem]. rewrite Hl. cbn.
  assert (Ht : Py.truthy (VList (earlier ++ [VDict latest])) = true).
  { cbv [Py.truthy]. destruct earlier; reflexivity. }
  assert (Hlast : Py.getitem_last (VList (earlier ++ [VDict latest]))
                  = Ok (VDict latest)).
  { cbv [Py.getitem_last]. rewrite rev_app_distr. reflexivity. }
  rewrite Ht, Hlast. cbn. cbv [Py.get_method]. cbn.
  match goal with
  | |- context [_handle_finding ext ?d ?s'] =>
      pose proof (handler_post ext Finding d s') as Hp;
      cbn [handler] in Hp;
      destruct (_handle_finding ext d s') as [[v|e'] s3 evs3];
      destruct Hp as ((v' & Hv) & _ & Hhost & _ & _ & _ & _ & (rest & Hev));
      cbn in *; [|discriminate Hv]
  end.
  subst evs3. split; [reflexivity|]. split; [assumption|].
  exists rest. rewrite !app_nil_r. reflexivity.
Qed.

End MoreWrappers.

(** ** Queries, registry and wiring *)

Section MoreQueries.

Variables G H : Type.
Variable ext : Externals G.

(** X16: the queries and the flush are not failure-isolated the way the
    normalizers are: an exception of the one call each makes on the semantic
    graph reaches the caller as it is.  None of the three changes the
    counters, the registry or the host state, and a flush that returns made
    exactly the call [process_pending_ingestion]. *)
Theorem queries_hand_on_the_exceptions_of_the_graph (s : St G H) :
  (forall e g, client ext get_comprehensive_stats (semantic_graph s) = (Raise e, g) ->
     result (get_integration_statistics ext s) = Raise e)
  /\ (forall e g,
        client ext get_monitoring_dashboard_data (semantic_graph s) = (Raise e, g) ->
        result (get_integration_health ext s) = Raise e)
  /\ (forall e g, client ext process_pending_ingestion (semantic_graph s) = (Raise e, g) ->
        result (process_pending_events ext s) = Raise e)
  /\ (forall v g, client ext process_pending_ingestion (semantic_graph s) = (Ok v, g) ->
        result (process_pending_events ext s) = Ok tt
        /\ forwarded (events (process_pending_events ext s))
           = [process_pending_ingestion])
  /\ (integration_stats (final (get_integration_statistics ext s)) = integration_stats s
      /\ integration_hooks (final (get_integration_statistics ext s))
         = integration_hooks s
      /\ host (final (get_integration_statistics ext s)) = host s)
  /\ (integration_stats (final (get_integration_health ext s)) = integration_stats s
      /\ integration_hooks (final (get_integration_health ext s)) = integration_hooks s
      /\ host (final (get_integration_health ext s)) = host s)
  /\ (integration_stats (final (process_pending_events ext s)) = integration_stats s
      /\ integration_hooks (final (process_pending_events ext s)) = integration_hooks s
      /\ host (final (process_pending_events ext s)) = host s).
Proof.
  unfold get_integration_statistics, get_integration_health, process_pending_events.
  unfold_monad. cbn.
  split; [intros e g E; rewrite E; reflexivity|].
  split; [intros e g E; rewrite E; reflexivity|].
  split; [intros e g E; rewrite E; reflexivity|].
  split; [intros v g E; rewrite E; split; reflexivity|].
  repeat split; repeat run_step;
    try destruct (Py.sum (Py.values (integration_stats s)) >? 0)%Z; reflexivity.
Qed.

(** X17: in a reachable state the registry answers to exactly the seven
    names of [_register_integration_hooks]; any other name raises [KeyError]
    and does nothing.  The registry names are not the counter names: the
    names of the counters for findings, plans, preferences and monitoring
    find no hook. *)
Theorem hooks_answer_to_their_registry_names_only
    (payload : Dict) (s : St G H) :
  reachable ext s ->
  (forall name k,
     In (name, k)
        [("memory_writes", MemoryWrite); ("tool_usage_logs", ToolUsage);
         ("findings_capture", Finding); ("retrieval_calls", Retrieval);
         ("plan_generation", Planning); ("preference_logging", Preference);
         ("monitoring", Monitoring)] ->
     call_hook ext name payload s = handler ext k payload s)
  /\ (forall name,
        ~ In name ["memory_writes"; "tool_usage_logs"; "findings_capture";
                   "retrieval_calls"; "plan_generation"; "preference_logging";
                   "monitoring"] ->
        call_hook ext name payload s
        = mkOutcome (Raise (Py.KeyError ("'" ++ name ++ "'"))) s [])
  /\ (forall k, In k [Finding; Planning; Preference; Monitoring] ->
        result (call_hook ext (counter_key k) payload s)
        = Raise (Py.KeyError ("'" ++ counter_key k ++ "'"))).
Proof.
  intros Hr. destruct (reachable_invariant Hr) as (Hh & _ & _).
  unfold call_hook. rewrite Hh. split; [|split].
  - intros name k Hin. cbn in Hin.
    repeat (destruct Hin as [Hin|Hin]; [inversion Hin; subst; reflexivity|]).
    contradiction.
  - intros name Hn. rewrite lookup_not_in_keys; [reflexivity|exact Hn].
  - intros k Hin. cbn in Hin.
    repeat (destruct Hin as [Hin|Hin]; [subst; reflexivity|]).
    contradiction.
Qed.

End MoreQueries.

Section MoreWiring.

Variables G H : Type.
Variable ext : Externals G.
Variable create_semantic_graph_agent : bool -> option Dict -> Result G.

Lemma first_bound_tool_skips_unbound (pre post : list (option nat)) (target : nat) :
  Forall (fun tool => tool = None) pre ->
  first_bound_tool (pre ++ Some target :: post)%list = Some target.
Proof.
  induction 1 as [|tool pre Htool _ IH]; cbn; [reflexivity|].
  now rewrite Htool.
Qed.

Lemma view_rebound (store : nat -> HostObject (MemoryManager G H)) (target : nat)
    (enhanced : MemoryManager G H) :
  rebind_memory_manager store target enhanced target
  = mkHostObject (object_class (store target)) (Some enhanced)
  /\ forall other, other <> target ->
       rebind_memory_manager store target enhanced other = store other.
Proof.
  unfold rebind_memory_manager. split.
  - now rewrite Nat.eqb_refl.
  - intros other Hne. apply Nat.eqb_neq in Hne. now rewrite Hne.
Qed.

(** Splits the helper into the cases of what the agent's attributes hold. *)
Ltac wire_cases research_agent :=
  unfold integrate_research_agent_with_semantic_graph,
         wire_memory, wire_tool_executor, wire_research_loop, wire_rlhf,
         memory_tools_ready, tool_executor_ready, feedback_collector_ready in *;
  destruct research_agent as [cls objects tools executor step enabled collector];
  cbn in *;
  destruct tools as [[tools|tools_class]|];
  [ destruct (first_bound_tool tools) as [first|] eqn:Efirst;
    [ destruct (view (objects first)) as [manager|] eqn:Emanager | ] | | ];
  cbn in *;
  (destruct executor as [[executor_class [invoker|]]|]);
  cbn in *;
  (destruct step as [original_execute_step|]);
  cbn in *;
  (destruct enabled as [enabled|]; [destruct (Py.truthy enabled) eqn:Eenabled|]);
  cbn in *;
  (destruct collector as [[collector_class [capturer|]]|]);
  cbn in *.

(** X18: of the objects behind the agent's memory tools the helper looks at
    one: the object of the first tool that has a bound function; tools in
    front of it are skipped.  When that object has [save_research_finding],
    it is rebound, the objects behind the other tools keep what they had and
    the tools still point where they pointed, so every tool bound to that
    manager is instrumented with it; this holds also when the helper raises
    later.  When that object has no [save_research_finding], the helper
    raises [AttributeError] and leaves the agent untouched: no later tool is
    tried. *)
Theorem wiring_rebinds_the_first_bound_memory_manager_only
    (research_agent : HostAgent G H) (use_neo4j : bool) (neo4j_config : option Dict)
    (h : H) (semantic_graph_agent : G)
    (pre post : list (option nat)) (target : nat) :
  create_semantic_graph_agent use_neo4j neo4j_config = Ok semantic_graph_agent ->
  advanced_memory_tools research_agent
  = Some (tool_list (pre ++ Some target :: post)%list) ->
  Forall (fun tool => tool = None) pre ->
  let outcome :=
    integrate_research_agent_with_semantic_graph
      ext create_semantic_graph_agent research_agent use_neo4j neo4j_config h in
  (forall manager,
     view (memory_objects research_agent target) = Some manager ->
     memory_objects (snd outcome) target
     = mkHostObject (object_class (memory_objects research_agent target))
                    (Some (integrate_memory_manager ext manager))
     /\ (forall other, other <> target ->
           memory_objects (snd outcome) other = memory_objects research_agent other)
     /\ advanced_memory_tools (snd outcome) = advanced_memory_tools research_agent)
  /\ (view (memory_objects research_agent target) = None ->
      outcome
      = (Raise (no_attribute (object_class (memory_objects research_agent target))
                             "save_research_finding"),
         research_agent)).
Proof.
  intros Hc Ht Hpre. cbn zeta.
  pose proof (first_bound_tool_skips_unbound post target Hpre) as Hfirst.
  wire_cases research_agent; rewrite Hc; cbn;
    try discriminate Ht; inversion Ht; subst tools;
    rewrite Hfirst in Efirst; try discriminate Efirst;
    inversion Efirst; subst first; rewrite Emanager.
  all: split; [intros manager' Hm | intros Hm]; try discriminate Hm;
    try reflexivity.
  all: inversion Hm; subst manager'.
  all: destruct (view_rebound objects target (integrate_memory_manager ext manager))
    as [Hsame Hother].
  all: split; [exact Hsame|]; split; [exact Hother | reflexivity].
Qed.

(** X19: how the helper fails, and what it has rebound by then.  When the
    graph agent cannot be built, that exception is raised and the agent is
    untouched; likewise for memory tools that cannot be iterated over
    ([TypeError]).  A tool executor without [invoke] (such as [None]) raises
    [AttributeError] after the first bound memory manager was rebound.  An
    agent without [execute_research_step] raises [AttributeError] after the
    memory manager and the tool executor were rebound.  A feedback collector
    without [capture_research_output], under a truthy [rlhf_enabled], raises
    [AttributeError] after the research step was rebound as well.  In each
    case what was rebound stays instrumented and nothing behind the failing
    attribute is touched. *)
Theorem failed_wiring_keeps_what_it_had_rebound
    (research_agent : HostAgent G H) (use_neo4j : bool) (neo4j_config : option Dict)
    (h : H) :
  let outcome :=
    integrate_research_agent_with_semantic_graph
      ext create_semantic_graph_agent research_agent use_neo4j neo4j_config h in
  let memory_manager_rebound :=
    forall tools target,
      advanced_memory_tools research_agent = Some (tool_list tools) ->
      first_bound_tool tools = Some target ->
      view (memory_objects (snd outcome) target)
      = option_map (integrate_memory_manager ext)
                   (view (memory_objects research_agent target)) in
  let tool_executor_rebound :=
    tool_executor (snd outcome)
    = option_map
        (fun executor =>
           mkHostObject (object_class executor)
                        (option_map (integrate_tool_executor ext) (view executor)))
        (tool_executor research_agent) in
  (forall e,
     create_semantic_graph_agent use_neo4j neo4j_config = Raise e ->
     outcome = (Raise e, research_agent))
  /\ (forall semantic_graph_agent,
        create_semantic_graph_agent use_neo4j neo4j_config = Ok semantic_graph_agent ->
        (forall class_name,
           advanced_memory_tools research_agent = Some (not_iterable class_name) ->
           outcome
           = (Raise (Py.TypeError ("'" ++ class_name ++ "' object is not iterable")),
              research_agent))
        /\ (memory_tools_ready research_agent = true ->
            forall executor,
              tool_executor research_agent = Some executor ->
              view executor = None ->
              fst outcome = Raise (no_attribute (object_class executor) "invoke")
              /\ memory_manager_rebound
              /\ tool_executor (snd outcome) = tool_executor research_agent
              /\ research_step (snd outcome) = research_step research_agent
              /\ agent_feedback_collector (snd outcome)
                 = agent_feedback_collector research_agent)
        /\ (memory_tools_ready research_agent = true ->
            tool_executor_ready research_agent = true ->
            research_step research_agent = None ->
            fst outcome
            = Raise (no_attribute (agent_class research_agent) "execute_research_step")
            /\ memory_manager_rebound
            /\ tool_executor_rebound
            /\ agent_feedback_collector (snd outcome)
               = agent_feedback_collector research_agent)
        /\ (memory_tools_ready research_agent = true ->
            tool_executor_ready research_agent = true ->
            forall original_execute_step enabled collector,
              research_step research_agent = Some original_execute_step ->
              rlhf_enabled research_agent = Some enabled ->
              Py.truthy enabled = true ->
              agent_feedback_collector research_agent = Some collector ->
              view collector = None ->
              fst outcome
              = Raise (no_attribute (object_class collector) "capture_research_output")
              /\ memory_manager_rebound
              /\ tool_executor_rebound
              /\ research_step (snd outcome)
                 = Some (enhanced_execute_step ext original_execute_step)
              /\ agent_feedback_collector (snd outcome)
                 = agent_feedback_collector research_agent)).
Proof.
  cbn zeta. split.
  - intros e Hc. unfold integrate_research_agent_with_semantic_graph.
    now rewrite Hc.
  - intros g Hc.
    wire_cases research_agent; rewrite Hc; cbn.
    all: (split; [intros c Hn; try discriminate Hn; inversion Hn; reflexivity|]).
    all: (split; [intros Hm x Hx Hv; try discriminate Hm; try discriminate Hx;
                  inversion Hx; subst x; cbn in Hv; try discriminate Hv|]).
    all: try (split; [intros Hm Hx Hs; try discriminate Hm; try discriminate Hx;
                  try discriminate Hs|]).
    all: try (intros Hm Hx m en co Hs He Ht Hco Hv; try discriminate Hm;
              try discriminate Hx; try discriminate Hs; try discriminate He;
              try discriminate Hco; inversion Hs; inversion He; inversion Hco;
              subst; cbn in Hv; try discriminate Hv; try congruence).
    all: repeat split; try reflexivity.
    all: try (intros tools' target' Ht' Hf'; try discriminate Ht';
              inversion Ht'; subst tools'; rewrite Efirst in Hf';
              try discriminate Hf'; inversion Hf'; subst target';
              cbn; unfold rebind_memory_manager; rewrite ?Nat.eqb_refl; cbn;
              rewrite ?Emanager; reflexivity).
Qed.

(** X20: the helper returns an instance exactly when the graph agent can be
    built, the agent has its research step and every attribute that the
    helper reads has the method read from it.  The instance is fresh on that
    graph: reachable, all counters at zero, the host state as it was.  The
    research step has one more layer, the tool executor and the first bound
    memory manager have one more layer when the agent has them, and the
    feedback collector's capture is wrapped exactly when [rlhf_enabled] is
    there and truthy and the collector is there. *)
Theorem wiring_returns_a_fresh_instance
    (research_agent : HostAgent G H) (use_neo4j : bool) (neo4j_config : option Dict)
    (h : H) :
  let outcome :=
    integrate_research_agent_with_semantic_graph
      ext create_semantic_graph_agent research_agent use_neo4j neo4j_config h in
  (forall semantic_graph_agent original_execute_step,
     create_semantic_graph_agent use_neo4j neo4j_config = Ok semantic_graph_agent ->
     memory_tools_ready research_agent = true ->
     tool_executor_ready research_agent = true ->
     research_step research_agent = Some original_execute_step ->
     feedback_collector_ready research_agent = true ->
     exists integration wired,
       outcome = (Ok integration, wired)
       /\ reachable ext integration
       /\ total_events integration = 0%Z
       /\ semantic_graph integration = semantic_graph_agent
       /\ host integration = h
       /\ research_step wired = Some (enhanced_execute_step ext original_execute_step)
       /\ tool_executor wired
          = option_map
              (fun executor =>
                 mkHostObject (object_class executor)
                              (option_map (integrate_tool_executor ext) (view executor)))
              (tool_executor research_agent)
       /\ (forall tools target,
             advanced_memory_tools research_agent = Some (tool_list tools) ->
             first_bound_tool tools = Some target ->
             view (memory_objects wired target)
             = option_map (integrate_memory_manager ext)
                          (view (memory_objects research_agent target)))
       /\ agent_feedback_collector wired
          = match rlhf_enabled research_agent with
            | Some enabled =>
                if Py.truthy enabled
                then option_map
                       (fun collector =>
                          mkHostObject
                            (object_class collector)
                            (option_map
                               (fun capturer =>
                                  mkFeedbackCollector
                                    (enhanced_capture_output
                                       ext (capture_research_output capturer)))
                               (view collector)))
                       (agent_feedback_collector research_agent)
                else agent_feedback_collector research_agent
            | None => agent_feedback_collector research_agent
            end)
  /\ (forall integration,
        fst outcome = Ok integration ->
        (exists semantic_graph_agent,
           create_semantic_graph_agent use_neo4j neo4j_config = Ok semantic_graph_agent)
        /\ memory_tools_ready research_agent = true
        /\ tool_executor_ready research_agent = true
        /\ research_step research_agent <> None
        /\ feedback_collector_ready research_agent = true).
Proof.
  cbn zeta. split.
  - intros g m Hc Hm Hx Hs Hf.
    wire_cases research_agent; rewrite Hc; cbn;
      try discriminate Hm; try discriminate Hx; try discriminate Hs;
      try discriminate Hf; inversion Hs; subst.
    all: eexists _, _; split; [reflexivity|].
    all: split; [apply reachable_init|].
    all: repeat split; try reflexivity.
    all: try (rewrite Eenabled; reflexivity).
    all: intros tools' target' Ht' Hf'; try discriminate Ht';
         inversion Ht'; subst tools'; rewrite Efirst in Hf';
         try discriminate Hf'; inversion Hf'; subst target';
         cbn; unfold rebind_memory_manager; rewrite ?Nat.eqb_refl; cbn;
         rewrite ?Emanager; reflexivity.
  - intros integration Hr.
    destruct (create_semantic_graph_agent use_neo4j neo4j_config) as [g|e] eqn:Hc.
    + wire_cases research_agent; rewrite Hc in Hr; cbn in Hr; try discriminate Hr.
      all: rewrite ?Eenabled; repeat split; try reflexivity;
           try (eexists; reflexivity); try discriminate.
    + unfold integrate_research_agent_with_semantic_graph in Hr.
      rewrite Hc in Hr. discriminate Hr.
Qed.

End MoreWiring.

(** ** The further properties at work in the concrete world *)

Lemma planning_witness :
  result (handler Demo.healthy Planning [("research_question", VStr "why")] Demo.start)
  = Ok Demo.plan_answer
  /\ counter Planning
       (final (handler Demo.healthy Planning [("research_question", VStr "why")]
                       Demo.start))
     = 1%Z.
Proof.
  destruct (@planning_passes_the_plan_through
              nat nat Demo.healthy [("research_question", VStr "why")] Demo.start
              (reachable_init Demo.healthy 0%nat 0%nat) eq_refl)
    as (plan & n & ts & ack & Hev & _ & Hres & Hcount & _).
  split; [|exact Hcount].
  rewrite Hres. cbv in Hev. inversion Hev. reflexivity.
Defined.

Lemma memory_write_witness :
  result (handler Demo.healthy MemoryWrite
                  [("content", VStr "graph notes"); ("debug", VBool true);
                   ("concepts", VList [VStr "graph"])]
                  Demo.start)
  = Ok (VStr "Memory content ingested into semantic graph: 11 chars").
Proof.
  exact (proj1 (@memory_write_reports_length_and_forwards_known_fields
                  nat nat Demo.healthy
                  [("content", VStr "graph notes"); ("debug", VBool true);
                   ("concepts", VList [VStr "graph"])]
                  "graph notes" Demo.start
                  (reachable_init Demo.healthy 0%nat 0%nat) eq_refl eq_refl)).
Defined.

Lemma unsized_content_witness :
  result (handler Demo.healthy MemoryWrite [("content", VInt 7)] Demo.start)
  = Ok (VStr "Memory integration error: object of type 'int' has no len()")
  /\ counter MemoryWrite
       (final (handler Demo.healthy MemoryWrite [("content", VInt 7)] Demo.start))
     = 1%Z
  /\ result (handler Demo.healthy Finding [("finding", VNone)] Demo.start)
     = Ok (VStr "Finding capture error: object of type 'NoneType' has no len()")
  /\ counter Finding
       (final (handler Demo.healthy Finding [("finding", VNone)] Demo.start))
     = 1%Z.
Proof.
  destruct (@unsized_content_is_counted_and_reported_as_error
              nat nat Demo.healthy [("content", VInt 7)]
              (Py.TypeError "object of type 'int' has no len()") Demo.start
              (reachable_init Demo.healthy 0%nat 0%nat)) as (Hmem & _).
  destruct (@unsized_content_is_counted_and_reported_as_error
              nat nat Demo.healthy [("finding", VNone)]
              (Py.TypeError "object of type 'NoneType' has no len()") Demo.start
              (reachable_init Demo.healthy 0%nat 0%nat)) as (_ & Hfind).
  destruct (Hmem eq_refl eq_refl) as (R1 & C1 & _).
  destruct (Hfind eq_refl (ex_intro _ (VInt 0) eq_refl) eq_refl) as (R2 & C2 & _).
  exact (conj R1 (conj C1 (conj R2 C2))).
Defined.

Lemma tool_usage_witness :
  counter ToolUsage
    (final (handler Demo.healthy ToolUsage
                    [("tool_name", VStr "search"); ("success", VBool false);
                     ("error", VStr "boom")]
                    Demo.start))
  = 1%Z.
Proof.
  exact (proj1 (proj2 (@tool_usage_is_counted_whatever_the_outcome
                         nat nat Demo.healthy
                         [("tool_name", VStr "search"); ("success", VBool false);
                          ("error", VStr "boom")]
                         Demo.start
                         (reachable_init Demo.healthy 0%nat 0%nat) eq_refl))).
Defined.

Lemma monitoring_failed_step_witness :
  forwarded (events (handler Demo.healthy Monitoring
                             [("step_name", VStr "plan"); ("success", VBool false)]
                             Demo.start))
  = [record_operation_time (VStr "plan") (VFloat (0 * 1000));
     record_error (VStr "general_error");
     record_context_event "monitoring" "Step: plan, Time: 0.00s" (3 # 10)].
Proof.
  exact (proj1 (@monitoring_records_an_error_exactly_for_failed_steps
                  nat nat Demo.healthy
                  [("step_name", VStr "plan"); ("success", VBool false)]
                  (VFloat (0 * 1000)) "0.00" Demo.start
                  (reachable_init Demo.healthy 0%nat 0%nat)
                  eq_refl eq_refl eq_refl)).
Defined.

Lemma monitoring_unformattable_witness :
  result (handler Demo.healthy Monitoring [("execution_time", VList [])] Demo.start)
  = Ok (VStr "Monitoring integration error: unsupported format string passed to list.__format__")
  /\ integration_stats
       (final (handler Demo.healthy Monitoring [("execution_time", VList [])]
                       Demo.start))
     = integration_stats Demo.start.
Proof.
  exact (proj2 (@monitoring_with_unformattable_time_keeps_its_side_effects
                  nat nat Demo.healthy [("execution_time", VList [])]
                  (VList [])
                  (Py.TypeError "unsupported format string passed to list.__format__")
                  Demo.start eq_refl eq_refl eq_refl)).
Defined.

Lemma malformed_step_info_witness :
  events (handler Demo.healthy Finding
                  [("finding", VStr "x"); ("step_info", VStr "first")] Demo.start)
  = [HookFired Finding [("finding", VStr "x"); ("step_info", VStr "first")]].
Proof.
  exact (proj1 (proj2 (@finding_with_malformed_step_info_is_dropped
                         nat nat Demo.healthy
                         [("finding", VStr "x"); ("step_info", VStr "first")]
                         (Py.AttributeError "'str' object has no attribute 'get'")
                         Demo.start eq_refl))).
Defined.

Lemma preference_witness :
  result (handler Demo.healthy Preference [("user_id", VStr "ada")] Demo.start)
  = Ok (VStr "User preference recorded: pref_1").
Proof.
  destruct (@preference_is_recorded_through_the_feedback_call
              nat nat Demo.healthy [("user_id", VStr "ada")] Demo.start
              (reachable_init Demo.healthy 0%nat 0%nat) eq_refl)
    as (id & Hev & Hres & _).
  rewrite Hres. cbv in Hev. inversion Hev. reflexivity.
Defined.

Lemma successful_tool_call_witness :
  let o := invoke (integrate_tool_executor Demo.failing
                     (host_tool_executor Demo.tool_ok))
                  Demo.tool_input Demo.start in
  result o = Ok (VStr "42")
  /\ host (final o) = 1%nat
  /\ (exists rest,
        events o
        = HostCalled "invoke"
          :: HookFired ToolUsage
               [("tool_name", VStr "search");
                ("tool_input", VStr "rocq");
                ("tool_output", VStr "42");
                ("execution_time", VFloat (Qmake 1 1000000));
                ("success", VBool true);
                ("error", VNone)]
          :: rest)
  /\ fired ToolUsage (events o) = 1%nat
  /\ host_calls (events o) = 1%nat.
Proof.
  destruct (@successful_tool_call_is_returned_whatever_the_graph_does
              nat nat Demo.failing Demo.tool_ok Demo.tool_input Demo.start
              (VStr "42") 1%nat eq_refl)
    as (Hres & Hhost & Hev & Hfired & Hcalls).
  exact (conj Hres (conj Hhost (conj Hev (conj (Hfired ToolUsage) Hcalls)))).
Defined.

Lemma keyword_arguments_witness :
  exists payload rest,
    events (save_research_finding
              (integrate_memory_manager
                 Demo.healthy (host_memory_manager Demo.save_ok Demo.no_episode))
              (VStr "note") None [("concepts", VList [VStr "graph"])] Demo.start)
    = HostCalled "save_research_finding" :: HookFired MemoryWrite payload :: rest
    /\ Py.lookup payload "concepts" = Some (VList [VStr "graph"])
    /\ Py.lookup payload "importance" = Some (VFloat (1 # 2)).
Proof.
  assert (Hd : is_dict [("concepts", VList [VStr "graph"])]).
  { unfold is_dict, Py.keys. cbn. constructor; [intros []|constructor]. }
  destruct (@keyword_arguments_reach_the_memory_payload
              nat nat Demo.healthy Demo.save_ok Demo.no_episode
              (VStr "note") None [("concepts", VList [VStr "graph"])] Demo.start
              (VStr "saved") 1%nat Hd eq_refl)
    as (payload & rest & Hev & Hin & Hout).
  exists payload, rest. split; [exact Hev|]. split.
  - apply Hin. reflexivity.
  - rewrite (Hout "importance" eq_refl). reflexivity.
Defined.

Lemma last_finding_witness :
  result (execute_research_step
            (integrate_research_loop Demo.healthy (host_research_agent Demo.step_ok))
            Demo.research_state Demo.start)
  = Ok Demo.research_state.
Proof.
  exact (proj1 (@research_step_captures_the_last_finding
                  nat nat Demo.healthy Demo.step_ok Demo.research_state Demo.start
                  [("research_question", VStr "why");
                   ("findings",
                    VList [VDict [("analysis", VStr "because"); ("step", VInt 0)]])]
                  [] [("analysis", VStr "because"); ("step", VInt 0)] 1%nat
                  eq_refl eq_refl)).
Defined.

Lemma queries_witness :
  result (get_integration_statistics Demo.failing Demo.start) = Raise Demo.backend_down
  /\ result (process_pending_events Demo.healthy Demo.start) = Ok tt.
Proof.
  destruct (@queries_hand_on_the_exceptions_of_the_graph nat nat Demo.failing Demo.start)
    as (Hstats & _).
  destruct (@queries_hand_on_the_exceptions_of_the_graph nat nat Demo.healthy Demo.start)
    as (_ & _ & _ & Hflush & _).
  split.
  - exact (Hstats Demo.backend_down 1%nat eq_refl).
  - exact (proj1 (Hflush VNone 1%nat eq_refl)).
Defined.

Lemma registry_names_witness :
  result (call_hook Demo.healthy "findings_captured" [] Demo.start)
  = Raise (Py.KeyError "'findings_captured'")
  /\ call_hook Demo.healthy "findings_capture" [] Demo.start
     = handler Demo.healthy Finding [] Demo.start.
Proof.
  destruct (@hooks_answer_to_their_registry_names_only
              nat nat Demo.healthy [] Demo.start
              (reachable_init Demo.healthy 0%nat 0%nat)) as (Hnames & _ & Hcounters).
  split.
  - apply (Hcounters Finding). left; reflexivity.
  - apply Hnames. right; right; left; reflexivity.
Defined.

Lemma first_bound_memory_manager_witness :
  let wired :=
    snd (integrate_research_agent_with_semantic_graph
           Demo.healthy Demo.create_ok Demo.agent false None 0%nat) in
  memory_objects wired 0%nat
  = mkHostObject
      "MemoryManager"
      (Some (integrate_memory_manager
               Demo.healthy (host_memory_manager Demo.save_ok Demo.no_episode)))
  /\ memory_objects wired 1%nat = Demo.memory_objects 1%nat
  /\ integrate_research_agent_with_semantic_graph
       Demo.healthy Demo.create_ok Demo.agent_with_foreign_tool false None 0%nat
     = (Raise (Py.AttributeError
                 "'SearchClient' object has no attribute 'save_research_finding'"),
        Demo.agent_with_foreign_tool).
Proof.
  destruct (proj1 (@wiring_rebinds_the_first_bound_memory_manager_only
                     nat nat Demo.healthy Demo.create_ok Demo.agent false None
                     0%nat 0%nat [None] [Some 1%nat; Some 0%nat] 0%nat
                     eq_refl eq_refl (Forall_cons None eq_refl (Forall_nil _)))
                  (host_memory_manager Demo.save_ok Demo.no_episode) eq_refl)
    as (Htarget & Hothers & _).
  split; [exact Htarget|]. split; [apply Hothers; discriminate|].
  exact (proj2 (@wiring_rebinds_the_first_bound_memory_manager_only
                  nat nat Demo.healthy Demo.create_ok Demo.agent_with_foreign_tool
                  false None 0%nat 0%nat [None] [Some 0%nat] 2%nat
                  eq_refl eq_refl (Forall_cons None eq_refl (Forall_nil _)))
               eq_refl).
Defined.

Lemma failed_wiring_witness :
  let wire agent :=
    integrate_research_agent_with_semantic_graph
      Demo.healthy Demo.create_ok agent false None 0%nat in
  integrate_research_agent_with_semantic_graph
    Demo.healthy Demo.create_fails Demo.agent false None 0%nat
  = (Raise Demo.backend_down, Demo.agent)
  /\ wire Demo.agent_with_null_tools
     = (Raise (Py.TypeError "'NoneType' object is not iterable"),
        Demo.agent_with_null_tools)
  /\ (fst (wire Demo.agent_with_null_executor)
      = Raise (Py.AttributeError "'NoneType' object has no attribute 'invoke'")
      /\ view (memory_objects (snd (wire Demo.agent_with_null_executor)) 0%nat)
         = Some (integrate_memory_manager
                   Demo.healthy (host_memory_manager Demo.save_ok Demo.no_episode))
      /\ research_step (snd (wire Demo.agent_with_null_executor))
         = Some (execute_research_step (host_research_agent Demo.step_ok)))
  /\ (fst (wire Demo.agent_without_step)
      = Raise (Py.AttributeError
                 "'CompiledGraph' object has no attribute 'execute_research_step'")
      /\ tool_executor (snd (wire Demo.agent_without_step))
         = Some (mkHostObject
                   "ToolExecutor"
                   (Some (integrate_tool_executor
                            Demo.healthy (host_tool_executor Demo.tool_ok)))))
  /\ (fst (wire Demo.agent_with_bare_collector)
      = Raise (Py.AttributeError
                 "'FeedbackLog' object has no attribute 'capture_research_output'")
      /\ research_step (snd (wire Demo.agent_with_bare_collector))
         = Some (enhanced_execute_step
                   Demo.healthy
                   (execute_research_step (host_research_agent Demo.step_ok)))).
Proof.
  cbn zeta.
  split.
  { exact (proj1 (@failed_wiring_keeps_what_it_had_rebound
                    nat nat Demo.healthy Demo.create_fails Demo.agent false None 0%nat)
                 Demo.backend_down eq_refl). }
  split.
  { exact (proj1 (proj2 (@failed_wiring_keeps_what_it_had_rebound
                           nat nat Demo.healthy Demo.create_ok
                           Demo.agent_with_null_tools false None 0%nat)
                        0%nat eq_refl)
                 "NoneType" eq_refl). }
  split.
  { destruct (proj1 (proj2 (proj2 (@failed_wiring_keeps_what_it_had_rebound
                                     nat nat Demo.healthy Demo.create_ok
                                     Demo.agent_with_null_executor false None 0%nat)
                                  0%nat eq_refl))
                    eq_refl (mkHostObject "NoneType" None) eq_refl eq_refl)
      as (Hraise & Hmemory & _ & Hstep & _).
    split; [exact Hraise|]. split; [|exact Hstep].
    exact (Hmemory [None; Some 0%nat; Some 1%nat; Some 0%nat] 0%nat eq_refl eq_refl). }
  split.
  { destruct (proj1 (proj2 (proj2 (proj2 (@failed_wiring_keeps_what_it_had_rebound
                                     nat nat Demo.healthy Demo.create_ok
                                     Demo.agent_without_step false None 0%nat)
                                  0%nat eq_refl)))
                    eq_refl eq_refl eq_refl)
      as (Hraise & _ & Htool & _).
    split; [exact Hraise | exact Htool]. }
  destruct (proj2 (proj2 (proj2 (proj2 (@failed_wiring_keeps_what_it_had_rebound
                                     nat nat Demo.healthy Demo.create_ok
                                     Demo.agent_with_bare_collector false None 0%nat)
                                  0%nat eq_refl)))
                  eq_refl eq_refl
                  (execute_research_step (host_research_agent Demo.step_ok))
                  (VBool true) (mkHostObject "FeedbackLog" None)
                  eq_refl eq_refl eq_refl eq_refl eq_refl)
    as (Hraise & _ & _ & Hstep & _).
  split; [exact Hraise | exact Hstep].
Defined.

Lemma fresh_instance_witness :
  (exists integration wired,
     integrate_research_agent_with_semantic_graph
       Demo.healthy Demo.create_ok Demo.agent false None 0%nat
     = (Ok integration, wired)
     /\ total_events integration = 0%Z
     /\ research_step wired
        = Some (enhanced_execute_step
                  Demo.healthy
                  (execute_research_step (host_research_agent Demo.step_ok))))
  /\ tool_executor_ready Demo.agent = true.
Proof.
  split.
  - destruct (proj1 (@wiring_returns_a_fresh_instance
                       nat nat Demo.healthy Demo.create_ok Demo.agent false None 0%nat)
                    0%nat (execute_research_step (host_research_agent Demo.step_ok))
                    eq_refl eq_refl eq_refl eq_refl eq_refl)
      as (integration & wired & Heq & _ & Hzero & _ & _ & Hstep & _).
    exists integration, wired. exact (conj Heq (conj Hzero Hstep)).
  - destruct (proj2 (@wiring_returns_a_fresh_instance
                       nat nat Demo.healthy Demo.create_ok Demo.agent false None 0%nat)
                    Demo.start eq_refl)
      as (_ & _ & Hready & _).
    exact Hready.
Defined.
